(** * Verification of the retrieval / scoring / ranking pipeline of [test.py]

  The development embeds the query pipeline ([chat_with_pdfs]), the scoring
  wrapper ([process_chunk]), the ingestion endpoint
  ([analyze_pdfs_endpoint], [PDFAnalyzer.process_pdf]) and the heading
  heuristic ([PDFAnalyzer.extract_headings]) of [test.py] as Rocq functions.

  External collaborators (the file system, the PDF loader, the text
  splitter, the FAISS index, the language-model chain) are section
  variables: total functions that either return a value or raise.  Python
  [float] is IEEE binary64, embedded as Rocq's primitive [float]. *)

From Stdlib Require Import ZArith Lia Floats Ascii String.
From stdpp Require Import base option list sorting strings gmap.

Local Open Scope Z_scope.

(** ** Python floats: the comparisons of binary64 *)

Module PyFloat.

Definition flt (x y : float) : bool := PrimFloat.ltb x y.
Definition fle (x y : float) : bool := PrimFloat.leb x y.
Definition feq (x y : float) : bool := PrimFloat.eqb x y.

(** A float that compares with itself is not a NaN. *)
Definition ordered (x : float) : Prop := fle x x = true.

(** The comparison of the binary64 specification is a lexicographic
    comparison: class first, then exponent, then mantissa. *)
Definition rank (a : spec_float) : Z * Z * Z :=
  match a with
  | S754_nan => (0, 0, 0)
  | S754_zero _ => (0, 0, 0)
  | S754_infinity true => (-2, 0, 0)
  | S754_infinity false => (2, 0, 0)
  | S754_finite true m e => (-1, - e, Z.neg m)
  | S754_finite false m e => (1, e, Z.pos m)
  end.

Definition lexcompare (p q : Z * Z * Z) : comparison :=
  let '(c1, e1, m1) := p in
  let '(c2, e2, m2) := q in
  match c1 ?= c2 with
  | Eq => match e1 ?= e2 with Eq => m1 ?= m2 | r => r end
  | r => r
  end.

Definition SFordered (a : spec_float) : Prop :=
  match a with S754_nan => False | _ => True end.

(** The comparison of two floats that are not NaN. *)
Definition cmp (x y : float) : comparison :=
  lexcompare (rank (Prim2SF x)) (rank (Prim2SF y)).

End PyFloat.

(** ** Python strings

  A [str] is embedded as a [string] whose characters are the code points
  U+0000..U+00FF.  Character classes and case mapping are Python's for that
  range: [str.lower] maps a Latin-1 capital to its small letter and stays
  inside the range. *)

Module PyStr.

Definition code (c : ascii) : N := N_of_ascii c.

Definition in_range (lo hi : N) (c : ascii) : bool :=
  ((lo <=? code c) && (code c <=? hi))%N.

(** [ch.isspace()]: TAB..CR, FS..US, SPACE, NEL, NBSP. *)
Definition ch_isspace (c : ascii) : bool :=
  in_range 9 13 c || in_range 28 32 c
  || (code c =? 133)%N || (code c =? 160)%N.

(** Code points with the Uppercase property. *)
Definition ch_isupper (c : ascii) : bool :=
  in_range 65 90 c || in_range 192 214 c || in_range 216 222 c.

(** Code points with the Lowercase property (including the ordinal
    indicators and the micro sign). *)
Definition ch_islower (c : ascii) : bool :=
  in_range 97 122 c || (code c =? 170)%N || (code c =? 181)%N
  || (code c =? 186)%N || in_range 223 246 c || in_range 248 255 c.

Definition ch_lower (c : ascii) : ascii :=
  if ch_isupper c then ascii_of_N (code c + 32) else c.

(** [s.lower()] *)
Fixpoint lower (s : string) : string :=
  match s with
  | EmptyString => EmptyString
  | String c s' => String (ch_lower c) (lower s')
  end.

(** [len(s)] *)
Definition len (s : string) : Z := Z.of_nat (String.length s).

Fixpoint lstrip (s : string) : string :=
  match s with
  | EmptyString => EmptyString
  | String c s' => if ch_isspace c then lstrip s' else s
  end.

(** [rstrip] drops the trailing white space: a character is kept when it is
    not a space or when something is kept after it. *)
Fixpoint rstrip (s : string) : string :=
  match s with
  | EmptyString => EmptyString
  | String c s' =>
      match rstrip s' with
      | EmptyString => if ch_isspace c then EmptyString else String c EmptyString
      | r => String c r
      end
  end.

(** [s.strip()] *)
Definition strip (s : string) : string := rstrip (lstrip s).

(** [s.split(sep)] for a one-character separator: never the empty list. *)
Fixpoint split (sep : ascii) (s : string) : list string :=
  match s with
  | EmptyString => [EmptyString]
  | String c s' =>
      if decide (c = sep) then EmptyString :: split sep s'
      else match split sep s' with
           | [] => [String c EmptyString]
           | w :: ws => String c w :: ws
           end
  end.

(** [sep.join(parts)] *)
Fixpoint join (sep : string) (parts : list string) : string :=
  match parts with
  | [] => EmptyString
  | [p] => p
  | p :: ps => p +:+ sep +:+ join sep ps
  end.

(** [s.endswith(suffix)] *)
Fixpoint endswith (s suffix : string) : bool :=
  if decide (s = suffix) then true
  else match s with
       | EmptyString => false
       | String _ s' => endswith s' suffix
       end.

(** [s.isupper()]: no lower-case character and at least one upper-case
    one; [cased] records whether an upper-case character was seen. *)
Fixpoint isupper_from (cased : bool) (s : string) : bool :=
  match s with
  | EmptyString => cased
  | String c s' =>
      if ch_islower c then false
      else isupper_from (cased || ch_isupper c) s'
  end.

Definition isupper (s : string) : bool := isupper_from false s.

(** [s.istitle()]: upper-case characters only after uncased ones,
    lower-case characters only after cased ones, at least one cased. *)
Fixpoint istitle_from (cased previous_is_cased : bool) (s : string) : bool :=
  match s with
  | EmptyString => cased
  | String c s' =>
      if ch_isupper c then
        if previous_is_cased then false else istitle_from true true s'
      else if ch_islower c then
        if previous_is_cased then istitle_from true true s' else false
      else istitle_from cased false s'
  end.

Definition istitle (s : string) : bool := istitle_from false false s.

Definition newline : ascii := ascii_of_N 10.

End PyStr.

(** ** Python dictionaries

  A [dict] keeps its keys in insertion order, and assigning to a key that
  is present replaces the value in place: an association list without
  repeated keys. *)

Abbreviation dict K V := (list (K * V)).

Section PyDict.
Context {K V : Type} `{EqDecision K}.

(** [d[k] = v] *)
Fixpoint dict_set (d : dict K V) (k : K) (v : V) : dict K V :=
  match d with
  | [] => [(k, v)]
  | (k', v') :: d' =>
      if decide (k' = k) then (k, v) :: d' else (k', v') :: dict_set d' k v
  end.

(** [d.get(k)] *)
Fixpoint dict_get (d : dict K V) (k : K) : option V :=
  match d with
  | [] => None
  | (k', v') :: d' => if decide (k' = k) then Some v' else dict_get d' k
  end.

(** [k in d] *)
Definition dict_contains (d : dict K V) (k : K) : bool :=
  match dict_get d k with Some _ => true | None => false end.

Definition dict_keys (d : dict K V) : list K := d.*1.
Definition dict_values (d : dict K V) : list V := d.*2.

(** [{key(x): x for x in l}] *)
Definition dict_comprehension (key : V -> K) (l : list V) : dict K V :=
  foldl (fun d x => dict_set d (key x) x) [] l.

(** Every entry of the dictionary is stored under the key of its value. *)
Definition keyed (key : V -> K) (d : dict K V) : Prop :=
  Forall (fun kv => kv.1 = key kv.2) d.

End PyDict.

(** ** Exceptions

  A computation that may raise returns a [result].  [HTTPException] is
  FastAPI's; [KeyError] is what [d[k]] raises on a missing key;
  [ExternalError] stands for whatever an external collaborator raises. *)

Inductive exn : Type :=
| HTTPException (status_code : Z) (detail : string)
| KeyError (key : string)
| ExternalError (what : string).

Inductive result (A : Type) : Type :=
| Ok (a : A)
| Raise (e : exn).
Arguments Ok {A} a.
Arguments Raise {A} e.

#[export] Instance result_ret : MRet result := fun A a => Ok a.
#[export] Instance result_bind : MBind result := fun A B f m =>
  match m with
  | Ok a => f a
  | Raise e => Raise e
  end.

(** [try: ... except Exception: return None] *)
Definition try_or_None {A : Type} (m : result (option A)) : option A :=
  match m with
  | Ok r => r
  | Raise _ => None
  end.

(** [d[k]] *)
Definition dict_index {V : Type} (d : dict string V) (k : string) : result V :=
  match dict_get d k with
  | Some v => Ok v
  | None => Raise (KeyError k)
  end.

(** [await asyncio.gather] over a list of tasks: the results in the order
    of the tasks; an exception of a task is raised to the caller. *)
Definition gather {A : Type} (tasks : list (result A)) : result (list A) :=
  mapM id tasks.

(** ** Data model *)

Module Document.
(** A langchain [Document]; [metadata] holds the keys ["source"] and
    ["page"], each of which may be missing. *)
Record Metadata : Type := mkMetadata {
  source : option string;
  page : option Z
}.
Record t : Type := mk {
  page_content : string;
  metadata : Metadata
}.
End Document.

Module ExtractedSection.
Record t : Type := mk {
  document : string;
  section_title : string;
  importance_rank : Z;
  page_number : Z
}.
End ExtractedSection.

Module SubsectionAnalysis.
Record t : Type := mk {
  document : string;
  refined_text : string;
  page_number : Z
}.
End SubsectionAnalysis.

Module StructuredChatResponse.
Record t : Type := mk {
  extracted_sections : list ExtractedSection.t;
  subsection_analysis : list SubsectionAnalysis.t
}.
End StructuredChatResponse.

Module PDFAnalysisResult.
Record t : Type := mk {
  filename : string;
  status : string;
  extracted_headings_count : Z
}.
End PDFAnalysisResult.

Module AnalysisResponse.
Record t : Type := mk {
  analysis_id : string;
  total_documents_processed : Z;
  results : list PDFAnalysisResult.t
}.
End AnalysisResponse.

Module ChatRequest.
Record t : Type := mk {
  query : string;
  persona : string
}.
End ChatRequest.

Module ProcessedChunk.
Record t : Type := mk {
  section_title : string;
  refined_text : string;
  relevance_score : float;
  document : string;
  page_number : Z
}.
End ProcessedChunk.

Module UploadFile.
Record t : Type := mk {
  filename : string;
  content : list Byte.byte
}.
End UploadFile.

(** A Python value as the JSON parser of the chain produces it. *)
#[warnings="-register-all"]
Inductive PyVal : Type :=
| PNone
| PBool (b : bool)
| PInt (z : Z)
| PFloat (f : float)
| PStr (s : string)
| PList (l : list PyVal)
| PDict (d : dict string PyVal).

(** What the chain is called with: the variables of the prompt. *)
Module ChainInput.
Record t : Type := mk {
  persona : string;
  query : string;
  context : string;
  page_number : option Z;
  headings : string
}.
End ChainInput.

(** What [await chain.ainvoke(...)] does: it raises, or returns the parsed
  JSON value. *)
Inductive ChainOutcome : Type :=
| ChainRaised (what : string)
| ChainReturned (v : PyVal).

(** A FAISS vector store: [as_retriever(search_kwargs={'k': k})] followed by
  [get_relevant_documents(query)]. *)
Module VectorStore.
Record t : Type := mk {
  get_relevant_documents : nat -> string -> result (list Document.t)
}.
End VectorStore.

(** The value stored per file name in [pdf_data_stores]. *)
Module StoreEntry.
Record t : Type := mk {
  vector_store : VectorStore.t;
  headings : list string
}.
End StoreEntry.

(** ** Configuration *)

Definition STOP_TITLES : gset string :=
  {[ "introduction"; "conclusion"; "summary"; "abstract";
     "table of contents"; "preface"; "references"; "bibliography" ]}.

(** The threshold of the filter: the binary64 value of the literal [0.4]. *)
Definition RELEVANCE_THRESHOLD : float := 0x1.999999999999ap-2%float.

(** The number of results kept, [sorted_results[:7]]. *)
Definition TOP_N : nat := 7.

(** ** [sorted(l, key=..., reverse=...)]

  Python's sort compares keys with [<] only and is stable; with
  [reverse=True] the list is reversed, sorted and reversed again, so that
  equal keys keep their order.  The sort itself is embedded as the stable
  insertion sort; on keys that [<] orders totally every stable sort
  returns the same list. *)

Section Sorted.
Context {A : Type} (key : A -> float).

(** [x] goes before the first element that is not smaller than it. *)
Fixpoint insert_sorted (x : A) (l : list A) : list A :=
  match l with
  | [] => [x]
  | y :: l' =>
      if PyFloat.flt (key y) (key x) then y :: insert_sorted x l' else x :: l
  end.

Fixpoint sort_ascending (l : list A) : list A :=
  match l with
  | [] => []
  | x :: l' => insert_sorted x (sort_ascending l')
  end.

Definition sorted (l : list A) (reversed : bool) : list A :=
  if reversed then reverse (sort_ascending (reverse l)) else sort_ascending l.

(** The keys that [<] orders: all but NaN. *)
Definition key_ordered (x : A) : Prop := PyFloat.ordered (key x).

(** [x] may stand before [y] in an ascending list: [y] is not smaller. *)
Definition ascending (x y : A) : Prop := PyFloat.flt (key y) (key x) = false.

End Sorted.

(** [enumerate(l, start)] *)
Definition enumerate {A : Type} (l : list A) (start : Z) : list (Z * A) :=
  imap (fun i x => (start + Z.of_nat i, x)) l.

(** ** Definitions used to state the properties *)

(** The scoring tasks as a plain function: the chunks whose source is a key
    of the registry, each with the headings stored under that key. *)
Definition registered_task (pdf_data_stores : dict string StoreEntry.t)
    (doc : Document.t) : option (Document.t * list string) :=
  name ← Document.source (Document.metadata doc);
  data ← dict_get pdf_data_stores name;
  Some (doc, StoreEntry.headings data).

Definition registered_tasks (pdf_data_stores : dict string StoreEntry.t)
    (docs : list Document.t) : list (Document.t * list string) :=
  omap (registered_task pdf_data_stores) docs.

(** The last chunk of a pool with a given text. *)
Definition last_with_text (text : string) (pool : list Document.t) : option Document.t :=
  last (filter (fun doc => Document.page_content doc = text) pool).

(** The score of a chunk orders it: it is not a NaN. *)
Definition score_ordered (res : ProcessedChunk.t) : Prop :=
  PyFloat.ordered (ProcessedChunk.relevance_score res).

(** Two scores are equal as floats. *)
Definition same_score (s : float) (res : ProcessedChunk.t) : Prop :=
  PyFloat.feq (ProcessedChunk.relevance_score res) s = true.

#[export] Instance same_score_dec s res : Decision (same_score s res).
Proof. unfold same_score. apply _. Defined.

(** The status code of an exception, when it is an [HTTPException]. *)
Definition status_of (e : exn) : option Z :=
  match e with
  | HTTPException status_code _ => Some status_code
  | _ => None
  end.

(** The failure code with which a request is answered. *)
Definition failure_code {A : Type} (r : result A) : option Z :=
  match r with
  | Ok _ => None
  | Raise e => status_of e
  end.

Definition is_Ok {A : Type} (r : result A) : bool :=
  match r with
  | Ok _ => true
  | Raise _ => false
  end.

(** The success list of an ingestion, empty when it failed. *)
Definition results_of (r : result AnalysisResponse.t) : list PDFAnalysisResult.t :=
  match r with
  | Ok response => AnalysisResponse.results response
  | Raise _ => []
  end.

(** ** Validation of [ProcessedChunk]

  Building a [ProcessedChunk] from [result_dict] validates the fields: the
  two texts and [document] must be strings, [page_number] an integer, and
  [relevance_score] a float, after pydantic's conversion of an integer, a
  boolean or a numeric string, with [0.0 <= relevance_score <= 1.0].  Keys
  that are not fields are ignored. *)

(** [float(z)]: the nearest binary64. *)
Definition float_of_Z (z : Z) : float :=
  SF2Prim (binary_normalize prec emax z 0 false).

Section Scoring.
(** [float(s)] for a string, [None] when [s] is not a number. *)
Variable float_of_str : string -> option float.
(** The external scoring capability, [prompt | llm | JsonOutputParser]. *)
Variable chain_ainvoke : ChainInput.t -> ChainOutcome.

Definition coerce_str (v : PyVal) : option string :=
  match v with
  | PStr s => Some s
  | _ => None
  end.

Definition coerce_int (v : PyVal) : option Z :=
  match v with
  | PInt z => Some z
  | _ => None
  end.

Definition coerce_float (v : PyVal) : option float :=
  match v with
  | PFloat f => Some f
  | PInt z => Some (float_of_Z z)
  | PBool b => Some (float_of_Z (if b then 1 else 0))
  | PStr s => float_of_str s
  | _ => None
  end.

(** [Field(..., ge=0.0, le=1.0)] *)
Definition score_in_range (f : float) : bool :=
  PyFloat.fle 0%float f && PyFloat.fle f 1%float.

Definition ProcessedChunk_validate (d : dict string PyVal) : option ProcessedChunk.t :=
  section_title ← dict_get d "section_title" ≫= coerce_str;
  refined_text ← dict_get d "refined_text" ≫= coerce_str;
  relevance_score ← dict_get d "relevance_score" ≫= coerce_float;
  document ← dict_get d "document" ≫= coerce_str;
  page_number ← dict_get d "page_number" ≫= coerce_int;
  if score_in_range relevance_score then
    Some (ProcessedChunk.mk section_title refined_text relevance_score
            document page_number)
  else None.

(** The input with which [process_chunk] calls the chain. *)
Definition chain_input (chunk : Document.t) (query persona : string)
    (available_headings : list string) : ChainInput.t :=
  ChainInput.mk persona query (Document.page_content chunk)
    (Document.page (Document.metadata chunk))
    (PyStr.join "\n- " available_headings).

(** [process_chunk]: every exception of the body, from the chain, from the
    item assignment on a value that is not a dictionary, or from the
    validation, is caught and turned into [None]. *)
Definition process_chunk (chunk : Document.t) (query persona : string)
    (available_headings : list string) : option ProcessedChunk.t :=
  let metadata := Document.metadata chunk in
  match chain_ainvoke (chain_input chunk query persona available_headings) with
  | ChainRaised _ => None
  | ChainReturned (PDict result_dict) =>
      let result_dict :=
        dict_set result_dict "document"
          (PStr (default "Unknown" (Document.source metadata))) in
      let result_dict :=
        dict_set result_dict "page_number"
          (PInt (default 0 (Document.page metadata) + 1)) in
      ProcessedChunk_validate result_dict
  | ChainReturned _ => None
  end.

(** The reply of the capability that yields [res] for a chunk: a JSON
    object whose two texts are strings and whose score converts to a float
    in the range.  The score is taken as it is; document and page come from
    the metadata of the chunk. *)
Definition capability_reply (chunk : Document.t) (query persona : string)
    (available_headings : list string) (res : ProcessedChunk.t) : Prop :=
  exists d title text v f,
    chain_ainvoke (chain_input chunk query persona available_headings)
      = ChainReturned (PDict d) /\
    dict_get d "section_title" = Some (PStr title) /\
    dict_get d "refined_text" = Some (PStr text) /\
    dict_get d "relevance_score" = Some v /\
    coerce_float v = Some f /\
    score_in_range f = true /\
    res = ProcessedChunk.mk title text f
            (default "Unknown" (Document.source (Document.metadata chunk)))
            (default 0 (Document.page (Document.metadata chunk)) + 1).

(** ** The query endpoint *)

(** The condition of the filter comprehension. *)
Definition keeps (res : ProcessedChunk.t) : Prop :=
  (PyStr.strip (PyStr.lower (ProcessedChunk.section_title res)) ∉ STOP_TITLES)
  ∧ (PyFloat.flt RELEVANCE_THRESHOLD (ProcessedChunk.relevance_score res) = true).

#[export] Instance keeps_dec res : Decision (keeps res).
Proof. unfold keeps. apply _. Defined.

(** Step 1: one retrieval per store, in the order of the registry. *)
Definition retrieval_tasks (pdf_data_stores : dict string StoreEntry.t)
    (query : string) : list (result (list Document.t)) :=
  (fun '(filename, data) =>
     VectorStore.get_relevant_documents (StoreEntry.vector_store data) 5%nat query)
  <$> pdf_data_stores.

(** [{doc.page_content: doc for doc in all_relevant_docs}.values()] *)
Definition unique_docs (all_relevant_docs : list Document.t) : list Document.t :=
  dict_values (dict_comprehension Document.page_content all_relevant_docs).

(** Step 2: the loop that creates the scoring tasks.  A task is kept as
    the chunk and the headings it is scored with. *)
Fixpoint processing_tasks (pdf_data_stores : dict string StoreEntry.t)
    (docs : list Document.t) : result (list (Document.t * list string)) :=
  match docs with
  | [] => Ok []
  | doc :: docs' =>
      let source_file := Document.source (Document.metadata doc) in
      match source_file with
      | Some name =>
          if dict_contains pdf_data_stores name then
            data ← dict_index pdf_data_stores name;
            let headings := StoreEntry.headings data in
            tasks ← processing_tasks pdf_data_stores docs';
            Ok ((doc, headings) :: tasks)
          else processing_tasks pdf_data_stores docs'
      | None => processing_tasks pdf_data_stores docs'
      end
  end.

(** The scoring tasks never raise, so gathering them maps over them. *)
Definition processed_results (request : ChatRequest.t)
    (tasks : list (Document.t * list string)) : list (option ProcessedChunk.t) :=
  (fun '(doc, headings) =>
     process_chunk doc (ChatRequest.query request)
       (ChatRequest.persona request) headings)
  <$> tasks.

(** Step 3: filter and sort. *)
Definition valid_results (processed : list (option ProcessedChunk.t))
  : list ProcessedChunk.t :=
  omap id processed.

Definition filtered_results (valid : list ProcessedChunk.t) : list ProcessedChunk.t :=
  filter keeps valid.

Definition sorted_results (filtered : list ProcessedChunk.t) : list ProcessedChunk.t :=
  sorted ProcessedChunk.relevance_score filtered true.

(** Step 4: the loop over [enumerate(sorted_results[:7], 1)]. *)
Definition assemble (top : list ProcessedChunk.t) : StructuredChatResponse.t :=
  let '(extracted_sections, subsection_analysis) :=
    foldl (fun '(extracted_sections, subsection_analysis) '(rank, result) =>
             (extracted_sections ++
                [ExtractedSection.mk (ProcessedChunk.document result)
                   (ProcessedChunk.section_title result) rank
                   (ProcessedChunk.page_number result)],
              subsection_analysis ++
                [SubsectionAnalysis.mk (ProcessedChunk.document result)
                   (ProcessedChunk.refined_text result)
                   (ProcessedChunk.page_number result)]))
          ([], []) (enumerate top 1) in
  StructuredChatResponse.mk extracted_sections subsection_analysis.

Definition NO_PDFS : exn :=
  HTTPException 400 "No PDFs analyzed. Upload documents via /analyze-pdfs/ first.".
Definition NO_INFORMATION : exn :=
  HTTPException 404 "Could not find any relevant information for your query.".
Definition NOT_RELEVANT : exn :=
  HTTPException 404
    "Found some initial matches, but none were relevant enough after filtering.".

(** The scored chunks in their final order, before the cut to the top 7. *)
Definition ranked (pdf_data_stores : dict string StoreEntry.t)
    (request : ChatRequest.t) (all_relevant_docs : list Document.t)
  : result (list ProcessedChunk.t) :=
  tasks ← processing_tasks pdf_data_stores (unique_docs all_relevant_docs);
  Ok (sorted_results
        (filtered_results (valid_results (processed_results request tasks)))).

Definition chat_with_pdfs (pdf_data_stores : dict string StoreEntry.t)
    (request : ChatRequest.t) : result StructuredChatResponse.t :=
  match pdf_data_stores with
  | [] => Raise NO_PDFS
  | _ =>
      list_of_docs_lists ←
        gather (retrieval_tasks pdf_data_stores (ChatRequest.query request));
      let all_relevant_docs := concat list_of_docs_lists in
      match all_relevant_docs with
      | [] => Raise NO_INFORMATION
      | _ =>
          sorted_results ← ranked pdf_data_stores request all_relevant_docs;
          match sorted_results with
          | [] => Raise NOT_RELEVANT
          | _ => Ok (assemble (take TOP_N sorted_results))
          end
      end
  end.

(** The chunks that were scored and passed the filter, in the order in
    which they were encountered. *)
Definition scored (pdf_data_stores : dict string StoreEntry.t)
    (request : ChatRequest.t) (pool : list Document.t) : list ProcessedChunk.t :=
  filtered_results
    (valid_results
       (processed_results request
          (registered_tasks pdf_data_stores (unique_docs pool)))).

(** The merged pool of a query, empty when a retrieval raises. *)
Definition retrieved (pdf_data_stores : dict string StoreEntry.t)
    (query : string) : list Document.t :=
  match gather (retrieval_tasks pdf_data_stores query) with
  | Ok list_of_docs_lists => concat list_of_docs_lists
  | Raise _ => []
  end.

(** The scored chunks behind the response: [sorted_results[:7]]. *)
Definition ranked_results (pdf_data_stores : dict string StoreEntry.t)
    (request : ChatRequest.t) : list ProcessedChunk.t :=
  take TOP_N
    (sorted_results
       (scored pdf_data_stores request
          (retrieved pdf_data_stores (ChatRequest.query request)))).

(** The two projections of the response. *)
Definition to_section (i : nat) (res : ProcessedChunk.t) : ExtractedSection.t :=
  ExtractedSection.mk (ProcessedChunk.document res)
    (ProcessedChunk.section_title res) (1 + Z.of_nat i)
    (ProcessedChunk.page_number res).

Definition to_analysis (res : ProcessedChunk.t) : SubsectionAnalysis.t :=
  SubsectionAnalysis.mk (ProcessedChunk.document res)
    (ProcessedChunk.refined_text res) (ProcessedChunk.page_number res).

End Scoring.

(** ** Ingestion *)

(** The condition under which a trimmed line is taken as a heading. *)
Definition is_heading (trimmed_line : string) : bool :=
  (3 <? PyStr.len trimmed_line) && (PyStr.len trimmed_line <? 100)
  && (PyStr.isupper trimmed_line || PyStr.istitle trimmed_line).

(** [PDFAnalyzer.extract_headings]: the headings are collected in a set,
    which is returned as a list. *)
Definition extract_headings (full_text : string) : list string :=
  let headings : gset string :=
    foldl (fun (headings : gset string) line =>
             let trimmed_line := PyStr.strip line in
             if is_heading trimmed_line then headings ∪ {[ trimmed_line ]}
             else headings)
          ∅ (PyStr.split PyStr.newline full_text) in
  elements headings.

(** The temporary directory is a dictionary from the files in it to their
    bytes.  The file system is external.  [os_path_join name] stands for
    the path [os.path.join(temp_dir, name)], taken up to the file that it
    names: two names are given one path exactly when their paths name one
    file, as [a.pdf] and [./a.pdf] do.  [write_raises temp_dir path content]
    is the error, if there is one, with which [open(path, "wb")] or the
    write of the content fails when the directory holds [temp_dir]: a path
    through a directory that does not exist, a name that is too long or
    holds a null character.  The directory itself is there:
    [tempfile.TemporaryDirectory()] has returned. *)

(** [with open(path, "wb") as f: f.write(content)] *)
Definition write_file
    (write_raises : dict string (list Byte.byte) -> string -> list Byte.byte
                    -> option string)
    (temp_dir : dict string (list Byte.byte)) (path : string)
    (content : list Byte.byte) : result (dict string (list Byte.byte)) :=
  match write_raises temp_dir path content with
  | Some what => Raise (ExternalError what)
  | None => Ok (dict_set temp_dir path content)
  end.

Section Ingestion.
(** The file system, as described above. *)
Variable os_path_join : string -> string.
Variable write_raises :
  dict string (list Byte.byte) -> string -> list Byte.byte -> option string.
(** The external loader, applied to the bytes of the file at the path:
    the pages, or an exception. *)
Variable PyPDFLoader_load : list Byte.byte -> result (list Document.t).
(** [RecursiveCharacterTextSplitter.split_documents] *)
Variable split_documents : list Document.t -> result (list Document.t).
(** [FAISS.from_documents(chunks, embeddings)] *)
Variable FAISS_from_documents : list Document.t -> result VectorStore.t.

(** [doc.metadata["source"] = filename] *)
Definition set_source (filename : string) (doc : Document.t) : Document.t :=
  Document.mk (Document.page_content doc)
    (Document.mkMetadata (Some filename) (Document.page (Document.metadata doc))).

(** [PDFAnalyzer.process_pdf]; the temporary directory is a dictionary from
    paths to the bytes written there. *)
Definition process_pdf (temp_dir : dict string (list Byte.byte))
    (file_path filename : string) : option StoreEntry.t :=
  try_or_None (
    documents ←
      match dict_get temp_dir file_path with
      | Some bytes => PyPDFLoader_load bytes
      | None => Raise (ExternalError "FileNotFoundError")
      end;
    match documents with
    | [] => Ok None
    | _ =>
        let full_text :=
          PyStr.join (String PyStr.newline EmptyString)
            (Document.page_content <$> documents) in
        let headings := extract_headings full_text in
        let documents := set_source filename <$> documents in
        chunks ← split_documents documents;
        vector_store ← FAISS_from_documents chunks;
        Ok (Some (StoreEntry.mk vector_store headings))
    end).

Definition SUCCESS_STATUS : string := "Successfully processed and indexed.".

(** The state of the loop over the uploaded files: the temporary directory,
    the registry and the list of successes. *)
Definition ingest_state : Type :=
  dict string (list Byte.byte) * dict string StoreEntry.t * list PDFAnalysisResult.t.

(** One iteration of the loop of [analyze_pdfs_endpoint].  The write is
    outside every handler: its exception ends the iteration. *)
Definition ingest_file (st : ingest_state) (file : UploadFile.t)
  : result ingest_state :=
  let '(temp_dir, pdf_data_stores, processed_files) := st in
  if negb (PyStr.endswith (PyStr.lower (UploadFile.filename file)) ".pdf") then Ok st
  else
    let temp_file_path := os_path_join (UploadFile.filename file) in
    temp_dir ← write_file write_raises temp_dir temp_file_path
                 (UploadFile.content file);
    match process_pdf temp_dir temp_file_path (UploadFile.filename file) with
    | Some processed_data =>
        Ok (temp_dir,
            dict_set pdf_data_stores (UploadFile.filename file) processed_data,
            processed_files ++
              [PDFAnalysisResult.mk (UploadFile.filename file) SUCCESS_STATUS
                 (Z.of_nat (length (StoreEntry.headings processed_data)))])
    | None => Ok (temp_dir, pdf_data_stores, processed_files)
    end.

(** The loop over the files.  The registry is a global dictionary that the
    loop updates in place: when an iteration raises, the loop ends, and the
    registry keeps what the iterations before it have stored. *)
Fixpoint ingest_files (st : ingest_state) (files : list UploadFile.t)
  : dict string StoreEntry.t * result ingest_state :=
  match files with
  | [] => (st.1.2, Ok st)
  | file :: files' =>
      match ingest_file st file with
      | Ok st' => ingest_files st' files'
      | Raise e => (st.1.2, Raise e)
      end
  end.

Definition NO_FILES : exn := HTTPException 400 "No PDF files provided.".
Definition NONE_PROCESSED : exn :=
  HTTPException 500 "Could not process any of the provided PDF files.".

(** [analyze_pdfs_endpoint]: the registry is threaded through; [analysis_id]
    is the fresh identifier drawn by [uuid.uuid4].  An exception of the loop
    leaves the endpoint as it is. *)
Definition analyze_pdfs_endpoint (analysis_id : string)
    (pdf_data_stores : dict string StoreEntry.t) (files : list UploadFile.t)
  : dict string StoreEntry.t * result AnalysisResponse.t :=
  match files with
  | [] => (pdf_data_stores, Raise NO_FILES)
  | _ =>
      match ingest_files ([], pdf_data_stores, []) files with
      | (pdf_data_stores, Raise e) => (pdf_data_stores, Raise e)
      | (pdf_data_stores, Ok (_, _, processed_files)) =>
          match processed_files with
          | [] => (pdf_data_stores, Raise NONE_PROCESSED)
          | _ =>
              (pdf_data_stores,
               Ok (AnalysisResponse.mk analysis_id
                     (Z.of_nat (length processed_files)) processed_files))
          end
      end
  end.

(** The file name ends in [.pdf], whatever the case. *)
Definition is_pdf_name (file : UploadFile.t) : bool :=
  PyStr.endswith (PyStr.lower (UploadFile.filename file)) ".pdf".

(** The outcome of one document on its own: the temporary directory holds
    that file only. *)
Definition ingest_one (file : UploadFile.t) : option StoreEntry.t :=
  if is_pdf_name file then
    process_pdf
      [(os_path_join (UploadFile.filename file), UploadFile.content file)]
      (os_path_join (UploadFile.filename file)) (UploadFile.filename file)
  else None.

(** The documents of a batch that succeed, each with its index. *)
Definition succeeded (files : list UploadFile.t) : list (UploadFile.t * StoreEntry.t) :=
  omap (fun file => data ← ingest_one file; Some (file, data)) files.

Definition to_result (entry : UploadFile.t * StoreEntry.t) : PDFAnalysisResult.t :=
  PDFAnalysisResult.mk (UploadFile.filename entry.1) SUCCESS_STATUS
    (Z.of_nat (length (StoreEntry.headings entry.2))).

(** No write of an upload of the batch raises, whatever the directory
    holds. *)
Definition writes_return (files : list UploadFile.t) : Prop :=
  forall temp_dir file,
    file ∈ files -> is_pdf_name file = true ->
    write_raises temp_dir (os_path_join (UploadFile.filename file))
      (UploadFile.content file) = None.

(** The files that the loop reaches, [temp_dir] being what the directory
    holds: those before the first upload whose write raises. *)
Fixpoint attempted (temp_dir : dict string (list Byte.byte))
    (files : list UploadFile.t) : list UploadFile.t :=
  match files with
  | [] => []
  | file :: files' =>
      if is_pdf_name file then
        let path := os_path_join (UploadFile.filename file) in
        match write_raises temp_dir path (UploadFile.content file) with
        | Some _ => []
        | None =>
            file :: attempted (dict_set temp_dir path (UploadFile.content file)) files'
        end
      else file :: attempted temp_dir files'
  end.

(** The error of that write, when there is one. *)
Fixpoint write_failure (temp_dir : dict string (list Byte.byte))
    (files : list UploadFile.t) : option string :=
  match files with
  | [] => None
  | file :: files' =>
      if is_pdf_name file then
        let path := os_path_join (UploadFile.filename file) in
        match write_raises temp_dir path (UploadFile.content file) with
        | Some what => Some what
        | None =>
            write_failure (dict_set temp_dir path (UploadFile.content file)) files'
        end
      else write_failure temp_dir files'
  end.

End Ingestion.

(** ** More Python strings, as [main.py] uses them *)

Module PyText.

(** [s.startswith(prefix)] *)
Fixpoint startswith (s prefix : string) : bool :=
  match prefix, s with
  | EmptyString, _ => true
  | String p prefix', String c s' =>
      if decide (p = c) then startswith s' prefix' else false
  | String _ _, EmptyString => false
  end.

(** [sub in s] *)
Fixpoint contains (s sub : string) : bool :=
  startswith s sub
  || match s with
     | EmptyString => false
     | String _ s' => contains s' sub
     end.

(** [s[:n]] for [n >= 0] *)
Fixpoint take_str (n : nat) (s : string) : string :=
  match n, s with
  | S n', String c s' => String c (take_str n' s')
  | _, _ => EmptyString
  end.

(** [s.replace(old, new)] for a non-empty [old]: the occurrences are
    replaced from the left, without overlap; [skip] counts the characters of
    an occurrence that are still to be passed over. *)
Fixpoint replace_from (skip : nat) (old new s : string) : string :=
  match s with
  | EmptyString => EmptyString
  | String c s' =>
      match skip with
      | S skip' => replace_from skip' old new s'
      | O =>
          if startswith s old then
            new +:+ replace_from (String.length old - 1) old new s'
          else String c (replace_from 0 old new s')
      end
  end.

(** [s.replace("", new)]: [new] before every character and at the end. *)
Fixpoint replace_empty (new s : string) : string :=
  match s with
  | EmptyString => new
  | String c s' => new +:+ String c (replace_empty new s')
  end.

Definition replace (old new s : string) : string :=
  match old with
  | EmptyString => replace_empty new s
  | _ => replace_from 0 old new s
  end.

(** [s.split(sep, 1)[1]]: what follows the first separator, if any. *)
Fixpoint after_first (sep : ascii) (s : string) : option string :=
  match s with
  | EmptyString => None
  | String c s' => if decide (c = sep) then Some s' else after_first sep s'
  end.

Fixpoint lstrip_chars (chars : list ascii) (s : string) : string :=
  match s with
  | EmptyString => EmptyString
  | String c s' => if bool_decide (c ∈ chars) then lstrip_chars chars s' else s
  end.

Fixpoint rstrip_chars (chars : list ascii) (s : string) : string :=
  match s with
  | EmptyString => EmptyString
  | String c s' =>
      match rstrip_chars chars s' with
      | EmptyString =>
          if bool_decide (c ∈ chars) then EmptyString else String c EmptyString
      | r => String c r
      end
  end.

(** [s.strip(chars)] *)
Definition strip_chars (chars : list ascii) (s : string) : string :=
  rstrip_chars chars (lstrip_chars chars s).

Definition space : ascii := ascii_of_N 32.
Definition double_quote : ascii := ascii_of_N 34.
Definition colon : ascii := ascii_of_N 58.

End PyText.

(** ** The summary service of [main.py] *)

Module PDFSummary.
Record t : Type := mk {
  filename : string;
  summary : string;
  titles : list string
}.
End PDFSummary.

Module SummaryResponse.
Record t : Type := mk {
  analysis_id : string;
  total_documents : Z;
  results : list PDFSummary.t;
  processing_time : float
}.
End SummaryResponse.

Module Main.

(** Exceptions that the body of [analyze_pdf_content] raises by itself: a
    reply that decodes to something without [get], a summary or a title
    that is not a string, and a subscript out of range. *)
Definition ATTRIBUTE_ERROR : exn := ExternalError "AttributeError".
Definition VALIDATION_ERROR : exn := ExternalError "ValidationError".
Definition INDEX_ERROR : exn := ExternalError "IndexError".

Definition NO_CONTENT : string := "No readable content found in PDF".
Definition LITTLE_CONTENT : string := "PDF contains very little readable text".
Definition NO_SUMMARY : string := "No summary available".
Definition PARSING_FAILED : string := "Generated summary parsing failed - check logs".
Definition TRUNCATED : string := String PyStr.newline "[Content truncated...]".

(** The content given to the model: at most 8000 characters of the text,
    with a mark when it was cut. *)
Definition prepare_content (full_content : string) : string :=
  if 8000 <? PyStr.len full_content then
    PyText.take_str (Z.to_nat 8000) full_content +:+ TRUNCATED
  else full_content.

(** The reply without its white space and its code fence. *)
Definition clean_response (content : string) : string :=
  let response_text := PyStr.strip content in
  if PyText.startswith response_text "```json" then
    PyStr.strip
      (PyText.replace "```" "" (PyText.replace "```json" "" response_text))
  else response_text.

(** The handler of [json.JSONDecodeError]: the summary is looked for in the
    first line that mentions it and has a colon. *)
Definition fallback_summary (content : string) : result string :=
  let response_text := content in
  let summary := PARSING_FAILED in
  if PyText.contains (PyStr.lower response_text) "summary" then
    match List.find
            (fun line =>
               PyText.contains (PyStr.lower line) "summary"
               && PyText.contains line ":")
            (PyStr.split PyStr.newline response_text) with
    | Some line =>
        match PyText.after_first PyText.colon line with
        | Some rest =>
            Ok (PyText.strip_chars [PyText.space; PyText.double_quote] rest)
        | None => Raise INDEX_ERROR
        end
    | None => Ok summary
    end
  else Ok summary.

(** A [List[str]] field. *)
Definition coerce_titles (v : PyVal) : option (list string) :=
  match v with
  | PList l => mapM coerce_str l
  | _ => None
  end.

(** Building a [PDFSummary] validates the summary and the titles. *)
Definition PDFSummary_validate (filename : string) (summary titles : PyVal)
  : result PDFSummary.t :=
  match coerce_str summary, coerce_titles titles with
  | Some summary, Some titles => Ok (PDFSummary.mk filename summary titles)
  | _, _ => Raise VALIDATION_ERROR
  end.

(** The temporary directory once the uploads are written, [temp_dir] being
    what it held before. *)
Definition written (os_path_join : string -> string)
    (temp_dir : dict string (list Byte.byte)) (files : list UploadFile.t)
  : dict string (list Byte.byte) :=
  foldl (fun d file =>
           dict_set d (os_path_join (UploadFile.filename file))
             (UploadFile.content file))
        temp_dir files.

(** What [json.loads] does with a text: it returns the decoded value, or
    raises [json.JSONDecodeError], or raises another exception, such as the
    [ValueError] for an integer with too many digits or a
    [RecursionError]. *)
Inductive JsonOutcome : Type :=
| Decoded (v : PyVal)
| JSONDecodeError
| JsonRaised (e : exn).

Section Service.
(** The file system, as in [test.py]. *)
Variable os_path_join : string -> string.
Variable write_raises :
  dict string (list Byte.byte) -> string -> list Byte.byte -> option string.
(** The external loader and splitter, as in [test.py]. *)
Variable PyPDFLoader_load : list Byte.byte -> result (list Document.t).
Variable split_documents : list Document.t -> result (list Document.t).
(** [chain.invoke] followed by [.content]: the text of the reply. *)
Variable llm_invoke : string -> result string.
(** [json.loads] *)
Variable json_loads : string -> JsonOutcome.
(** [str(e)] *)
Variable str_of : exn -> string.

(** [PDFAnalyzer.extract_pdf_content] *)
Definition extract_pdf_content (temp_dir : dict string (list Byte.byte))
    (file_path : string) : result (list Document.t) :=
  let attempt :=
    documents ←
      match dict_get temp_dir file_path with
      | Some bytes => PyPDFLoader_load bytes
      | None => Raise (ExternalError "FileNotFoundError")
      end;
    chunks ← split_documents documents;
    Ok chunks in
  match attempt with
  | Ok chunks => Ok chunks
  | Raise e => Raise (HTTPException 500 ("Error processing PDF: " +:+ str_of e))
  end.

(** The [try] block that parses the reply, with its handler, which catches
    [json.JSONDecodeError] and nothing else. *)
Definition parse_response (content : string) : result (PyVal * PyVal) :=
  match json_loads (clean_response content) with
  | Decoded (PDict analysis_data) =>
      let summary := default (PStr NO_SUMMARY) (dict_get analysis_data "summary") in
      let titles := default (PList []) (dict_get analysis_data "titles") in
      Ok (summary, titles)
  | Decoded _ => Raise ATTRIBUTE_ERROR
  | JSONDecodeError =>
      summary ← fallback_summary content;
      Ok (PStr summary, PList [])
  | JsonRaised e => Raise e
  end.

(** [PDFAnalyzer.analyze_pdf_content]: every exception of the body ends in
    a summary that reports it. *)
Definition analyze_pdf_content (documents : list Document.t) (filename : string)
  : PDFSummary.t :=
  let attempt : result PDFSummary.t :=
    let full_content :=
      PyStr.join (String PyStr.newline EmptyString)
        (Document.page_content <$> documents) in
    match PyStr.strip full_content with
    | EmptyString => Ok (PDFSummary.mk filename NO_CONTENT [])
    | stripped =>
        if PyStr.len stripped <? 50 then
          Ok (PDFSummary.mk filename LITTLE_CONTENT [])
        else
          let full_content := prepare_content full_content in
          content ← llm_invoke full_content;
          '(summary, titles) ← parse_response content;
          PDFSummary_validate filename summary titles
    end in
  match attempt with
  | Ok summary => summary
  | Raise e =>
      PDFSummary.mk filename ("Error during analysis: " +:+ str_of e) []
  end.

(** [process_single_pdf] *)
Definition process_single_pdf (temp_dir : dict string (list Byte.byte))
    (file_path filename : string) : PDFSummary.t :=
  match extract_pdf_content temp_dir file_path with
  | Ok documents => analyze_pdf_content documents filename
  | Raise e => PDFSummary.mk filename ("Failed to process: " +:+ str_of e) []
  end.

Definition NO_FILES : exn := HTTPException 400 "No files provided".
Definition NOT_A_PDF (name : string) : exn :=
  HTTPException 400 ("File " +:+ name +:+ " is not a PDF").

(** The loop that writes the uploads and creates the tasks; a task is kept
    as the path and the name it was created with.  The write is outside
    every handler: its exception ends the loop. *)
Fixpoint write_uploads (temp_dir : dict string (list Byte.byte))
    (tasks : list (string * string)) (files : list UploadFile.t)
  : result (dict string (list Byte.byte) * list (string * string)) :=
  match files with
  | [] => Ok (temp_dir, tasks)
  | file :: files' =>
      let temp_file_path := os_path_join (UploadFile.filename file) in
      temp_dir ← write_file write_raises temp_dir temp_file_path
                   (UploadFile.content file);
      write_uploads temp_dir
        (tasks ++ [(temp_file_path, UploadFile.filename file)]) files'
  end.

(** [analyze_pdfs]: the names are checked, then every file is written to
    the temporary directory, and only then the tasks run.  [analysis_id] is
    the fresh identifier and [processing_time] the rounded time that was
    measured. *)
Definition analyze_pdfs (analysis_id : string) (processing_time : float)
    (files : list UploadFile.t) : result SummaryResponse.t :=
  match files with
  | [] => Raise NO_FILES
  | _ =>
      match List.find (fun file => negb (is_pdf_name file)) files with
      | Some file => Raise (NOT_A_PDF (UploadFile.filename file))
      | None =>
          '(temp_dir, tasks) ← write_uploads [] [] files;
          let pdf_summaries :=
            (fun '(file_path, filename) =>
               process_single_pdf temp_dir file_path filename) <$> tasks in
          let results := pdf_summaries in
          Ok (SummaryResponse.mk analysis_id (Z.of_nat (length results))
                results processing_time)
      end
  end.

End Service.

End Main.

(** ** Definitions used to state further properties *)

(** The elements of a list in the order of their first occurrence. *)
Fixpoint first_occurrences {K : Type} `{EqDecision K} (l : list K) : list K :=
  match l with
  | [] => []
  | x :: l' => x :: filter (fun y => y <> x) (first_occurrences l')
  end.

(** ** Example data *)

Definition example_request : ChatRequest.t :=
  ChatRequest.mk "What were the results?" "An expert document analyst.".

Definition example_doc (text : string) (source : option string) (page : Z) : Document.t :=
  Document.mk text (Document.mkMetadata source (Some page)).

(** A store whose retriever returns the given chunks. *)
Definition store_returning (docs : list Document.t) (headings : list string)
  : StoreEntry.t :=
  StoreEntry.mk (VectorStore.mk (fun _ _ => Ok docs)) headings.

(** A capability that replies to a chunk with the title and the score listed
    for its text, and raises on a text that is not listed. *)
Definition chain_table (table : dict string (string * PyVal)) : ChainInput.t -> ChainOutcome :=
  fun input =>
    match dict_get table (ChainInput.context input) with
    | Some (title, score) =>
        ChainReturned
          (PDict [("section_title", PStr title);
                  ("refined_text", PStr (ChainInput.context input));
                  ("relevance_score", score)])
    | None => ChainRaised "timeout"
    end.

Definition no_float_of_str : string -> option float := fun _ => None.

(** Scores 0.9, 0.95 and 0.40001 as binary64. *)
Definition score_0_9 : float := 0x1.ccccccccccccdp-1%float.
Definition score_0_95 : float := 0x1.e666666666666p-1%float.
Definition score_0_40001 : float := 0x1.999c38b04ab6p-2%float.

Definition example_chain : ChainInput.t -> ChainOutcome :=
  chain_table
    [("alpha", ("Results", PFloat 0.5%float));
     ("beta", ("Methods", PFloat score_0_9));
     ("gamma", ("Discussion", PFloat 0.5%float));
     ("delta", (" Introduction ", PFloat score_0_95));
     ("epsilon", ("Results", PFloat RELEVANCE_THRESHOLD));
     ("eta", ("Results", PFloat 1.5%float))].

(** Two registered documents; the second returns a chunk with the text of a
    chunk of the first, a chunk on which the capability raises, a chunk
    scored out of range and a chunk whose source is not registered. *)
Definition example_stores : dict string StoreEntry.t :=
  [("a.pdf",
    store_returning
      [example_doc "alpha" (Some "a.pdf") 0;
       example_doc "beta" (Some "a.pdf") 1;
       example_doc "delta" (Some "a.pdf") 2;
       example_doc "epsilon" (Some "a.pdf") 3]
      ["Results"; "Methods"]);
   ("b.pdf",
    store_returning
      [example_doc "gamma" (Some "b.pdf") 0;
       example_doc "alpha" (Some "b.pdf") 5;
       example_doc "zeta" (Some "b.pdf") 6;
       example_doc "eta" (Some "b.pdf") 7;
       example_doc "theta" (Some "c.pdf") 8]
      ["Discussion"])].

Definition example_response : StructuredChatResponse.t :=
  StructuredChatResponse.mk
    [ExtractedSection.mk "a.pdf" "Methods" 1 2;
     ExtractedSection.mk "b.pdf" "Results" 2 6;
     ExtractedSection.mk "b.pdf" "Discussion" 3 1]
    [SubsectionAnalysis.mk "a.pdf" "beta" 2;
     SubsectionAnalysis.mk "b.pdf" "alpha" 6;
     SubsectionAnalysis.mk "b.pdf" "gamma" 1].

(** A registry whose only store finds nothing, and one whose only chunk is
    titled as an introduction. *)
Definition stores_without_hits : dict string StoreEntry.t :=
  [("a.pdf", store_returning [] ["Results"])].

Definition stores_all_filtered : dict string StoreEntry.t :=
  [("a.pdf", store_returning [example_doc "delta" (Some "a.pdf") 2] ["Results"])].

(** A registry whose only store raises when it is searched. *)
Definition RETRIEVAL_FAILED : exn := ExternalError "embedding request failed".

Definition stores_failing : dict string StoreEntry.t :=
  [("a.pdf", StoreEntry.mk (VectorStore.mk (fun _ _ => Raise RETRIEVAL_FAILED)) [])].

(** A loader that fails on an empty file and returns one page otherwise; a
    splitter and an index builder that return. *)
Definition example_load (bytes : list Byte.byte) : result (list Document.t) :=
  match bytes with
  | [] => Raise (ExternalError "cannot read an empty file")
  | _ => Ok [Document.mk "RESULTS" (Document.mkMetadata None (Some 0))]
  end.

Definition example_split (documents : list Document.t) : result (list Document.t) :=
  Ok documents.

Definition example_index (chunks : list Document.t) : result VectorStore.t :=
  Ok (VectorStore.mk (fun _ _ => Ok chunks)).

(** A file system in which the uploads are files of the temporary
    directory: a name that starts with [./] names the file that the rest
    names, and a path with another separator cannot be opened, as the
    directory has no subdirectory. *)
Definition example_join (name : string) : string :=
  match name with
  | String "."%char (String "/"%char rest) => rest
  | _ => name
  end.

Definition example_write_raises (temp_dir : dict string (list Byte.byte))
    (path : string) (content : list Byte.byte) : option string :=
  if PyText.contains path "/" then Some "FileNotFoundError" else None.

(** A batch whose second upload is named into a subdirectory. *)
Definition example_files_nested : list UploadFile.t :=
  [UploadFile.mk "good.pdf" [Byte.x25];
   UploadFile.mk "dir/x.pdf" [Byte.x25];
   UploadFile.mk "late.pdf" [Byte.x25]].

Definition example_files : list UploadFile.t :=
  [UploadFile.mk "first.pdf" [Byte.x25];
   UploadFile.mk "broken.PDF" [];
   UploadFile.mk "notes.txt" [Byte.x25];
   UploadFile.mk "second.pdf" [Byte.x25; Byte.x50]].

(** The merged pool of the example. *)
Definition example_pool : list Document.t :=
  retrieved example_stores (ChatRequest.query example_request).

Definition example_text : string :=
  "INTRODUCTION" +:+ String PyStr.newline
    ("  Some Heading Words  " +:+ String PyStr.newline
       ("a lower case line" +:+ String PyStr.newline
          ("ABC" +:+ String PyStr.newline "INTRODUCTION"))).

(** Nine chunks of one document that all pass the filter. *)
Definition example_chain_many : ChainInput.t -> ChainOutcome :=
  chain_table
    [("c1", ("Results", PFloat 0.5%float));
     ("c2", ("Results", PFloat 0.75%float));
     ("c3", ("Results", PFloat 0.625%float));
     ("c4", ("Results", PFloat 0.875%float));
     ("c5", ("Results", PFloat 0.5625%float));
     ("c6", ("Results", PFloat 0.9375%float));
     ("c7", ("Results", PFloat 0.53125%float));
     ("c8", ("Results", PFloat 0.6875%float));
     ("c9", ("Results", PFloat 0.8125%float))].

Definition example_stores_many : dict string StoreEntry.t :=
  [("a.pdf",
    store_returning
      ((fun '(text, page) => example_doc text (Some "a.pdf") page)
         <$> [("c1", 0); ("c2", 1); ("c3", 2); ("c4", 3); ("c5", 4);
              ("c6", 5); ("c7", 6); ("c8", 7); ("c9", 8)])
      ["Results"])].

(** Two uploads under one name, the first broken; and a registry that
    already holds a document. *)
Definition example_files_renamed : list UploadFile.t :=
  [UploadFile.mk "report.pdf" [];
   UploadFile.mk "report.pdf" [Byte.x25];
   UploadFile.mk "other.pdf" [Byte.x25]].

Definition example_registry : dict string StoreEntry.t :=
  [("old.pdf", store_returning [] ["Old Heading"])].

(** Example data for the summary service: a loader that returns one page
    with more than 50 characters, a model that replies inside a code fence,
    a decoder that knows that reply, and the detail of an exception as its
    text. *)
Definition example_page : string :=
  "QUARTERLY RESULTS" +:+ String PyStr.newline
    "Revenue grew by twelve percent over the last quarter.".

Definition example_load_long (bytes : list Byte.byte) : result (list Document.t) :=
  match bytes with
  | [] => Raise (ExternalError "cannot read an empty file")
  | _ => Ok [Document.mk example_page (Document.mkMetadata None (Some 0))]
  end.

Definition example_llm (content : string) : result string :=
  Ok "  ```json REPLY ```  ".

Definition example_llm_bounded (content : string) : result string :=
  if (PyStr.len content <? 50) || (8023 <? PyStr.len content) then
    Raise (ExternalError "content out of bounds")
  else example_llm content.

Definition example_json_loads (text : string) : Main.JsonOutcome :=
  if decide (text = "REPLY") then
    Main.Decoded (PDict [("summary", PStr "A report.");
                         ("titles", PList [PStr "Results"; PStr "Methods"])])
  else Main.JSONDecodeError.

(** A decoder that gives up on every text with a [ValueError]. *)
Definition example_json_raising (text : string) : Main.JsonOutcome :=
  Main.JsonRaised (ExternalError "ValueError").

Definition example_str_of (e : exn) : string :=
  match e with
  | HTTPException _ detail => detail
  | KeyError key => key
  | ExternalError what => what
  end.

Definition example_uploads : list UploadFile.t :=
  [UploadFile.mk "a.pdf" [];
   UploadFile.mk "b.pdf" [Byte.x25];
   UploadFile.mk "./a.pdf" [Byte.x25]].

Definition example_summary : string -> PDFSummary.t :=
  fun name => PDFSummary.mk name "A report." ["Results"; "Methods"].

Definition example_summaries : result SummaryResponse.t :=
  Main.analyze_pdfs example_join example_write_raises example_load_long
    example_split example_llm example_json_loads example_str_of
    "id" 0.5%float example_uploads.

(** A reply with a title and a score, and the same reply with a document of
    its own. *)
Definition example_reply : dict string PyVal :=
  [("section_title", PStr "Results");
   ("refined_text", PStr "Revenue grew.");
   ("relevance_score", PFloat 0.5%float)].

(** The query of the example. *)
Definition example_chat : result StructuredChatResponse.t :=
  chat_with_pdfs no_float_of_str example_chain example_stores example_request.

(** * Facts

  ** Binary64 comparisons *)

Module PyFloatFacts.
Import PyFloat.

Lemma SFcompare_lex a b :
  SFordered a -> SFordered b ->
  SFcompare a b = Some (lexcompare (rank a) (rank b)).
Proof.
  destruct a as [s1|s1| |s1 m1 e1], b as [s2|s2| |s2 m2 e2]; simpl;
    try tauto; intros _ _; f_equal;
    try (destruct s1; reflexivity); try (destruct s2; reflexivity);
    try (destruct s1, s2; reflexivity).
  destruct s1, s2; simpl; try reflexivity.
  rewrite Z.compare_opp, (Z.compare_antisym e1 e2).
  destruct (e1 ?= e2); reflexivity.
Qed.

Lemma lexcompare_refl p : lexcompare p p = Eq.
Proof. destruct p as [[c e] m]; simpl. now rewrite !Z.compare_refl. Qed.

Ltac lex_cases :=
  unfold lexcompare;
  repeat match goal with
         | |- context [match ?p with (_, _) => _ end] => destruct p
         | H : context [match ?p with (_, _) => _ end] |- _ => destruct p
         end;
  repeat match goal with
         | |- context [?x ?= ?y] => destruct (Z.compare_spec x y)
         | H : context [?x ?= ?y] |- _ => destruct (Z.compare_spec x y)
         end;
  try discriminate; try reflexivity; try lia.

Lemma lexcompare_antisym p q : lexcompare q p = CompOpp (lexcompare p q).
Proof. lex_cases. Qed.

Lemma lexcompare_not_lt_trans p q r :
  lexcompare p q <> Lt -> lexcompare q r <> Lt -> lexcompare p r <> Lt.
Proof. intros H1 H2 H3; revert H1 H2 H3. lex_cases; intros; congruence. Qed.

Lemma ordered_SF x : ordered x <-> SFordered (Prim2SF x).
Proof.
  unfold ordered, fle. rewrite leb_spec. unfold SFleb.
  destruct (Prim2SF x) as [s|s| |s m e]; simpl;
    try destruct s; try rewrite Z.compare_refl, Pos.compare_cont_refl;
    simpl; intuition discriminate.
Qed.

Lemma compare_cmp x y :
  ordered x -> ordered y ->
  SFcompare (Prim2SF x) (Prim2SF y) = Some (cmp x y).
Proof. rewrite !ordered_SF. apply SFcompare_lex. Qed.

Lemma flt_cmp x y : ordered x -> ordered y -> flt x y = true <-> cmp x y = Lt.
Proof.
  intros Hx Hy. unfold flt. rewrite ltb_spec. unfold SFltb.
  rewrite (compare_cmp x y Hx Hy). destruct (cmp x y); intuition congruence.
Qed.

Lemma fle_cmp x y : ordered x -> ordered y -> fle x y = true <-> cmp x y <> Gt.
Proof.
  intros Hx Hy. unfold fle. rewrite leb_spec. unfold SFleb.
  rewrite (compare_cmp x y Hx Hy). destruct (cmp x y); intuition congruence.
Qed.

Lemma feq_cmp x y : ordered x -> ordered y -> feq x y = true <-> cmp x y = Eq.
Proof.
  intros Hx Hy. unfold feq. rewrite FloatAxioms.eqb_spec. unfold SFeqb.
  rewrite (compare_cmp x y Hx Hy). destruct (cmp x y); intuition congruence.
Qed.

Lemma cmp_antisym x y : cmp y x = CompOpp (cmp x y).
Proof. apply lexcompare_antisym. Qed.

(** Comparing with a NaN is always false, so a successful comparison shows
    that both sides are ordered. *)
Lemma fle_ordered x y : fle x y = true -> ordered x /\ ordered y.
Proof.
  unfold fle. rewrite leb_spec, !ordered_SF. unfold SFleb.
  destruct (Prim2SF x), (Prim2SF y); simpl; try discriminate; tauto.
Qed.

Lemma flt_ordered x y : flt x y = true -> ordered x /\ ordered y.
Proof.
  unfold flt. rewrite ltb_spec, !ordered_SF. unfold SFltb.
  destruct (Prim2SF x), (Prim2SF y); simpl; try discriminate; tauto.
Qed.

Lemma feq_ordered x y : feq x y = true -> ordered x /\ ordered y.
Proof.
  unfold feq. rewrite FloatAxioms.eqb_spec, !ordered_SF. unfold SFeqb.
  destruct (Prim2SF x), (Prim2SF y); simpl; try discriminate; tauto.
Qed.

Lemma flt_false_fle x y :
  ordered x -> ordered y -> flt x y = false -> fle y x = true.
Proof.
  intros Hx Hy H. apply fle_cmp; trivial. rewrite cmp_antisym.
  assert (cmp x y <> Lt) by (rewrite <- flt_cmp by trivial; congruence).
  destruct (cmp x y); simpl; congruence.
Qed.

Lemma flt_asym x y : flt x y = true -> flt y x = false.
Proof.
  intros H. destruct (flt_ordered _ _ H) as [Hx Hy].
  apply flt_cmp in H; trivial.
  apply not_true_is_false. rewrite flt_cmp by trivial.
  rewrite cmp_antisym, H. discriminate.
Qed.

Lemma flt_false_trans x y z :
  ordered x -> ordered y -> ordered z ->
  flt x y = false -> flt y z = false -> flt x z = false.
Proof.
  intros Hx Hy Hz H1 H2. apply not_true_is_false.
  rewrite flt_cmp by trivial.
  apply (lexcompare_not_lt_trans _ (rank (Prim2SF y))); fold (cmp x y) (cmp y z).
  - rewrite <- flt_cmp by trivial. congruence.
  - rewrite <- flt_cmp by trivial. congruence.
Qed.

Lemma feq_flt x y :
  ordered x -> ordered y ->
  feq x y = true <-> flt x y = false /\ flt y x = false.
Proof.
  intros Hx Hy. rewrite feq_cmp by trivial.
  rewrite <- !not_true_iff_false, !flt_cmp by trivial.
  rewrite (cmp_antisym x y). destruct (cmp x y); simpl; intuition congruence.
Qed.

Lemma flt_fle x y : flt x y = true -> fle x y = true.
Proof.
  intros H. destruct (flt_ordered _ _ H) as [Hx Hy].
  apply fle_cmp; trivial. apply flt_cmp in H; trivial. congruence.
Qed.

End PyFloatFacts.

(** ** Dictionaries *)

Section PyDictFacts.
Context {K V : Type} `{EqDecision K}.

Lemma dict_get_set (d : dict K V) k v k' :
  dict_get (dict_set d k v) k' = if decide (k = k') then Some v else dict_get d k'.
Proof.
  induction d as [|[k0 v0] d IH]; simpl.
  - reflexivity.
  - destruct (decide (k0 = k)) as [->|Hne]; simpl.
    + destruct (decide (k = k')); reflexivity.
    + rewrite IH. destruct (decide (k0 = k')) as [->|]; trivial.
      destruct (decide (k = k')); congruence.
Qed.

Lemma dict_keys_set (d : dict K V) k v :
  dict_keys (dict_set d k v)
  = if dict_contains d k then dict_keys d else dict_keys d ++ [k].
Proof.
  unfold dict_contains, dict_keys.
  induction d as [|[k0 v0] d IH]; csimpl; trivial.
  destruct (decide (k0 = k)) as [->|Hne]; csimpl; trivial.
  rewrite IH. destruct (dict_get d k); reflexivity.
Qed.

Lemma dict_get_None_keys (d : dict K V) k : dict_get d k = None <-> k ∉ dict_keys d.
Proof.
  unfold dict_keys. induction d as [|[k0 v0] d IH]; csimpl.
  - split; [intros _; apply not_elem_of_nil | trivial].
  - rewrite not_elem_of_cons, <- IH.
    destruct (decide (k0 = k)); intuition congruence.
Qed.

Lemma dict_set_NoDup (d : dict K V) k v : NoDup (dict_keys d) -> NoDup (dict_keys (dict_set d k v)).
Proof.
  intros Hd. rewrite dict_keys_set. unfold dict_contains.
  destruct (dict_get d k) eqn:E; trivial.
  apply NoDup_app. split_and!; trivial.
  - intros x Hx. rewrite list_elem_of_singleton. intros ->.
    now apply dict_get_None_keys in E.
  - apply NoDup_singleton.
Qed.

(** In a dictionary, an entry is present exactly when [get] finds it. *)
Lemma dict_elem_of_get (d : dict K V) k v :
  NoDup (dict_keys d) -> (k, v) ∈ d <-> dict_get d k = Some v.
Proof.
  unfold dict_keys. induction d as [|[k0 v0] d IH]; csimpl; intros Hd.
  - rewrite elem_of_nil. split; [tauto | discriminate].
  - apply NoDup_cons in Hd as [Hk0 Hd]. rewrite elem_of_cons, (IH Hd).
    destruct (decide (k0 = k)) as [->|Hne].
    + split.
      * intros [[= ->]|Hget]; trivial.
        exfalso. apply Hk0. apply list_elem_of_fmap.
        exists (k, v). split; trivial. now apply IH.
      * intros [= ->]. now left.
    + split; [intros [[= -> ->]|?]; congruence | auto].
Qed.

End PyDictFacts.

(** ** The sort *)

Section SortedFacts.
Context {A : Type} (key : A -> float).
Implicit Types (l : list A) (x y : A).

Abbreviation key_ordered := (key_ordered key).
Abbreviation ascending := (ascending key).

Lemma elem_of_insert_sorted x y l : y ∈ insert_sorted key x l <-> y = x \/ y ∈ l.
Proof.
  induction l as [|z l IH]; simpl.
  - rewrite list_elem_of_singleton, elem_of_nil. tauto.
  - destruct (PyFloat.flt (key z) (key x)).
    + rewrite !elem_of_cons, IH. tauto.
    + rewrite !elem_of_cons. tauto.
Qed.

Lemma elem_of_sort_ascending y l : y ∈ sort_ascending key l <-> y ∈ l.
Proof.
  induction l as [|x l IH]; simpl; [tauto|].
  rewrite elem_of_insert_sorted, elem_of_cons, IH. tauto.
Qed.

Lemma elem_of_sorted y l reversed : y ∈ sorted key l reversed <-> y ∈ l.
Proof.
  unfold sorted. destruct reversed.
  - now rewrite elem_of_reverse, elem_of_sort_ascending, elem_of_reverse.
  - apply elem_of_sort_ascending.
Qed.

Lemma length_insert_sorted x l : length (insert_sorted key x l) = S (length l).
Proof.
  induction l as [|z l IH]; simpl; trivial.
  destruct (PyFloat.flt (key z) (key x)); simpl; congruence.
Qed.

Lemma length_sort_ascending l : length (sort_ascending key l) = length l.
Proof.
  induction l as [|x l IH]; simpl; trivial.
  rewrite length_insert_sorted. congruence.
Qed.

Lemma length_sorted l reversed : length (sorted key l reversed) = length l.
Proof.
  unfold sorted. destruct reversed.
  - now rewrite length_reverse, length_sort_ascending, length_reverse.
  - apply length_sort_ascending.
Qed.

Lemma insert_sorted_StronglySorted x l :
  key_ordered x -> Forall key_ordered l ->
  StronglySorted ascending l -> StronglySorted ascending (insert_sorted key x l).
Proof.
  intros Hx. induction l as [|z l IH]; simpl; intros Hl Hs.
  - repeat constructor.
  - apply Forall_cons in Hl as [Hz Hl].
    apply StronglySorted_inv in Hs as [Hs Hzl].
    destruct (PyFloat.flt (key z) (key x)) eqn:E.
    + constructor; [auto|].
      rewrite Forall_forall in Hzl |- *.
      intros y [->|Hy]%elem_of_insert_sorted; [|auto].
      now apply PyFloatFacts.flt_asym.
    + constructor; [now constructor|].
      constructor; [exact E|].
      rewrite Forall_forall in Hzl, Hl |- *. intros y Hy.
      apply (PyFloatFacts.flt_false_trans _ (key z)); auto.
      * now apply Hl.
      * now apply Hzl.
Qed.

Lemma sort_ascending_StronglySorted l :
  Forall key_ordered l -> StronglySorted ascending (sort_ascending key l).
Proof.
  induction l as [|x l IH]; simpl; intros Hl.
  - constructor.
  - apply Forall_cons in Hl as [Hx Hl].
    apply insert_sorted_StronglySorted; [exact Hx| |exact (IH Hl)].
    rewrite Forall_forall in Hl |- *.
    intros y Hy. rewrite elem_of_sort_ascending in Hy. auto.
Qed.

Lemma StronglySorted_reverse (R : relation A) l :
  StronglySorted R l -> StronglySorted (flip R) (reverse l).
Proof.
  induction 1 as [|x l Hs IH Hx]; [constructor|].
  rewrite reverse_cons. apply StronglySorted_app_2; trivial.
  - intros y z Hy ->%list_elem_of_singleton. rewrite elem_of_reverse in Hy.
    rewrite Forall_forall in Hx. now apply Hx.
  - repeat constructor.
Qed.

Lemma StronglySorted_take (R : relation A) n l :
  StronglySorted R l -> StronglySorted R (take n l).
Proof.
  intros Hs. rewrite <- (take_drop n l) in Hs.
  now apply StronglySorted_app_1_l in Hs.
Qed.

Lemma StronglySorted_lookup (R : relation A) l i j x y :
  StronglySorted R l -> (i < j)%nat -> l !! i = Some x -> l !! j = Some y -> R x y.
Proof.
  intros Hs. revert i j. induction Hs as [|z l Hs IH Hz]; intros i j Hij Hi Hj.
  - discriminate.
  - destruct j as [|j]; [lia|]. destruct i as [|i]; simpl in *.
    + injection Hi as ->. rewrite Forall_forall in Hz.
      apply Hz. eapply list_elem_of_lookup_2, Hj.
    + apply (IH i j); trivial. lia.
Qed.

(** The sort with [reverse=True] is descending: no element is smaller than
    one that follows it. *)
Lemma sorted_reverse_descending l :
  Forall key_ordered l -> StronglySorted (flip ascending) (sorted key l true).
Proof.
  intros Hl. apply StronglySorted_reverse, sort_ascending_StronglySorted.
  rewrite Forall_forall in Hl |- *. intros y Hy.
  rewrite elem_of_reverse in Hy. auto.
Qed.

(** Stability: inside a class of elements with pairwise equal keys the sort
    keeps the order of the input. *)
Section Stable.
Context (P : A -> Prop) `{forall x, Decision (P x)}.
Hypothesis P_class : forall x y, P x -> P y -> PyFloat.flt (key y) (key x) = false.

Lemma filter_insert_sorted x l :
  filter P (insert_sorted key x l) = filter P (x :: l).
Proof.
  induction l as [|z l IH]; simpl; trivial.
  destruct (PyFloat.flt (key z) (key x)) eqn:E; trivial.
  rewrite filter_cons, IH, !filter_cons.
  destruct (decide (P z)) as [Hz|Hz], (decide (P x)) as [Hx|Hx]; trivial.
  rewrite (P_class x z Hx Hz) in E. discriminate.
Qed.

Lemma filter_sort_ascending l : filter P (sort_ascending key l) = filter P l.
Proof.
  induction l as [|x l IH]; simpl; trivial.
  rewrite filter_insert_sorted, !filter_cons, IH. reflexivity.
Qed.

Lemma filter_sorted l reversed : filter P (sorted key l reversed) = filter P l.
Proof.
  unfold sorted. destruct reversed.
  - rewrite filter_reverse, filter_sort_ascending, filter_reverse.
    apply reverse_involutive.
  - apply filter_sort_ascending.
Qed.

End Stable.

Lemma filter_take_prefix (P : A -> Prop) `{forall x, Decision (P x)} n l :
  filter P (take n l) `prefix_of` filter P l.
Proof.
  exists (filter P (drop n l)). now rewrite <- filter_app, take_drop.
Qed.

End SortedFacts.

(** ** The scoring wrapper *)

Section ScoringFacts.
Variable float_of_str : string -> option float.
Variable chain_ainvoke : ChainInput.t -> ChainOutcome.

Abbreviation process_chunk := (process_chunk float_of_str chain_ainvoke).
Abbreviation chat_with_pdfs := (chat_with_pdfs float_of_str chain_ainvoke).
Abbreviation ranked := (ranked float_of_str chain_ainvoke).
Abbreviation processed_results := (processed_results float_of_str chain_ainvoke).
Abbreviation scored := (scored float_of_str chain_ainvoke).

Lemma ProcessedChunk_validate_Some d r :
  ProcessedChunk_validate float_of_str d = Some r <->
  exists title text v doc page,
    dict_get d "section_title" = Some (PStr title) /\
    dict_get d "refined_text" = Some (PStr text) /\
    dict_get d "relevance_score" = Some v /\
    dict_get d "document" = Some (PStr doc) /\
    dict_get d "page_number" = Some (PInt page) /\
    exists f, coerce_float float_of_str v = Some f /\
    score_in_range f = true /\
    r = ProcessedChunk.mk title text f doc page.
Proof.
  unfold ProcessedChunk_validate. split.
  - intros H.
    destruct (dict_get d "section_title") as [[]|]; try discriminate.
    destruct (dict_get d "refined_text") as [[]|]; try discriminate.
    destruct (dict_get d "relevance_score") as [v|]; try discriminate.
    simpl in H. destruct (coerce_float float_of_str v) as [f|] eqn:Ef; try discriminate.
    destruct (dict_get d "document") as [[]|]; try discriminate.
    destruct (dict_get d "page_number") as [[]|]; try discriminate.
    simpl in H. destruct (score_in_range f) eqn:Er; try discriminate.
    injection H as <-. eauto 15.
  - intros (title & text & v & doc & page & -> & -> & -> & -> & -> & f & Hf & Hr & ->).
    simpl. rewrite Hf. simpl. now rewrite Hr.
Qed.

Lemma process_chunk_Some chunk query persona hs r :
  process_chunk chunk query persona hs = Some r <->
  capability_reply float_of_str chain_ainvoke chunk query persona hs r.
Proof.
  unfold process_chunk, capability_reply.
  destruct (chain_ainvoke (chain_input chunk query persona hs)) as [w|v].
  { split; [discriminate|]. intros (? & ? & ? & ? & ? & [=] & _). }
  destruct v as [| | | | | |d];
    try (split; [discriminate|]; intros (? & ? & ? & ? & ? & [=] & _)).
  rewrite ProcessedChunk_validate_Some. rewrite !dict_get_set.
  repeat (case_decide; try congruence).
  split.
  - intros (title & text & v & doc & page & Ht & Hx & Hv & [= <-] & [= <-] & f & Hf & Hr & ->).
    eauto 15.
  - intros (d' & title & text & v & f & [= <-] & Ht & Hx & Hv & Hf & Hr & ->).
    eauto 15.
Qed.

Lemma process_chunk_in_range chunk query persona hs r :
  process_chunk chunk query persona hs = Some r ->
  score_in_range (ProcessedChunk.relevance_score r) = true.
Proof.
  intros (d & title & text & v & f & _ & _ & _ & _ & _ & Hr & ->)%process_chunk_Some.
  exact Hr.
Qed.

Lemma score_in_range_ordered f : score_in_range f = true -> PyFloat.ordered f.
Proof.
  unfold score_in_range. intros [H _]%andb_prop.
  now apply PyFloatFacts.fle_ordered in H.
Qed.

End ScoringFacts.

(** ** The query pipeline *)

Section PipelineFacts.
Variable float_of_str : string -> option float.
Variable chain_ainvoke : ChainInput.t -> ChainOutcome.

Abbreviation process_chunk := (process_chunk float_of_str chain_ainvoke).
Abbreviation chat_with_pdfs := (chat_with_pdfs float_of_str chain_ainvoke).
Abbreviation ranked := (ranked float_of_str chain_ainvoke).
Abbreviation processed_results := (processed_results float_of_str chain_ainvoke).
Abbreviation scored := (scored float_of_str chain_ainvoke).
Abbreviation ranked_results := (ranked_results float_of_str chain_ainvoke).

Implicit Types (stores : dict string StoreEntry.t) (req : ChatRequest.t).
Implicit Types (pool docs : list Document.t) (res : ProcessedChunk.t).

(** The guard [source_file in pdf_data_stores] makes the subscript safe. *)
Lemma processing_tasks_registered stores docs :
  processing_tasks stores docs = Ok (registered_tasks stores docs).
Proof.
  unfold registered_tasks.
  induction docs as [|doc docs IH]; simpl; trivial.
  unfold registered_task at 1, dict_contains, dict_index.
  destruct (Document.source (Document.metadata doc)) as [name|]; simpl; trivial.
  destruct (dict_get stores name) as [data|]; simpl; trivial.
  now rewrite IH.
Qed.

Lemma ranked_eq stores req pool :
  ranked stores req pool = Ok (sorted_results (scored stores req pool)).
Proof. unfold ranked. now rewrite processing_tasks_registered. Qed.

Lemma sorted_results_nil (l : list ProcessedChunk.t) : sorted_results l = [] <-> l = [].
Proof.
  unfold sorted_results. split; [|now intros ->].
  intros H. apply nil_length_inv. rewrite <- (length_sorted ProcessedChunk.relevance_score l true).
  now rewrite H.
Qed.

(** The endpoint, case by case. *)
Lemma chat_with_pdfs_cases stores req :
  chat_with_pdfs stores req =
    match stores with
    | [] => Raise NO_PDFS
    | _ =>
        match gather (retrieval_tasks stores (ChatRequest.query req)) with
        | Raise e => Raise e
        | Ok lists =>
            match concat lists with
            | [] => Raise NO_INFORMATION
            | _ =>
                match sorted_results (scored stores req (concat lists)) with
                | [] => Raise NOT_RELEVANT
                | top => Ok (assemble (take TOP_N top))
                end
            end
        end
    end.
Proof.
  unfold chat_with_pdfs. destruct stores as [|s stores]; trivial.
  destruct (gather _) as [lists|e]; simpl; trivial.
  destruct (concat lists) as [|doc pool]; trivial.
  rewrite ranked_eq. simpl.
  destruct (sorted_results _); reflexivity.
Qed.

Lemma chat_with_pdfs_Ok stores req resp :
  chat_with_pdfs stores req = Ok resp ->
  resp = assemble (ranked_results stores req) /\ ranked_results stores req <> [].
Proof.
  rewrite chat_with_pdfs_cases. unfold ranked_results, retrieved.
  destruct stores as [|s stores]; [discriminate|].
  destruct (gather _) as [lists|e]; [|discriminate].
  destruct (concat lists) as [|doc pool]; [discriminate|].
  destruct (sorted_results _) as [|r top] eqn:E; [discriminate|].
  intros [= <-]. split; [reflexivity|]. discriminate.
Qed.

(** The loop of the assembler computes the two projections. *)
Lemma assemble_loop (top : list ProcessedChunk.t) (k : Z) es sa :
  foldl (fun '(extracted_sections, subsection_analysis) '(rank, result) =>
           (extracted_sections ++
              [ExtractedSection.mk (ProcessedChunk.document result)
                 (ProcessedChunk.section_title result) rank
                 (ProcessedChunk.page_number result)],
            subsection_analysis ++
              [SubsectionAnalysis.mk (ProcessedChunk.document result)
                 (ProcessedChunk.refined_text result)
                 (ProcessedChunk.page_number result)]))
        (es, sa) (imap (fun i x => (k + Z.of_nat i, x)) top)
  = (es ++ imap (fun i res =>
                   ExtractedSection.mk (ProcessedChunk.document res)
                     (ProcessedChunk.section_title res) (k + Z.of_nat i)
                     (ProcessedChunk.page_number res)) top,
     sa ++ (to_analysis <$> top)).
Proof.
  revert k es sa. induction top as [|r top IH]; intros k es sa; simpl.
  - now rewrite !app_nil_r.
  - rewrite (imap_ext _ (fun i x => (k + 1 + Z.of_nat i, x)))
      by (intros; simpl; f_equal; lia).
    rewrite IH, <- !app_assoc. simpl. rewrite Z.add_0_r. do 3 f_equal.
    apply imap_ext. intros; simpl; f_equal; lia.
Qed.

Lemma assemble_spec (top : list ProcessedChunk.t) :
  assemble top =
    StructuredChatResponse.mk (imap to_section top) (to_analysis <$> top).
Proof.
  unfold assemble, enumerate. now rewrite assemble_loop.
Qed.

(** What is known of every chunk that reaches the sort. *)
Lemma elem_of_scored stores req pool res :
  res ∈ scored stores req pool <->
  keeps res /\
  exists doc hs, (doc, hs) ∈ registered_tasks stores (unique_docs pool) /\
    process_chunk doc (ChatRequest.query req) (ChatRequest.persona req) hs = Some res.
Proof.
  unfold scored, filtered_results, valid_results, processed_results.
  rewrite list_elem_of_filter, list_elem_of_omap.
  split.
  - intros [Hk (o & Ho & Hs)]. split; trivial.
    apply list_elem_of_fmap in Ho as ([doc hs] & -> & Hin).
    simpl in Hs. eauto.
  - intros [Hk (doc & hs & Hin & Hs)]. split; trivial.
    exists (Some res). split; trivial.
    apply list_elem_of_fmap. exists (doc, hs). split; trivial. now rewrite Hs.
Qed.

Lemma scored_ordered stores req pool :
  Forall score_ordered (scored stores req pool).
Proof.
  apply Forall_forall. intros res (_ & doc & hs & _ & Hs)%elem_of_scored.
  eapply score_in_range_ordered, process_chunk_in_range, Hs.
Qed.

Lemma elem_of_ranked_results stores req res :
  res ∈ ranked_results stores req ->
  res ∈ scored stores req (retrieved stores (ChatRequest.query req)).
Proof.
  unfold ranked_results, sorted_results. intros (i & Hi & _)%elem_of_take.
  apply list_elem_of_lookup_2 in Hi. now rewrite elem_of_sorted in Hi.
Qed.

End PipelineFacts.

(** ** Deduplication by a dictionary comprehension *)

Section ComprehensionFacts.
Context {K V : Type} `{EqDecision K} (key : V -> K).
Implicit Types (d : dict K V) (l : list V).

Abbreviation keyed := (keyed key).

Lemma dict_set_keyed d x : keyed d -> keyed (dict_set d (key x) x).
Proof.
  unfold keyed. induction 1 as [|[k v] d Hkv Hd IH]; simpl.
  - repeat constructor.
  - destruct (decide (k = key x)); constructor; auto.
Qed.

Lemma comprehension_loop_keyed d l :
  keyed d -> keyed (foldl (fun d x => dict_set d (key x) x) d l).
Proof.
  revert d. induction l as [|x l IH]; simpl; intros d Hd; trivial.
  apply IH. now apply dict_set_keyed.
Qed.

Lemma comprehension_loop_NoDup d l :
  NoDup (dict_keys d) -> NoDup (dict_keys (foldl (fun d x => dict_set d (key x) x) d l)).
Proof.
  revert d. induction l as [|x l IH]; simpl; intros d Hd; trivial.
  apply IH. now apply dict_set_NoDup.
Qed.

(** The last writer wins. *)
Lemma comprehension_loop_get d l k :
  dict_get (foldl (fun d x => dict_set d (key x) x) d l) k
  = match last (filter (fun x => key x = k) l) with
    | Some v => Some v
    | None => dict_get d k
    end.
Proof.
  revert d. induction l as [|x l IH]; simpl; intros d; trivial.
  rewrite IH, filter_cons, dict_get_set.
  destruct (decide (key x = k)) as [Hk|Hk]; trivial.
  rewrite last_cons. now destruct (last _).
Qed.

Lemma comprehension_loop_elem_of d l k v :
  (k, v) ∈ foldl (fun d x => dict_set d (key x) x) d l -> (k, v) ∈ d \/ v ∈ l.
Proof.
  revert d. induction l as [|x l IH]; simpl; intros d H; [now left|].
  apply IH in H as [H|H]; [|right; now right].
  clear IH. induction d as [|[k0 v0] d IHd]; simpl in H.
  - apply list_elem_of_singleton in H as [= -> ->]. right. now left.
  - destruct (decide (k0 = key x)).
    + apply elem_of_cons in H as [[= -> ->]|H]; [right; now left|].
      left. now right.
    + apply elem_of_cons in H as [->|H]; [left; now left|].
      apply IHd in H as [H|H]; [left; now right|now right].
Qed.

(** In a keyed dictionary the values with a given key are the entry of that
    key, if there is one. *)
Lemma dict_values_filter d k :
  NoDup (dict_keys d) -> keyed d ->
  filter (fun v => key v = k) (dict_values d) = option_list (dict_get d k).
Proof.
  unfold dict_keys, dict_values, keyed.
  induction d as [|[k0 v0] d IH]; csimpl; intros Hn Hk; trivial.
  apply NoDup_cons in Hn as [Hk0 Hn]. apply Forall_cons in Hk as [Hkv Hk].
  simpl in Hkv. subst k0. rewrite filter_cons, (IH Hn Hk).
  destruct (decide (key v0 = k)) as [<-|Hne]; trivial.
  apply (dict_get_None_keys d) in Hk0. now rewrite Hk0.
Qed.

Lemma dict_values_keys d : keyed d -> key <$> dict_values d = dict_keys d.
Proof.
  unfold dict_keys, dict_values, keyed.
  induction 1 as [|[k v] d Hkv Hd IH]; csimpl; trivial.
  simpl in Hkv. now rewrite IH, Hkv.
Qed.

Lemma comprehension_keyed l : keyed (dict_comprehension key l).
Proof. apply comprehension_loop_keyed. constructor. Qed.

Lemma comprehension_NoDup l : NoDup (dict_keys (dict_comprehension key l)).
Proof. apply comprehension_loop_NoDup. constructor. Qed.

Lemma comprehension_get l k :
  dict_get (dict_comprehension key l) k = last (filter (fun x => key x = k) l).
Proof.
  unfold dict_comprehension. rewrite comprehension_loop_get. simpl.
  now destruct (last _).
Qed.

End ComprehensionFacts.

(** ** Claims on the query pipeline *)

(** C6: deduplication keys the chunks by their exact text.  For every pool
    and every text, the deduplicated pool holds exactly one chunk with that
    text when the pool holds one, none otherwise, and that chunk is the last
    one of the pool with that text; no two chunks of the deduplicated pool
    have the same text, and every one of them comes from the pool. *)
Theorem C6_dedup_last_writer_wins (pool : list Document.t) (text : string) :
  filter (fun doc => Document.page_content doc = text) (unique_docs pool)
    = option_list (last_with_text text pool)
  /\ NoDup (Document.page_content <$> unique_docs pool)
  /\ (forall doc, doc ∈ unique_docs pool -> doc ∈ pool).
Proof.
  unfold unique_docs, last_with_text. split_and!.
  - rewrite dict_values_filter, comprehension_get; trivial.
    + apply comprehension_NoDup.
    + apply comprehension_keyed.
  - rewrite dict_values_keys by apply comprehension_keyed.
    apply comprehension_NoDup.
  - intros doc Hdoc. unfold dict_values in Hdoc.
    apply list_elem_of_fmap in Hdoc as ([k v] & -> & Hkv).
    apply comprehension_loop_elem_of in Hkv as [Hkv|Hkv]; trivial.
    now apply elem_of_nil in Hkv.
Qed.

Section QueryClaims.
Variable float_of_str : string -> option float.
Variable chain_ainvoke : ChainInput.t -> ChainOutcome.

Abbreviation process_chunk := (process_chunk float_of_str chain_ainvoke).
Abbreviation chat_with_pdfs := (chat_with_pdfs float_of_str chain_ainvoke).
Abbreviation ranked := (ranked float_of_str chain_ainvoke).
Abbreviation processed_results := (processed_results float_of_str chain_ainvoke).
Abbreviation scored := (scored float_of_str chain_ainvoke).
Abbreviation ranked_results := (ranked_results float_of_str chain_ainvoke).
Abbreviation capability_reply := (capability_reply float_of_str chain_ainvoke).

Implicit Types (stores : dict string StoreEntry.t) (req : ChatRequest.t).
Implicit Types (pool docs : list Document.t) (res : ProcessedChunk.t).

(** C2: a scored chunk is in the filtered results only if its score is
    strictly greater than 0.4.  A chunk scored exactly 0.4 is excluded, and
    in a successful response every ranked result, of which the response is
    the projection, has a score strictly above 0.4. *)
Theorem C2_score_strictly_above_threshold stores req resp :
  chat_with_pdfs stores req = Ok resp ->
  resp = assemble (ranked_results stores req)
  /\ Forall (fun res =>
               PyFloat.flt RELEVANCE_THRESHOLD (ProcessedChunk.relevance_score res) = true)
            (ranked_results stores req)
  /\ (forall valid res,
        res ∈ filtered_results valid ->
        PyFloat.flt RELEVANCE_THRESHOLD (ProcessedChunk.relevance_score res) = true)
  /\ (forall valid res,
        ProcessedChunk.relevance_score res = RELEVANCE_THRESHOLD ->
        res ∉ filtered_results valid).
Proof.
  intros [-> _]%chat_with_pdfs_Ok. split_and!; trivial.
  - apply Forall_forall. intros res Hres%elem_of_ranked_results.
    apply elem_of_scored in Hres as [[_ Hs] _]. exact Hs.
  - intros valid res [[_ Hs] _]%list_elem_of_filter. exact Hs.
  - intros valid res Hscore [[_ Hs] _]%list_elem_of_filter.
    rewrite Hscore in Hs. vm_compute in Hs. discriminate.
Qed.

(** C3: in a successful response no section title, lower-cased and trimmed,
    is in the stoplist; the stoplist is the fixed set of eight names, and a
    scored chunk whose title matches it is dropped before the sort. *)
Theorem C3_stoplist_titles_dropped stores req resp :
  chat_with_pdfs stores req = Ok resp ->
  (forall e, e ∈ StructuredChatResponse.extracted_sections resp ->
     PyStr.strip (PyStr.lower (ExtractedSection.section_title e)) ∉ STOP_TITLES)
  /\ (forall valid res,
        PyStr.strip (PyStr.lower (ProcessedChunk.section_title res)) ∈ STOP_TITLES ->
        res ∉ sorted_results (filtered_results valid))
  /\ (forall title,
        title ∈ STOP_TITLES <->
        title ∈ ["introduction"; "conclusion"; "summary"; "abstract";
                 "table of contents"; "preface"; "references"; "bibliography"]).
Proof.
  intros [-> _]%chat_with_pdfs_Ok. split_and!.
  - rewrite assemble_spec. simpl. intros e He.
    apply list_elem_of_lookup in He as [i Hi].
    apply list_lookup_imap_Some in Hi as (res & Hres & ->). simpl.
    apply list_elem_of_lookup_2, elem_of_ranked_results in Hres.
    apply elem_of_scored in Hres as [[Ht _] _]. exact Ht.
  - intros valid res Hstop Hin. unfold sorted_results in Hin.
    rewrite elem_of_sorted in Hin.
    apply list_elem_of_filter in Hin as [[Ht _] _]. contradiction.
  - intros title. unfold STOP_TITLES.
    rewrite !elem_of_union, !elem_of_singleton, !elem_of_cons, elem_of_nil.
    tauto.
Qed.

(** C4: the ranked results of a successful response are in descending order
    of score: a result never has a smaller score than one after it.  The
    sort is stable: the results with a given score stand in the order in
    which the scored chunks came before the sort (they are a prefix of the
    chunks with that score, in that order). *)
Theorem C4_descending_and_stable stores req resp :
  chat_with_pdfs stores req = Ok resp ->
  resp = assemble (ranked_results stores req)
  /\ (forall i j a b,
        (i < j)%nat ->
        ranked_results stores req !! i = Some a ->
        ranked_results stores req !! j = Some b ->
        PyFloat.fle (ProcessedChunk.relevance_score b)
                    (ProcessedChunk.relevance_score a) = true)
  /\ (forall s,
        filter (same_score s) (ranked_results stores req)
        `prefix_of`
        filter (same_score s)
          (scored stores req (retrieved stores (ChatRequest.query req)))).
Proof.
  intros [-> _]%chat_with_pdfs_Ok. split_and!; trivial.
  - intros i j a b Hij Ha Hb.
    pose proof (scored_ordered float_of_str chain_ainvoke stores req
                  (retrieved stores (ChatRequest.query req))) as Hord.
    assert (Hs : StronglySorted (flip (ascending ProcessedChunk.relevance_score))
                   (ranked_results stores req)).
    { apply StronglySorted_take, sorted_reverse_descending, Hord. }
    pose proof (StronglySorted_lookup _ _ _ _ _ _ Hs Hij Ha Hb) as Hab.
    unfold flip, ascending in Hab.
    rewrite Forall_forall in Hord.
    apply PyFloatFacts.flt_false_fle; trivial.
    + apply Hord. eapply elem_of_ranked_results, list_elem_of_lookup_2, Ha.
    + apply Hord. eapply elem_of_ranked_results, list_elem_of_lookup_2, Hb.
  - intros s. unfold ranked_results at 1.
    rewrite <- (filter_sorted ProcessedChunk.relevance_score (same_score s))
      with (l := scored _ _ _) (reversed := true).
    + apply filter_take_prefix.
    + unfold same_score. intros x y Hx Hy.
      destruct (PyFloatFacts.feq_ordered _ _ Hx) as [Ox Os].
      destruct (PyFloatFacts.feq_ordered _ _ Hy) as [Oy _].
      apply PyFloatFacts.feq_flt in Hx as [_ Hx]; trivial.
      apply PyFloatFacts.feq_flt in Hy as [Hy _]; trivial.
      now apply (PyFloatFacts.flt_false_trans _ s).
Qed.

(** C5: in a successful response the two lists have the same length, at
    most 7 (and at least 1), the importance ranks are 1, 2, ... up to that
    length, and at every position the section and the analysis are the two
    projections of the same ranked result, so document and page agree. *)
Theorem C5_lists_aligned_ranks_dense stores req resp :
  chat_with_pdfs stores req = Ok resp ->
  let sections := StructuredChatResponse.extracted_sections resp in
  let analyses := StructuredChatResponse.subsection_analysis resp in
  length sections = length analyses
  /\ (1 <= length sections <= 7)%nat
  /\ ExtractedSection.importance_rank <$> sections
       = seqZ 1 (Z.of_nat (length sections))
  /\ (forall i e a,
        sections !! i = Some e -> analyses !! i = Some a ->
        (exists res, ranked_results stores req !! i = Some res
                     /\ e = to_section i res /\ a = to_analysis res)
        /\ ExtractedSection.document e = SubsectionAnalysis.document a
        /\ ExtractedSection.page_number e = SubsectionAnalysis.page_number a).
Proof.
  intros [-> Hne]%chat_with_pdfs_Ok. rewrite assemble_spec. simpl.
  set (top := ranked_results stores req) in *.
  assert (Hlen : (length top <= 7)%nat).
  { subst top. unfold ranked_results. rewrite length_take. unfold TOP_N. lia. }
  split_and!.
  - now rewrite length_imap, length_fmap.
  - rewrite length_imap. destruct top; [contradiction|simpl; lia].
  - rewrite length_imap. lia.
  - apply list_eq. intros i. rewrite list_lookup_fmap, list_lookup_imap, length_imap.
    destruct (top !! i) as [res|] eqn:E; simpl.
    + apply lookup_lt_Some in E. rewrite lookup_seqZ_lt by lia. reflexivity.
    + apply lookup_ge_None in E. symmetry. apply lookup_seqZ_ge. lia.
  - intros i e a He Ha.
    apply list_lookup_imap_Some in He as (res & Hres & ->).
    rewrite list_lookup_fmap, Hres in Ha. injection Ha as <-.
    split_and!; trivial. eauto.
Qed.

(** What the code's filter and sort keep of a list of scoring tasks. *)
Lemma elem_of_sorted_filtered req (tasks : list (Document.t * list string)) res :
  res ∈ sorted_results (filtered_results (valid_results (processed_results req tasks)))
  <-> keeps res /\
      exists doc hs, (doc, hs) ∈ tasks /\
        process_chunk doc (ChatRequest.query req) (ChatRequest.persona req) hs
        = Some res.
Proof.
  unfold sorted_results, filtered_results, valid_results, processed_results.
  rewrite elem_of_sorted, list_elem_of_filter, list_elem_of_omap.
  split.
  - intros [Hk (o & Ho & Hs)]. split; trivial.
    apply list_elem_of_fmap in Ho as ([doc hs] & -> & Hin).
    simpl in Hs. eauto.
  - intros [Hk (doc & hs & Hin & Hs)]. split; trivial.
    exists (Some res). split; trivial.
    apply list_elem_of_fmap. exists (doc, hs). split; trivial. now rewrite Hs.
Qed.

(** A chunk without a result leaves the results of the other chunks as they
    are. *)
Lemma valid_results_drop req (before after : list (Document.t * list string)) doc hs :
  process_chunk doc (ChatRequest.query req) (ChatRequest.persona req) hs = None ->
  valid_results (processed_results req (before ++ (doc, hs) :: after))
  = valid_results (processed_results req (before ++ after)).
Proof.
  intros Hnone. unfold valid_results, processed_results.
  rewrite !fmap_app, !omap_app, fmap_cons. cbn [omap]. simpl.
  now rewrite Hnone.
Qed.

(** C7: the scoring of a chunk yields a result exactly when the capability
    replies with a well-formed object whose score lies in the range, and the
    result carries that score unchanged; an exception, a reply that is not
    an object, a missing or ill-typed field or a score outside the range
    yields [None].  The outcome of every task depends on its own chunk only:
    a chunk that yields [None] is dropped, and the results of the other
    chunks are what they are without it.  The scoring pass of the endpoint
    returns, whatever the capability does, exactly the results of its tasks
    that pass the filter; and when the retrievals return, a chunk that is
    scored and passes the filter makes the query succeed, whatever happened
    to the other chunks: it is among the ranked results, and it is in both
    lists of the response, at its rank, when it is among the first seven. *)
Theorem C7_scoring_failure_drops_one_chunk stores req :
  let query := ChatRequest.query req in
  let persona := ChatRequest.persona req in
  (forall chunk hs res,
     process_chunk chunk query persona hs = Some res <->
     capability_reply chunk query persona hs res)
  /\ (forall chunk hs what,
        chain_ainvoke (chain_input chunk query persona hs) = ChainRaised what ->
        process_chunk chunk query persona hs = None)
  /\ (forall chunk hs d v f,
        chain_ainvoke (chain_input chunk query persona hs) = ChainReturned (PDict d) ->
        dict_get d "relevance_score" = Some v ->
        coerce_float float_of_str v = Some f ->
        score_in_range f = false ->
        process_chunk chunk query persona hs = None)
  /\ (forall tasks i doc hs,
        tasks !! i = Some (doc, hs) ->
        processed_results req tasks !! i = Some (process_chunk doc query persona hs))
  /\ (forall before after doc hs,
        process_chunk doc query persona hs = None ->
        valid_results (processed_results req (before ++ (doc, hs) :: after))
        = valid_results (processed_results req (before ++ after)))
  /\ (forall pool,
        exists tasks top,
          processing_tasks stores (unique_docs pool) = Ok tasks
          /\ ranked stores req pool = Ok top
          /\ forall res,
               res ∈ top <->
               keeps res /\
               exists doc hs, (doc, hs) ∈ tasks /\
                 process_chunk doc query persona hs = Some res)
  /\ (forall lists tasks doc hs res,
        gather (retrieval_tasks stores query) = Ok lists ->
        processing_tasks stores (unique_docs (concat lists)) = Ok tasks ->
        (doc, hs) ∈ tasks ->
        process_chunk doc query persona hs = Some res ->
        keeps res ->
        exists top,
          ranked stores req (concat lists) = Ok top
          /\ res ∈ top
          /\ chat_with_pdfs stores req = Ok (assemble (take TOP_N top))
          /\ forall i,
               top !! i = Some res -> (i < TOP_N)%nat ->
               StructuredChatResponse.extracted_sections
                 (assemble (take TOP_N top)) !! i = Some (to_section i res)
               /\ StructuredChatResponse.subsection_analysis
                    (assemble (take TOP_N top)) !! i = Some (to_analysis res)).
Proof.
  intros query persona.
  assert (Hpass : forall pool,
            exists tasks top,
              processing_tasks stores (unique_docs pool) = Ok tasks
              /\ ranked stores req pool = Ok top
              /\ forall res,
                   res ∈ top <->
                   keeps res /\
                   exists doc hs, (doc, hs) ∈ tasks /\
                     process_chunk doc query persona hs = Some res).
  { intros pool.
    exists (registered_tasks stores (unique_docs pool)),
           (sorted_results
              (filtered_results
                 (valid_results
                    (processed_results req
                       (registered_tasks stores (unique_docs pool)))))).
    split_and!.
    - apply processing_tasks_registered.
    - unfold ranked. now rewrite processing_tasks_registered.
    - intros res. apply elem_of_sorted_filtered. }
  split_and!.
  - intros chunk hs res. apply process_chunk_Some.
  - intros chunk hs what H. unfold process_chunk.
    now rewrite H.
  - intros chunk hs d v f Hd Hv Hf Hr.
    destruct (process_chunk chunk query persona hs) as [res|] eqn:E; trivial.
    apply process_chunk_Some in E
      as (d' & title & text & v' & f' & Hd' & _ & _ & Hv' & Hf' & Hr' & _).
    congruence.
  - intros tasks i doc hs Hi. unfold processed_results.
    rewrite list_lookup_fmap, Hi. reflexivity.
  - intros before after doc hs. apply valid_results_drop.
  - exact Hpass.
  - intros lists tasks doc hs res Hg Ht Hin Hs Hk.
    destruct (Hpass (concat lists)) as (tasks' & top & Ht' & Hr & Htop).
    rewrite Ht in Ht'. injection Ht' as <-.
    assert (Hres : res ∈ top) by (apply Htop; eauto).
    exists top. split_and!; trivial.
    + unfold chat_with_pdfs.
      destruct stores as [|s stores'] eqn:Est.
      { simpl in Ht. rewrite processing_tasks_registered in Ht.
        injection Ht as <-. unfold registered_tasks in Hin.
        apply list_elem_of_omap in Hin as (doc' & _ & H).
        unfold registered_task in H.
        destruct (Document.source (Document.metadata doc')); discriminate. }
      fold query. rewrite Hg. simpl.
      destruct (concat lists) as [|doc0 pool] eqn:Ec.
      { simpl in Ht. injection Ht as <-. now apply elem_of_nil in Hin. }
      rewrite Hr. simpl.
      destruct top as [|r top']; [now apply elem_of_nil in Hres|reflexivity].
    + intros i Hi Hlt. rewrite assemble_spec. simpl.
      rewrite list_lookup_imap, list_lookup_fmap, lookup_take_lt, Hi by trivial.
      split; reflexivity.
Qed.

(** C10: the loop that creates the scoring tasks never raises: it returns
    exactly the chunks whose source is present and is a key of the registry,
    in order, each with the headings stored under that key.  A chunk whose
    source is missing or not registered is left out, and the scoring stage
    as a whole returns normally. *)
Theorem C10_unregistered_chunks_skipped stores req pool docs :
  processing_tasks stores docs = Ok (registered_tasks stores docs)
  /\ (forall doc hs,
        (doc, hs) ∈ registered_tasks stores docs <->
        doc ∈ docs /\
        exists name data,
          Document.source (Document.metadata doc) = Some name /\
          dict_get stores name = Some data /\
          hs = StoreEntry.headings data)
  /\ (forall doc,
        doc ∈ docs ->
        (Document.source (Document.metadata doc) = None \/
         exists name, Document.source (Document.metadata doc) = Some name /\
                      dict_contains stores name = false) ->
        forall hs, (doc, hs) ∉ registered_tasks stores docs)
  /\ (forall key, processing_tasks stores docs <> Raise (KeyError key))
  /\ ranked stores req pool = Ok (sorted_results (scored stores req pool)).
Proof.
  assert (Hiff : forall doc hs,
        (doc, hs) ∈ registered_tasks stores docs <->
        doc ∈ docs /\
        exists name data,
          Document.source (Document.metadata doc) = Some name /\
          dict_get stores name = Some data /\
          hs = StoreEntry.headings data).
  { intros doc hs. unfold registered_tasks. rewrite list_elem_of_omap.
    unfold registered_task. split.
    - intros (doc' & Hin & H).
      destruct (Document.source (Document.metadata doc')) as [name|] eqn:Es;
        [|discriminate].
      simpl in H. destruct (dict_get stores name) as [data|] eqn:Eg; [|discriminate].
      simpl in H. injection H as -> <-. split; [exact Hin|]. eauto.
    - intros (Hin & name & data & Es & Eg & ->).
      exists doc. split; trivial. rewrite Es. simpl. now rewrite Eg. }
  split_and!.
  - apply processing_tasks_registered.
  - exact Hiff.
  - intros doc Hin Hsrc hs (_ & name & data & Es & Eg & _)%Hiff.
    destruct Hsrc as [Hn|(name' & Hs & Hc)]; [congruence|].
    unfold dict_contains in Hc. rewrite Es in Hs. injection Hs as <-.
    now rewrite Eg in Hc.
  - intros key. now rewrite processing_tasks_registered.
  - apply ranked_eq.
Qed.

(** C1 (as amended): when the retrievals return, a query fails in exactly
    one of three ways: on an empty registry with [NO_PDFS], on a registry
    whose merged pool is empty with [NO_INFORMATION], and when no chunk
    survives scoring and filtering with [NOT_RELEVANT]; otherwise it
    succeeds.  The three exceptions differ pairwise, by their status code
    and detail taken together: the status codes are 400, 404 and 404. *)
Theorem C1_failures_differ_by_status_and_detail stores req lists :
  gather (retrieval_tasks stores (ChatRequest.query req)) = Ok lists ->
  let survivors := scored stores req (concat lists) in
  (chat_with_pdfs stores req = Raise NO_PDFS <-> stores = [])
  /\ (chat_with_pdfs stores req = Raise NO_INFORMATION <->
        stores <> [] /\ concat lists = [])
  /\ (chat_with_pdfs stores req = Raise NOT_RELEVANT <->
        stores <> [] /\ concat lists <> [] /\ survivors = [])
  /\ (is_Ok (chat_with_pdfs stores req) = true <->
        stores <> [] /\ concat lists <> [] /\ survivors <> [])
  /\ (forall e, chat_with_pdfs stores req = Raise e ->
        e = NO_PDFS \/ e = NO_INFORMATION \/ e = NOT_RELEVANT)
  /\ (NO_PDFS <> NO_INFORMATION /\ NO_PDFS <> NOT_RELEVANT
       /\ NO_INFORMATION <> NOT_RELEVANT)
  /\ (status_of NO_PDFS = Some 400 /\ status_of NO_INFORMATION = Some 404
       /\ status_of NOT_RELEVANT = Some 404).
Proof.
  intros Hg survivors. rewrite chat_with_pdfs_cases, Hg.
  assert (Hnil : sorted_results survivors = [] <-> survivors = [])
    by apply sorted_results_nil.
  fold survivors.
  destruct stores as [|s stores].
  { split_and!; try (split; [try discriminate; tauto|intros; intuition congruence]);
      try discriminate; try reflexivity; intros e [= <-]; auto. }
  destruct (concat lists) as [|doc pool] eqn:Ec.
  { split_and!; try (split; [try discriminate; tauto|intros; intuition congruence]);
      try discriminate; try reflexivity; try (intros e [= <-]; auto).
    split; [intros _; split; [discriminate|reflexivity]|reflexivity]. }
  destruct (sorted_results survivors) as [|r top] eqn:Es.
  - assert (survivors = []) by now apply Hnil.
    split_and!; try (split; [try discriminate; tauto|intros; intuition congruence]);
      try discriminate; try reflexivity; try (intros e [= <-]; auto).
    split; [intros _; split_and!; [discriminate|discriminate|trivial]|reflexivity].
  - assert (survivors <> []) by (intros Hn; apply Hnil in Hn; congruence).
    split_and!; try (split; [try discriminate; tauto|intros; intuition congruence]);
      try discriminate; try reflexivity; try (intros e [=]).
    split; [intros _; split_and!; [discriminate|discriminate|trivial]|reflexivity].
Qed.

End QueryClaims.

(** ** Claims on ingestion *)

Lemma split_nonempty sep s : PyStr.split sep s <> [].
Proof.
  destruct s as [|c s]; simpl; [discriminate|].
  destruct (decide (c = sep)); [discriminate|].
  destruct (PyStr.split sep s); discriminate.
Qed.

(** Splitting cuts the text at the separators: joining the lines with the
    separator gives the text back. *)
Lemma split_join sep s :
  PyStr.join (String sep EmptyString) (PyStr.split sep s) = s.
Proof.
  induction s as [|c s IH]; simpl; trivial.
  pose proof (split_nonempty sep s) as Hne.
  destruct (decide (c = sep)) as [->|Hc].
  - destruct (PyStr.split sep s) as [|w ws]; [contradiction|].
    simpl in *. now rewrite IH.
  - destruct (PyStr.split sep s) as [|w ws]; [contradiction|].
    destruct ws as [|w' ws]; simpl in *; now rewrite <- IH.
Qed.

Lemma headings_loop_elem_of (lines : list string) (seen : gset string) h :
  h ∈ foldl (fun (headings : gset string) line =>
               let trimmed_line := PyStr.strip line in
               if is_heading trimmed_line then headings ∪ {[ trimmed_line ]}
               else headings) seen lines
  <-> h ∈ seen \/
      exists line, line ∈ lines /\ h = PyStr.strip line /\ is_heading h = true.
Proof.
  revert seen. induction lines as [|line lines IH]; intros seen; simpl.
  - split; [now left|]. intros [H|(line & []%elem_of_nil & _)]; exact H.
  - rewrite IH. split.
    + intros [H|(l & Hl & -> & Hh)].
      * destruct (is_heading (PyStr.strip line)) eqn:E; [|now left].
        apply elem_of_union in H as [H| ->%elem_of_singleton]; [now left|].
        right. exists line. split_and!; trivial. now left.
      * right. exists l. split_and!; trivial. now right.
    + intros [H|(l & Hl & -> & Hh)].
      * left. destruct (is_heading (PyStr.strip line)); trivial.
        apply elem_of_union. now left.
      * apply elem_of_cons in Hl as [->|Hl].
        -- left. rewrite Hh. apply elem_of_union. right. now apply elem_of_singleton.
        -- right. eauto.
Qed.

(** C9: the headings of a text are exactly the trimmed lines whose length is
    strictly between 3 and 100 and that are upper case or title case.  The
    lines are the pieces of the text between line feeds.  The result has no
    repetition; the function is total, and the empty text has no heading. *)
Theorem C9_extract_headings_exact (full_text : string) :
  (forall h,
     h ∈ extract_headings full_text <->
     exists line,
       line ∈ PyStr.split PyStr.newline full_text /\
       h = PyStr.strip line /\
       3 < PyStr.len h < 100 /\
       (PyStr.isupper h = true \/ PyStr.istitle h = true))
  /\ PyStr.join (String PyStr.newline EmptyString)
       (PyStr.split PyStr.newline full_text) = full_text
  /\ NoDup (extract_headings full_text)
  /\ extract_headings "" = [].
Proof.
  split_and!.
  - intros h. unfold extract_headings.
    rewrite elem_of_elements, headings_loop_elem_of.
    assert (Hh : is_heading h = true <->
                 3 < PyStr.len h < 100 /\
                 (PyStr.isupper h = true \/ PyStr.istitle h = true)).
    { unfold is_heading.
      rewrite !andb_true_iff, orb_true_iff, !Z.ltb_lt. tauto. }
    split.
    + intros [[]%elem_of_empty|(line & Hl & -> & Hc)].
      exists line. split_and!; trivial; now apply Hh.
    + intros (line & Hl & -> & Hlen & Hcase). right.
      exists line. split_and!; trivial. apply Hh. tauto.
  - apply split_join.
  - unfold extract_headings. apply NoDup_elements.
  - reflexivity.
Qed.

Section IngestionClaims.
Variable os_path_join : string -> string.
Variable write_raises :
  dict string (list Byte.byte) -> string -> list Byte.byte -> option string.
Variable PyPDFLoader_load : list Byte.byte -> result (list Document.t).
Variable split_documents : list Document.t -> result (list Document.t).
Variable FAISS_from_documents : list Document.t -> result VectorStore.t.

Abbreviation process_pdf :=
  (process_pdf PyPDFLoader_load split_documents FAISS_from_documents).
Abbreviation ingest_file :=
  (ingest_file os_path_join write_raises
     PyPDFLoader_load split_documents FAISS_from_documents).
Abbreviation ingest_files :=
  (ingest_files os_path_join write_raises
     PyPDFLoader_load split_documents FAISS_from_documents).
Abbreviation ingest_one :=
  (ingest_one os_path_join PyPDFLoader_load split_documents FAISS_from_documents).
Abbreviation succeeded :=
  (succeeded os_path_join PyPDFLoader_load split_documents FAISS_from_documents).
Abbreviation analyze_pdfs_endpoint :=
  (analyze_pdfs_endpoint os_path_join write_raises
     PyPDFLoader_load split_documents FAISS_from_documents).
Abbreviation writes_return := (writes_return os_path_join write_raises).
Abbreviation attempted := (attempted os_path_join write_raises).
Abbreviation write_failure := (write_failure os_path_join write_raises).

Implicit Types (stores : dict string StoreEntry.t) (files : list UploadFile.t).

(** The loader reads the file that was just written, whatever else the
    temporary directory holds. *)
Lemma process_pdf_just_written (temp_dir : dict string (list Byte.byte)) path bytes name :
  process_pdf (dict_set temp_dir path bytes) path name
  = process_pdf [(path, bytes)] path name.
Proof.
  unfold process_pdf. rewrite dict_get_set. simpl.
  now rewrite !decide_True.
Qed.

Lemma process_pdf_Some temp_dir path name data :
  process_pdf temp_dir path name = Some data <->
  exists bytes documents chunks vector_store,
    dict_get temp_dir path = Some bytes /\
    PyPDFLoader_load bytes = Ok documents /\
    documents <> [] /\
    split_documents (set_source name <$> documents) = Ok chunks /\
    FAISS_from_documents chunks = Ok vector_store /\
    data = StoreEntry.mk vector_store
             (extract_headings
                (PyStr.join (String PyStr.newline EmptyString)
                   (Document.page_content <$> documents))).
Proof.
  unfold process_pdf. split.
  - destruct (dict_get temp_dir path) as [bytes|]; [|discriminate].
    destruct (PyPDFLoader_load bytes) as [documents|e] eqn:El; [|discriminate].
    destruct documents as [|doc documents]; [discriminate|].
    simpl.
    destruct (split_documents _) as [chunks|e] eqn:Es; [|discriminate].
    simpl. destruct (FAISS_from_documents chunks) as [vs|e] eqn:Ef; [|discriminate].
    simpl. intros [= <-]. exists bytes, (doc :: documents), chunks, vs.
    split_and!; trivial. discriminate.
  - intros (bytes & documents & chunks & vs & -> & -> & Hne & Hs & Hf & ->).
    destruct documents as [|doc documents]; [contradiction|].
    simpl. simpl in Hs. rewrite Hs. simpl. now rewrite Hf.
Qed.

Lemma succeeded_cons file files : succeeded (file :: files) = succeeded [file] ++ succeeded files.
Proof. apply (omap_app _ [file] files). Qed.

(** One iteration whose write returns adds the outcome of its own
    document. *)
Lemma ingest_file_step temp_dir stores processed file :
  (is_pdf_name file = true ->
   write_raises temp_dir (os_path_join (UploadFile.filename file))
     (UploadFile.content file) = None) ->
  ingest_file (temp_dir, stores, processed) file
  = Ok (if is_pdf_name file
        then dict_set temp_dir (os_path_join (UploadFile.filename file))
               (UploadFile.content file)
        else temp_dir,
        foldl (fun st entry => dict_set st (UploadFile.filename entry.1) entry.2)
              stores (succeeded [file]),
        processed ++ (to_result <$> succeeded [file])).
Proof.
  intros Hw. unfold ingest_file, succeeded, ingest_one, write_file.
  fold (is_pdf_name file). simpl.
  destruct (is_pdf_name file); simpl.
  - rewrite Hw by trivial. simpl. rewrite process_pdf_just_written.
    destruct (process_pdf _ _ _) as [data|]; simpl; trivial.
    now rewrite app_nil_r.
  - now rewrite app_nil_r.
Qed.

(** One iteration whose write raises ends the loop. *)
Lemma ingest_file_raises temp_dir stores processed file what :
  is_pdf_name file = true ->
  write_raises temp_dir (os_path_join (UploadFile.filename file))
    (UploadFile.content file) = Some what ->
  ingest_file (temp_dir, stores, processed) file = Raise (ExternalError what).
Proof.
  intros Hp Hw. unfold ingest_file, write_file.
  fold (is_pdf_name file). rewrite Hp, Hw. reflexivity.
Qed.

Lemma ingest_files_cons st file files :
  ingest_files st (file :: files)
  = match ingest_file st file with
    | Ok st' => ingest_files st' files
    | Raise e => (st.1.2, Raise e)
    end.
Proof. reflexivity. Qed.

Lemma attempted_cons temp_dir file files :
  attempted temp_dir (file :: files)
  = if is_pdf_name file then
      match write_raises temp_dir (os_path_join (UploadFile.filename file))
              (UploadFile.content file) with
      | Some _ => []
      | None =>
          file :: attempted
                    (dict_set temp_dir (os_path_join (UploadFile.filename file))
                       (UploadFile.content file)) files
      end
    else file :: attempted temp_dir files.
Proof. reflexivity. Qed.

Lemma write_failure_cons temp_dir file files :
  write_failure temp_dir (file :: files)
  = if is_pdf_name file then
      match write_raises temp_dir (os_path_join (UploadFile.filename file))
              (UploadFile.content file) with
      | Some what => Some what
      | None =>
          write_failure
            (dict_set temp_dir (os_path_join (UploadFile.filename file))
               (UploadFile.content file)) files
      end
    else write_failure temp_dir files.
Proof. reflexivity. Qed.

(** The loop: the registry holds the successes among the files that were
    reached; the loop raises with the first failure of a write, and returns
    the successes of all files otherwise. *)
Lemma ingest_loop files temp_dir stores processed :
  let stores' :=
    foldl (fun st entry => dict_set st (UploadFile.filename entry.1) entry.2)
          stores (succeeded (attempted temp_dir files)) in
  match write_failure temp_dir files with
  | Some what =>
      ingest_files (temp_dir, stores, processed) files
      = (stores', Raise (ExternalError what))
  | None =>
      attempted temp_dir files = files /\
      exists temp_dir',
        ingest_files (temp_dir, stores, processed) files
        = (stores',
           Ok (temp_dir', stores', processed ++ (to_result <$> succeeded files)))
  end.
Proof.
  revert temp_dir stores processed.
  induction files as [|file files IH]; intros temp_dir stores processed.
  - simpl. split; trivial. exists temp_dir. now rewrite app_nil_r.
  - rewrite ingest_files_cons, attempted_cons, write_failure_cons.
    destruct (is_pdf_name file) eqn:Hp.
    + destruct (write_raises temp_dir _ _) as [what|] eqn:Hw.
      * rewrite (ingest_file_raises _ _ _ _ what) by trivial. reflexivity.
      * rewrite ingest_file_step by trivial. rewrite Hp.
        set (temp_dir1 := dict_set temp_dir _ _).
        specialize (IH temp_dir1
                      (foldl (fun st entry =>
                                dict_set st (UploadFile.filename entry.1) entry.2)
                             stores (succeeded [file]))
                      (processed ++ (to_result <$> succeeded [file]))).
        rewrite (succeeded_cons file (attempted temp_dir1 files)), foldl_app.
        destruct (write_failure temp_dir1 files) as [what|]; [exact IH|].
        destruct IH as [Ha [temp_dir' IH]].
        split; [now rewrite Ha|].
        exists temp_dir'. rewrite IH.
        now rewrite (succeeded_cons file files), fmap_app, app_assoc.
    + rewrite ingest_file_step by (rewrite Hp; discriminate). rewrite Hp.
      specialize (IH temp_dir
                    (foldl (fun st entry =>
                              dict_set st (UploadFile.filename entry.1) entry.2)
                           stores (succeeded [file]))
                    (processed ++ (to_result <$> succeeded [file]))).
      rewrite (succeeded_cons file (attempted temp_dir files)), foldl_app.
      destruct (write_failure temp_dir files) as [what|]; [exact IH|].
      destruct IH as [Ha [temp_dir' IH]].
      split; [now rewrite Ha|].
      exists temp_dir'. rewrite IH.
      now rewrite (succeeded_cons file files), fmap_app, app_assoc.
Qed.

(** Writes that all return leave no failure. *)
Lemma writes_return_failure files temp_dir :
  writes_return files -> write_failure temp_dir files = None.
Proof.
  revert temp_dir. induction files as [|file files IH]; intros temp_dir Hw; trivial.
  rewrite write_failure_cons.
  assert (Hw' : writes_return files).
  { intros d f Hin. apply Hw. now right. }
  destruct (is_pdf_name file) eqn:Hp; [|now apply IH].
  rewrite (Hw temp_dir file) by (trivial; now left). now apply IH.
Qed.

(** The endpoint in terms of the documents that succeed. *)
Lemma analyze_pdfs_endpoint_cases analysis_id stores files :
  analyze_pdfs_endpoint analysis_id stores files
  = match files with
    | [] => (stores, Raise NO_FILES)
    | _ =>
        let stores' :=
          foldl (fun st entry => dict_set st (UploadFile.filename entry.1) entry.2)
                stores (succeeded (attempted [] files)) in
        match write_failure [] files with
        | Some what => (stores', Raise (ExternalError what))
        | None =>
            match succeeded files with
            | [] => (stores', Raise NONE_PROCESSED)
            | _ =>
                (stores',
                 Ok (AnalysisResponse.mk analysis_id
                       (Z.of_nat (length (succeeded files)))
                       (to_result <$> succeeded files)))
            end
        end
    end.
Proof.
  unfold analyze_pdfs_endpoint.
  destruct files as [|file files]; trivial.
  pose proof (ingest_loop (file :: files) [] stores []) as Hloop.
  cbv zeta in *.
  destruct (write_failure [] (file :: files)) as [what|].
  - now rewrite Hloop.
  - destruct Hloop as [_ [temp_dir' ->]].
    generalize (succeeded (file :: files)). intros entries.
    destruct entries as [|entry entries]; simpl; trivial.
    now rewrite length_fmap.
Qed.

(** The registry after an ingestion: the successes among the files that
    were reached are stored in order. *)
Lemma analyze_registry analysis_id stores files :
  (analyze_pdfs_endpoint analysis_id stores files).1
  = foldl (fun st entry => dict_set st (UploadFile.filename entry.1) entry.2)
          stores (succeeded (attempted [] files)).
Proof.
  rewrite analyze_pdfs_endpoint_cases. destruct files as [|file files]; trivial.
  cbv zeta. destruct (write_failure [] (file :: files)); trivial.
  generalize (succeeded (file :: files)). intros entries.
  destruct entries; reflexivity.
Qed.

Lemma analyze_results analysis_id stores files :
  results_of (analyze_pdfs_endpoint analysis_id stores files).2
  = match write_failure [] files with
    | Some _ => []
    | None => to_result <$> succeeded files
    end.
Proof.
  rewrite analyze_pdfs_endpoint_cases. destruct files as [|file files]; trivial.
  cbv zeta. destruct (write_failure [] (file :: files)); trivial.
  destruct (succeeded (file :: files)); reflexivity.
Qed.

Lemma analyze_is_Ok analysis_id stores files :
  is_Ok (analyze_pdfs_endpoint analysis_id stores files).2 = true
  <-> write_failure [] files = None /\ succeeded files <> [].
Proof.
  rewrite analyze_pdfs_endpoint_cases. destruct files as [|file files].
  - simpl. split; [discriminate|]. intros [_ H]. now contradiction H.
  - cbv zeta. destruct (write_failure [] (file :: files)).
    + simpl. split; [discriminate|]. intros [[=] _].
    + destruct (succeeded (file :: files)); simpl.
      * split; [discriminate|]. intros [_ H]. now contradiction H.
      * split; trivial. intros _. split; trivial. discriminate.
Qed.

Lemma succeeded_nil files :
  succeeded files = [] <-> forall file, file ∈ files -> succeeded [file] = [].
Proof.
  induction files as [|file files IH].
  - split; trivial. intros _ file []%elem_of_nil.
  - rewrite (succeeded_cons file files). split.
    + intros [H1 H2]%app_eq_nil file' [->|Hin]%elem_of_cons; trivial.
      revert file' Hin. now apply IH.
    + intros H. rewrite (H file) by now left. simpl.
      apply IH. intros file' Hin. apply H. now right.
Qed.


End IngestionClaims.

(** ** The claims at concrete inputs *)

Lemma example_chat_succeeds : example_chat = Ok example_response.
Proof. vm_compute. reflexivity. Qed.

Lemma example_gather :
  gather (retrieval_tasks example_stores (ChatRequest.query example_request))
  = Ok [[example_doc "alpha" (Some "a.pdf") 0;
         example_doc "beta" (Some "a.pdf") 1;
         example_doc "delta" (Some "a.pdf") 2;
         example_doc "epsilon" (Some "a.pdf") 3];
        [example_doc "gamma" (Some "b.pdf") 0;
         example_doc "alpha" (Some "b.pdf") 5;
         example_doc "zeta" (Some "b.pdf") 6;
         example_doc "eta" (Some "b.pdf") 7;
         example_doc "theta" (Some "c.pdf") 8]].
Proof. reflexivity. Qed.

(** The three failures of a query, at concrete registries. *)
Example chat_on_empty_registry :
  chat_with_pdfs no_float_of_str example_chain [] example_request = Raise NO_PDFS.
Proof. reflexivity. Qed.

Example chat_without_hits :
  chat_with_pdfs no_float_of_str example_chain stores_without_hits example_request
  = Raise NO_INFORMATION.
Proof. reflexivity. Qed.

Example chat_all_filtered :
  chat_with_pdfs no_float_of_str example_chain stores_all_filtered example_request
  = Raise NOT_RELEVANT.
Proof. vm_compute. reflexivity. Qed.

(** C1, as stated, fails: the failure for an empty merged pool and the
    failure for candidates that were all filtered out carry the same
    failure code, 404; and a retrieval that raises makes the query fail with
    that exception, which is none of the three conditions and has no
    failure code of its own. *)
Lemma C1_two_failures_share_code_404 :
  chat_with_pdfs no_float_of_str example_chain stores_without_hits example_request
    = Raise NO_INFORMATION
  /\ chat_with_pdfs no_float_of_str example_chain stores_all_filtered example_request
    = Raise NOT_RELEVANT
  /\ failure_code
       (chat_with_pdfs no_float_of_str example_chain stores_without_hits example_request)
     = failure_code
         (chat_with_pdfs no_float_of_str example_chain stores_all_filtered example_request)
  /\ chat_with_pdfs no_float_of_str example_chain stores_failing example_request
    = Raise RETRIEVAL_FAILED
  /\ failure_code
       (chat_with_pdfs no_float_of_str example_chain stores_failing example_request)
     = None.
Proof. split_and!; vm_compute; reflexivity. Qed.

Lemma C1_witness :
  is_Ok example_chat = true
  /\ status_of NO_INFORMATION = status_of NOT_RELEVANT
  /\ NO_INFORMATION <> NOT_RELEVANT.
Proof.
  pose proof (C1_failures_differ_by_status_and_detail no_float_of_str example_chain
                example_stores example_request _ example_gather)
    as (_ & _ & _ & Hok & _ & (_ & _ & Hne) & (_ & H2 & H3)).
  split_and!.
  - apply Hok. split_and!; [discriminate|discriminate|].
    vm_compute. discriminate.
  - now rewrite H2, H3.
  - exact Hne.
Defined.

Lemma C2_witness :
  example_chat = Ok example_response
  /\ Forall (fun res =>
               PyFloat.flt RELEVANCE_THRESHOLD (ProcessedChunk.relevance_score res) = true)
            (ranked_results no_float_of_str example_chain example_stores example_request).
Proof.
  split; [exact example_chat_succeeds|].
  exact (proj1 (proj2 (C2_score_strictly_above_threshold no_float_of_str example_chain
                         example_stores example_request example_response
                         example_chat_succeeds))).
Defined.

Lemma C3_witness :
  example_chat = Ok example_response
  /\ forall e, e ∈ StructuredChatResponse.extracted_sections example_response ->
       PyStr.strip (PyStr.lower (ExtractedSection.section_title e)) ∉ STOP_TITLES.
Proof.
  split; [exact example_chat_succeeds|].
  exact (proj1 (C3_stoplist_titles_dropped no_float_of_str example_chain
                  example_stores example_request example_response
                  example_chat_succeeds)).
Defined.

Lemma C4_witness :
  example_chat = Ok example_response
  /\ forall s,
       filter (same_score s)
         (ranked_results no_float_of_str example_chain example_stores example_request)
       `prefix_of`
       filter (same_score s)
         (scored no_float_of_str example_chain example_stores example_request
            (retrieved example_stores (ChatRequest.query example_request))).
Proof.
  split; [exact example_chat_succeeds|].
  exact (proj2 (proj2 (C4_descending_and_stable no_float_of_str example_chain
                         example_stores example_request example_response
                         example_chat_succeeds))).
Defined.

Lemma C5_witness :
  example_chat = Ok example_response
  /\ ExtractedSection.importance_rank
       <$> StructuredChatResponse.extracted_sections example_response
     = seqZ 1 3.
Proof.
  split; [exact example_chat_succeeds|].
  exact (proj1 (proj2 (proj2 (C5_lists_aligned_ranks_dense no_float_of_str example_chain
                         example_stores example_request example_response
                         example_chat_succeeds)))).
Defined.

(** The ranking of the example: the two chunks scored 0.5 keep the order in
    which they were met. *)
Example ranked_results_example :
  ranked_results no_float_of_str example_chain example_stores example_request
  = [ProcessedChunk.mk "Methods" "beta" score_0_9 "a.pdf" 2;
     ProcessedChunk.mk "Results" "alpha" 0.5%float "b.pdf" 6;
     ProcessedChunk.mk "Discussion" "gamma" 0.5%float "b.pdf" 1].
Proof. vm_compute. reflexivity. Qed.

(** The boundary of the threshold. *)
Example keeps_boundary :
  ~ keeps (ProcessedChunk.mk "Results" "text" RELEVANCE_THRESHOLD "a.pdf" 1)
  /\ keeps (ProcessedChunk.mk "Results" "text" score_0_40001 "a.pdf" 1)
  /\ ~ keeps (ProcessedChunk.mk " Introduction " "text" score_0_95 "a.pdf" 1).
Proof.
  split_and!.
  - intros [_ H]. vm_compute in H. discriminate.
  - split; [|vm_compute; reflexivity].
    apply (bool_decide_unpack _). vm_compute. reflexivity.
  - intros [H _]. apply H. apply (bool_decide_unpack _). vm_compute. reflexivity.
Qed.

(** Scoring failures of the example: an exception, a score out of range. *)
Example process_chunk_example :
  process_chunk no_float_of_str example_chain (example_doc "zeta" (Some "b.pdf") 6)
    "q" "p" ["Discussion"] = None
  /\ process_chunk no_float_of_str example_chain (example_doc "eta" (Some "b.pdf") 7)
       "q" "p" ["Discussion"] = None
  /\ process_chunk no_float_of_str example_chain (example_doc "beta" (Some "a.pdf") 1)
       "q" "p" ["Results"; "Methods"]
     = Some (ProcessedChunk.mk "Methods" "beta" score_0_9 "a.pdf" 2).
Proof. split_and!; vm_compute; reflexivity. Qed.

(** The chunk of [c.pdf], which is not registered, gets no task. *)
Example processing_tasks_example :
  (fun task => Document.page_content task.1)
    <$> registered_tasks example_stores
          (unique_docs (retrieved example_stores "q"))
  = ["alpha"; "beta"; "delta"; "epsilon"; "gamma"; "zeta"; "eta"].
Proof. vm_compute. reflexivity. Qed.

(** Deduplication of the example: of the two chunks with the text [alpha]
    the later one, of [b.pdf], is kept, at the place of the first. *)
Example unique_docs_example :
  (fun doc => (Document.page_content doc, Document.source (Document.metadata doc)))
    <$> unique_docs (retrieved example_stores "q")
  = [("alpha", Some "b.pdf"); ("beta", Some "a.pdf"); ("delta", Some "a.pdf");
     ("epsilon", Some "a.pdf"); ("gamma", Some "b.pdf"); ("zeta", Some "b.pdf");
     ("eta", Some "b.pdf"); ("theta", Some "c.pdf")].
Proof. vm_compute. reflexivity. Qed.

(** Ingestion of a batch of four: the broken file and the file that is not
    a PDF are left out, the two others are reported. *)
Example analyze_pdfs_example :
  (analyze_pdfs_endpoint example_join example_write_raises
     example_load example_split example_index "id" [] example_files).2
  = Ok (AnalysisResponse.mk "id" 2
          [PDFAnalysisResult.mk "first.pdf" SUCCESS_STATUS 1;
           PDFAnalysisResult.mk "second.pdf" SUCCESS_STATUS 1]).
Proof. vm_compute. reflexivity. Qed.

Example analyze_pdfs_none_processed :
  (analyze_pdfs_endpoint example_join example_write_raises
     example_load example_split example_index
     "id" [] [UploadFile.mk "broken.pdf" []]).2
  = Raise NONE_PROCESSED.
Proof. vm_compute. reflexivity. Qed.


Example extract_headings_example :
  extract_headings example_text ≡ₚ ["INTRODUCTION"; "Some Heading Words"].
Proof. vm_compute. apply Permutation_swap. Qed.

(** The claims without a premise, applied to the example. *)

Lemma C6_witness :
  filter (fun doc => Document.page_content doc = "alpha") (unique_docs example_pool)
  = [example_doc "alpha" (Some "b.pdf") 5].
Proof.
  rewrite (proj1 (C6_dedup_last_writer_wins example_pool "alpha")).
  vm_compute. reflexivity.
Defined.

Lemma C7_witness :
  process_chunk no_float_of_str example_chain (example_doc "zeta" (Some "b.pdf") 6)
    (ChatRequest.query example_request) (ChatRequest.persona example_request)
    ["Discussion"] = None
  /\ exists top,
       ranked no_float_of_str example_chain example_stores example_request
         example_pool = Ok top
       /\ ProcessedChunk.mk "Methods" "beta" score_0_9 "a.pdf" 2 ∈ top
       /\ example_chat = Ok (assemble (take TOP_N top)).
Proof.
  destruct (C7_scoring_failure_drops_one_chunk no_float_of_str example_chain
              example_stores example_request)
    as (_ & Hraise & _ & _ & _ & _ & Hkept).
  split.
  - apply (Hraise _ _ "timeout"). vm_compute. reflexivity.
  - destruct (Hkept _ _ (example_doc "beta" (Some "a.pdf") 1) ["Results"; "Methods"]
                (ProcessedChunk.mk "Methods" "beta" score_0_9 "a.pdf" 2)
                example_gather eq_refl)
      as (top & Hr & Hin & Hchat & _).
    + vm_compute. repeat constructor.
    + vm_compute. reflexivity.
    + split; [|vm_compute; reflexivity].
      apply (bool_decide_unpack _). vm_compute. reflexivity.
    + exists top. split_and!; trivial.
Defined.


Lemma C9_witness :
  "Some Heading Words" ∈ extract_headings example_text
  /\ "ABC" ∉ extract_headings example_text.
Proof.
  destruct (C9_extract_headings_exact example_text) as (Hiff & _).
  split.
  - apply Hiff. exists "  Some Heading Words  ".
    split_and!; try (vm_compute; reflexivity).
    + vm_compute. repeat constructor.
    + right; vm_compute; reflexivity.
  - intros (line & _ & _ & [Hlen _] & _)%Hiff. vm_compute in Hlen. discriminate.
Defined.

Lemma C10_witness :
  (example_doc "theta" (Some "c.pdf") 8, ["Discussion"])
  ∉ registered_tasks example_stores (unique_docs example_pool).
Proof.
  destruct (C10_unregistered_chunks_skipped no_float_of_str example_chain
              example_stores example_request example_pool
              (unique_docs example_pool)) as (_ & _ & Hskip & _).
  apply Hskip.
  - vm_compute. repeat constructor.
  - right. exists "c.pdf". split; reflexivity.
Defined.

(** * Further properties of the query pipeline *)

Section SortedPermutation.
Context {A : Type} (key : A -> float).

Lemma insert_sorted_Permutation (x : A) l : insert_sorted key x l ≡ₚ x :: l.
Proof.
  induction l as [|y l IH]; simpl; trivial.
  destruct (PyFloat.flt (key y) (key x)); trivial.
  rewrite IH. apply Permutation_swap.
Qed.

Lemma sort_ascending_Permutation (l : list A) : sort_ascending key l ≡ₚ l.
Proof.
  induction l as [|x l IH]; simpl; trivial.
  now rewrite insert_sorted_Permutation, IH.
Qed.

Lemma sorted_Permutation (l : list A) reversed : sorted key l reversed ≡ₚ l.
Proof.
  unfold sorted. destruct reversed.
  - now rewrite reverse_Permutation, sort_ascending_Permutation, reverse_Permutation.
  - apply sort_ascending_Permutation.
Qed.

End SortedPermutation.

Lemma length_omap_le {A B : Type} (f : A -> option B) (l : list A) :
  (length (omap f l) <= length l)%nat.
Proof.
  induction l as [|x l IH]; csimpl; [lia|].
  destruct (f x); simpl; lia.
Qed.

Lemma length_dict_set {K V : Type} `{EqDecision K} (d : dict K V) k v :
  (length (dict_set d k v) <= S (length d))%nat.
Proof.
  induction d as [|[k0 v0] d IH]; simpl; trivial.
  destruct (decide (k0 = k)); simpl; lia.
Qed.

Lemma length_comprehension_loop {K V : Type} `{EqDecision K} (key : V -> K)
    (d : dict K V) (l : list V) :
  (length (foldl (fun d x => dict_set d (key x) x) d l) <= length d + length l)%nat.
Proof.
  revert d. induction l as [|x l IH]; intros d; simpl; [lia|].
  specialize (IH (dict_set d (key x) x)).
  pose proof (length_dict_set d (key x) x). lia.
Qed.

Lemma length_unique_docs (pool : list Document.t) :
  (length (unique_docs pool) <= length pool)%nat.
Proof.
  unfold unique_docs, dict_values, dict_comprehension. rewrite length_fmap.
  apply (length_comprehension_loop Document.page_content [] pool).
Qed.

Lemma unique_docs_elem_of (pool : list Document.t) doc :
  doc ∈ unique_docs pool -> doc ∈ pool.
Proof.
  unfold unique_docs, dict_values. intros Hdoc.
  apply list_elem_of_fmap in Hdoc as ([k v] & -> & Hkv).
  apply comprehension_loop_elem_of in Hkv as [Hkv|Hkv]; trivial.
  now apply elem_of_nil in Hkv.
Qed.

Lemma elem_of_registered_tasks (stores : dict string StoreEntry.t)
    (docs : list Document.t) doc hs :
  (doc, hs) ∈ registered_tasks stores docs <->
  doc ∈ docs /\
  exists name data,
    Document.source (Document.metadata doc) = Some name /\
    dict_get stores name = Some data /\
    hs = StoreEntry.headings data.
Proof.
  unfold registered_tasks. rewrite list_elem_of_omap.
  unfold registered_task. split.
  - intros (doc' & Hin & H).
    destruct (Document.source (Document.metadata doc')) as [name|] eqn:Es;
      [|discriminate].
    simpl in H. destruct (dict_get stores name) as [data|] eqn:Eg; [|discriminate].
    simpl in H. injection H as -> <-. split; [exact Hin|]. eauto.
  - intros (Hin & name & data & Es & Eg & ->).
    exists doc. split; trivial. rewrite Es. simpl. now rewrite Eg.
Qed.

Section QueryExtras.
Variable float_of_str : string -> option float.
Variable chain_ainvoke : ChainInput.t -> ChainOutcome.

Abbreviation process_chunk := (process_chunk float_of_str chain_ainvoke).
Abbreviation chat_with_pdfs := (chat_with_pdfs float_of_str chain_ainvoke).
Abbreviation processed_results := (processed_results float_of_str chain_ainvoke).
Abbreviation scored := (scored float_of_str chain_ainvoke).
Abbreviation ranked_results := (ranked_results float_of_str chain_ainvoke).

Implicit Types (stores : dict string StoreEntry.t) (req : ChatRequest.t).
Implicit Types (pool docs : list Document.t) (res : ProcessedChunk.t).

Lemma length_scored stores req pool :
  (length (scored stores req pool) <= length (unique_docs pool))%nat.
Proof.
  unfold scored, filtered_results, valid_results, processed_results,
    registered_tasks.
  etransitivity; [apply length_filter|].
  etransitivity; [apply length_omap_le|].
  rewrite length_fmap. apply length_omap_le.
Qed.

(** X1: a successful response holds as many results as chunks survived
    scoring and filtering, cut at 7; the survivors are at most as many as
    the distinct texts of the pool, which are at most as many as the chunks
    retrieved. *)
Theorem X1_result_count stores req resp :
  chat_with_pdfs stores req = Ok resp ->
  let pool := retrieved stores (ChatRequest.query req) in
  let survivors := scored stores req pool in
  length (StructuredChatResponse.extracted_sections resp)
    = Nat.min 7 (length survivors)
  /\ length (StructuredChatResponse.subsection_analysis resp)
    = Nat.min 7 (length survivors)
  /\ (length survivors <= length (unique_docs pool))%nat
  /\ (length (unique_docs pool) <= length pool)%nat.
Proof.
  intros [-> _]%chat_with_pdfs_Ok pool survivors.
  rewrite assemble_spec. simpl. rewrite length_imap, length_fmap.
  unfold ranked_results. fold pool. fold survivors.
  rewrite length_take. unfold sorted_results. rewrite length_sorted.
  unfold TOP_N. split_and!; trivial.
  - apply length_scored.
  - apply length_unique_docs.
Qed.

(** X2: the cut keeps the best: no chunk that the cut to the top 7 leaves
    out has a greater score than a chunk that it keeps. *)
Theorem X2_left_out_never_better stores req pool :
  Forall (fun kept =>
            Forall (fun left_out =>
                      PyFloat.fle (ProcessedChunk.relevance_score left_out)
                                  (ProcessedChunk.relevance_score kept) = true)
                   (drop TOP_N (sorted_results (scored stores req pool))))
         (take TOP_N (sorted_results (scored stores req pool))).
Proof.
  pose proof (scored_ordered float_of_str chain_ainvoke stores req pool) as Hord.
  pose proof (sorted_reverse_descending ProcessedChunk.relevance_score _ Hord) as Hs.
  fold (sorted_results (scored stores req pool)) in Hs.
  rewrite <- (take_drop TOP_N (sorted_results (scored stores req pool))) in Hs at 1.
  rewrite Forall_forall in Hord.
  assert (Hin : forall res, res ∈ sorted_results (scored stores req pool) ->
                            score_ordered res).
  { intros res Hres. apply Hord. unfold sorted_results in Hres.
    now rewrite elem_of_sorted in Hres. }
  apply Forall_forall. intros kept Hkept.
  apply Forall_forall. intros left_out Hleft.
  pose proof (StronglySorted_app_1_elem_of _ _ _ _ _ Hs Hkept Hleft) as Hrel.
  unfold flip, ascending in Hrel.
  apply PyFloatFacts.flt_false_fle; trivial.
  - apply Hin. rewrite <- (take_drop TOP_N (sorted_results _)).
    apply elem_of_app. now left.
  - apply Hin. rewrite <- (take_drop TOP_N (sorted_results _)).
    apply elem_of_app. now right.
Qed.

(** X3: the sort neither drops nor repeats a result: the sorted list is a
    permutation of the filtered list. *)
Theorem X3_sort_is_permutation (filtered : list ProcessedChunk.t) :
  sorted_results filtered ≡ₚ filtered.
Proof. apply sorted_Permutation. Qed.

(** X4: provenance.  Every ranked result of a query names a registered
    document, and a chunk of the retrieved pool has that document as its
    source and, one less than the page of the result, as its page: the page
    is made 1-based, and document and page are those of the chunk, whatever
    the capability replied. *)
Theorem X4_results_name_registered_documents stores req resp :
  chat_with_pdfs stores req = Ok resp ->
  forall e, e ∈ StructuredChatResponse.extracted_sections resp ->
    dict_contains stores (ExtractedSection.document e) = true
    /\ exists doc,
         doc ∈ retrieved stores (ChatRequest.query req)
         /\ Document.source (Document.metadata doc)
            = Some (ExtractedSection.document e)
         /\ ExtractedSection.page_number e
            = default 0 (Document.page (Document.metadata doc)) + 1.
Proof.
  intros [-> _]%chat_with_pdfs_Ok e He. rewrite assemble_spec in He. simpl in He.
  apply list_elem_of_lookup in He as [i Hi].
  apply list_lookup_imap_Some in Hi as (res & Hres & ->). simpl.
  apply list_elem_of_lookup_2, elem_of_ranked_results in Hres.
  apply elem_of_scored in Hres as (_ & doc & hs & Htask & Hs).
  apply elem_of_registered_tasks in Htask as (Hdoc & name & data & Esrc & Eget & _).
  apply process_chunk_Some in Hs
    as (d & title & text & v & f & _ & _ & _ & _ & _ & _ & ->).
  simpl. rewrite Esrc. simpl. split.
  - unfold dict_contains. now rewrite Eget.
  - exists doc. split_and!; trivial. now apply unique_docs_elem_of.
Qed.

End QueryExtras.

(** ** Further properties of the deduplication *)

Lemma filter_all {A : Type} (P : A -> Prop) `{forall x, Decision (P x)} (l : list A) :
  (forall x, x ∈ l -> P x) -> filter P l = l.
Proof.
  induction l as [|x l IH]; intros Hl; trivial.
  rewrite filter_cons_True by (apply Hl; now left).
  f_equal. apply IH. intros y Hy. apply Hl. now right.
Qed.

Section ComprehensionOrder.
Context {K V : Type} `{EqDecision K} (key : V -> K).
Implicit Types (d : dict K V) (l : list V).

Lemma elem_of_first_occurrences (ks : list K) k : k ∈ first_occurrences ks <-> k ∈ ks.
Proof.
  induction ks as [|x ks IH]; simpl; [tauto|].
  rewrite !elem_of_cons, list_elem_of_filter, IH.
  destruct (decide (k = x)); tauto.
Qed.

(** The keys of the dictionary built by the loop: the old keys, then the
    new ones in the order in which they first occur. *)
Lemma comprehension_loop_keys d l :
  dict_keys (foldl (fun d x => dict_set d (key x) x) d l)
  = dict_keys d
    ++ filter (fun k => k ∉ dict_keys d) (first_occurrences (key <$> l)).
Proof.
  revert d. induction l as [|x l IH]; intros d; csimpl.
  - now rewrite app_nil_r.
  - rewrite IH, dict_keys_set, filter_cons, list_filter_filter.
    unfold dict_contains.
    destruct (dict_get d (key x)) as [v|] eqn:E.
    + assert (Hin : key x ∈ dict_keys d).
      { destruct (decide (key x ∈ dict_keys d)) as [?|Hn]; trivial.
        apply dict_get_None_keys in Hn. congruence. }
      rewrite decide_False by tauto. f_equal.
      apply list_filter_iff. intros k. split; [|tauto].
      intros Hk. split; trivial. congruence.
    + apply dict_get_None_keys in E. rewrite decide_True by trivial.
      rewrite <- app_assoc. simpl. do 2 f_equal.
      apply list_filter_iff. intros k.
      rewrite elem_of_app, list_elem_of_singleton. tauto.
Qed.

Lemma comprehension_keys l :
  dict_keys (dict_comprehension key l) = first_occurrences (key <$> l).
Proof.
  unfold dict_comprehension. rewrite comprehension_loop_keys. simpl.
  apply filter_all. intros k _. apply not_elem_of_nil.
Qed.

Lemma dict_set_fresh d k v : k ∉ dict_keys d -> dict_set d k v = d ++ [(k, v)].
Proof.
  unfold dict_keys. induction d as [|[k0 v0] d IH]; csimpl; intros Hk; trivial.
  apply not_elem_of_cons in Hk as [Hne Hk].
  rewrite decide_False by congruence. now rewrite IH.
Qed.

(** Without a repeated key the loop appends the entries one by one. *)
Lemma comprehension_loop_NoDup_app d l :
  NoDup (key <$> l) ->
  (forall x, x ∈ l -> key x ∉ dict_keys d) ->
  foldl (fun d x => dict_set d (key x) x) d l = d ++ ((fun x => (key x, x)) <$> l).
Proof.
  revert d. induction l as [|x l IH]; intros d Hn Hd; csimpl.
  - now rewrite app_nil_r.
  - apply NoDup_cons in Hn as [Hx Hn].
    rewrite dict_set_fresh by (apply Hd; now left).
    rewrite IH; trivial.
    + now rewrite <- app_assoc.
    + intros y Hy. unfold dict_keys. rewrite fmap_app, elem_of_app.
      intros [Hin|Hin].
      * apply (Hd y); [now right|exact Hin].
      * csimpl in Hin. apply list_elem_of_singleton in Hin.
        apply Hx. rewrite <- Hin. apply list_elem_of_fmap. eauto.
Qed.

Lemma comprehension_values_NoDup l :
  NoDup (key <$> l) -> dict_values (dict_comprehension key l) = l.
Proof.
  intros Hn. unfold dict_comprehension, dict_values.
  rewrite comprehension_loop_NoDup_app; trivial.
  - simpl. rewrite <- list_fmap_compose. apply list_fmap_id.
  - intros x _. apply not_elem_of_nil.
Qed.

End ComprehensionOrder.

(** X5: the deduplicated pool lists the texts in the order in which they
    first occur in the pool (while, by C6, the chunk kept for a text is the
    last one with that text). *)
Theorem X5_dedup_keeps_first_occurrence_order (pool : list Document.t) :
  Document.page_content <$> unique_docs pool
  = first_occurrences (Document.page_content <$> pool).
Proof.
  unfold unique_docs.
  rewrite dict_values_keys by apply comprehension_keyed.
  apply comprehension_keys.
Qed.

(** X6: deduplication leaves a pool without repeated texts as it is, and
    deduplicating twice is deduplicating once. *)
Theorem X6_dedup_idempotent (pool : list Document.t) :
  (NoDup (Document.page_content <$> pool) -> unique_docs pool = pool)
  /\ unique_docs (unique_docs pool) = unique_docs pool.
Proof.
  assert (H : forall l, NoDup (Document.page_content <$> l) -> unique_docs l = l).
  { intros l Hl. now apply comprehension_values_NoDup. }
  split; [apply H|]. apply H. unfold unique_docs.
  rewrite dict_values_keys by apply comprehension_keyed.
  apply comprehension_NoDup.
Qed.

(** X7: deduplication loses no text: the texts of the deduplicated pool
    are those of the pool, so the deduplicated pool is empty only when the
    pool is. *)
Theorem X7_dedup_preserves_texts (pool : list Document.t) :
  (forall text,
     text ∈ Document.page_content <$> unique_docs pool <->
     text ∈ Document.page_content <$> pool)
  /\ (unique_docs pool = [] <-> pool = []).
Proof.
  assert (Htexts : forall text,
     text ∈ Document.page_content <$> unique_docs pool <->
     text ∈ Document.page_content <$> pool).
  { intros text. unfold unique_docs.
    rewrite dict_values_keys by apply comprehension_keyed.
    rewrite comprehension_keys. apply elem_of_first_occurrences. }
  split; [exact Htexts|]. split.
  - intros Hnil. destruct pool as [|doc pool]; trivial.
    assert (Hin : Document.page_content doc
                  ∈ Document.page_content <$> unique_docs (doc :: pool)).
    { apply Htexts. csimpl. now left. }
    rewrite Hnil in Hin. now apply elem_of_nil in Hin.
  - now intros ->.
Qed.

(** ** Further properties of the scoring wrapper *)

Lemma ProcessedChunk_validate_ext float_of_str (d1 d2 : dict string PyVal) :
  (forall k, k ∈ ["section_title"; "refined_text"; "relevance_score";
                  "document"; "page_number"] ->
             dict_get d1 k = dict_get d2 k) ->
  ProcessedChunk_validate float_of_str d1 = ProcessedChunk_validate float_of_str d2.
Proof.
  intros H. unfold ProcessedChunk_validate.
  rewrite (H "section_title"), (H "refined_text"), (H "relevance_score"),
    (H "document"), (H "page_number"); trivial;
    rewrite !elem_of_cons; tauto.
Qed.

(** X8: only the title, the text and the score of a reply count.  Whatever
    the capability puts under another key of its reply, a document or a
    page number of its own included, the scored chunk is the same. *)
Theorem X8_other_reply_keys_ignored float_of_str
    (chain1 chain2 : ChainInput.t -> ChainOutcome)
    (chunk : Document.t) (query persona : string) (hs : list string)
    (d : dict string PyVal) (k : string) (v : PyVal) :
  k <> "section_title" -> k <> "refined_text" -> k <> "relevance_score" ->
  chain1 (chain_input chunk query persona hs) = ChainReturned (PDict d) ->
  chain2 (chain_input chunk query persona hs)
    = ChainReturned (PDict (dict_set d k v)) ->
  process_chunk float_of_str chain1 chunk query persona hs
  = process_chunk float_of_str chain2 chunk query persona hs.
Proof.
  intros Ht Hx Hs H1 H2. unfold process_chunk. rewrite H1, H2.
  apply ProcessedChunk_validate_ext. intros key Hkey.
  rewrite !dict_get_set.
  rewrite !elem_of_cons, elem_of_nil in Hkey.
  repeat case_decide; trivial; intuition congruence.
Qed.

(** ** Further properties of the ingestion *)

Section UpdateLoop.
Context {K V E : Type} `{EqDecision K} (kf : E -> K) (vf : E -> V).
Implicit Types (d : dict K V) (l : list E).

(** A loop of assignments [d[kf e] = vf e]: the last assignment to a key
    decides its value. *)
Lemma update_loop_get d l k :
  dict_get (foldl (fun d e => dict_set d (kf e) (vf e)) d l) k
  = match last (filter (fun e => kf e = k) l) with
    | Some e => Some (vf e)
    | None => dict_get d k
    end.
Proof.
  revert d. induction l as [|e l IH]; simpl; intros d; trivial.
  rewrite IH, filter_cons, dict_get_set.
  destruct (decide (kf e = k)) as [Hk|Hk]; trivial.
  rewrite last_cons. now destruct (last _).
Qed.

Lemma update_loop_keys d l :
  dict_keys (foldl (fun d e => dict_set d (kf e) (vf e)) d l)
  = dict_keys d ++ filter (fun k => k ∉ dict_keys d) (first_occurrences (kf <$> l)).
Proof.
  revert d. induction l as [|x l IH]; intros d; csimpl.
  - now rewrite app_nil_r.
  - rewrite IH, dict_keys_set, filter_cons, list_filter_filter.
    unfold dict_contains.
    destruct (dict_get d (kf x)) as [v|] eqn:Eg.
    + assert (Hin : kf x ∈ dict_keys d).
      { destruct (decide (kf x ∈ dict_keys d)) as [?|Hn]; trivial.
        apply dict_get_None_keys in Hn. congruence. }
      rewrite decide_False by tauto. f_equal.
      apply list_filter_iff. intros k. split; [|tauto].
      intros Hk. split; trivial. congruence.
    + apply dict_get_None_keys in Eg. rewrite decide_True by trivial.
      rewrite <- app_assoc. simpl. do 2 f_equal.
      apply list_filter_iff. intros k.
      rewrite elem_of_app, list_elem_of_singleton. tauto.
Qed.

Lemma update_loop_NoDup d l :
  NoDup (dict_keys d) ->
  NoDup (dict_keys (foldl (fun d e => dict_set d (kf e) (vf e)) d l)).
Proof.
  revert d. induction l as [|e l IH]; simpl; intros d Hd; trivial.
  apply IH. now apply dict_set_NoDup.
Qed.

End UpdateLoop.

Section IngestionExtras.
Variable os_path_join : string -> string.
Variable write_raises :
  dict string (list Byte.byte) -> string -> list Byte.byte -> option string.
Variable PyPDFLoader_load : list Byte.byte -> result (list Document.t).
Variable split_documents : list Document.t -> result (list Document.t).
Variable FAISS_from_documents : list Document.t -> result VectorStore.t.

Abbreviation process_pdf :=
  (process_pdf PyPDFLoader_load split_documents FAISS_from_documents).
Abbreviation succeeded :=
  (succeeded os_path_join PyPDFLoader_load split_documents FAISS_from_documents).
Abbreviation analyze_pdfs_endpoint :=
  (analyze_pdfs_endpoint os_path_join write_raises
     PyPDFLoader_load split_documents FAISS_from_documents).
Abbreviation attempted := (attempted os_path_join write_raises).
Abbreviation write_failure := (write_failure os_path_join write_raises).

Implicit Types (stores : dict string StoreEntry.t) (files : list UploadFile.t).

(** The files that the loop reaches are the first files of the batch. *)
Lemma attempted_prefix files temp_dir : attempted temp_dir files `prefix_of` files.
Proof.
  revert temp_dir. induction files as [|file files IH]; intros temp_dir.
  - reflexivity.
  - rewrite attempted_cons. destruct (is_pdf_name file).
    + destruct (write_raises _ _ _); [apply prefix_nil|].
      apply prefix_cons, IH.
    + apply prefix_cons, IH.
Qed.

(** X9: re-ingestion overwrites.  After an ingestion the registry maps a
    name to the entry of the last document that succeeded under that name
    among the files that the loop reached, which are the first files of the
    batch, and all of them when no write raises; a name under which none of
    them succeeded keeps the entry it had.  That holds of a request that is
    aborted by a write, too. *)
Theorem X9_last_success_is_registered analysis_id stores files name :
  dict_get (analyze_pdfs_endpoint analysis_id stores files).1 name
  = match last (filter (fun entry => UploadFile.filename entry.1 = name)
                       (succeeded (attempted [] files))) with
    | Some entry => Some entry.2
    | None => dict_get stores name
    end
  /\ attempted [] files `prefix_of` files
  /\ (write_failure [] files = None -> attempted [] files = files).
Proof.
  split_and!.
  - rewrite analyze_registry. apply update_loop_get.
  - apply attempted_prefix.
  - intros Hw.
    pose proof (ingest_loop os_path_join write_raises PyPDFLoader_load
                  split_documents FAISS_from_documents files [] stores []) as H.
    cbv zeta in H. rewrite Hw in H. tauto.
Qed.

(** X10: an ingestion that fails with one of the two exceptions of the
    endpoint itself, for an empty batch or for a batch of which no document
    was processed, leaves the registry as it was. *)
Theorem X10_failed_ingestion_keeps_registry analysis_id stores files :
  (analyze_pdfs_endpoint analysis_id stores files).2 = Raise NO_FILES
  \/ (analyze_pdfs_endpoint analysis_id stores files).2 = Raise NONE_PROCESSED ->
  (analyze_pdfs_endpoint analysis_id stores files).1 = stores.
Proof.
  rewrite analyze_pdfs_endpoint_cases.
  destruct files as [|file files]; [reflexivity|].
  pose proof (ingest_loop os_path_join write_raises PyPDFLoader_load
                split_documents FAISS_from_documents (file :: files) [] stores [])
    as Hloop.
  cbv zeta in *.
  destruct (write_failure [] (file :: files)) as [what|].
  - simpl. intros [[=]|[=]].
  - destruct Hloop as [-> _].
    destruct (succeeded (file :: files)); [reflexivity|].
    simpl. intros [[=]|[=]].
Qed.

(** X11: the registry only grows.  The names registered before an ingestion
    are the first names registered after it, in the same order; a registry
    without a repeated name stays so; and every document reported as
    processed is registered. *)
Theorem X11_registry_only_grows analysis_id stores files :
  dict_keys stores `prefix_of`
    dict_keys (analyze_pdfs_endpoint analysis_id stores files).1
  /\ (NoDup (dict_keys stores) ->
      NoDup (dict_keys (analyze_pdfs_endpoint analysis_id stores files).1))
  /\ (forall r,
        r ∈ results_of (analyze_pdfs_endpoint analysis_id stores files).2 ->
        PDFAnalysisResult.filename r
        ∈ dict_keys (analyze_pdfs_endpoint analysis_id stores files).1).
Proof.
  rewrite analyze_registry. split_and!.
  - rewrite update_loop_keys. now eexists.
  - apply update_loop_NoDup.
  - intros r Hr. rewrite analyze_results in Hr.
    pose proof (ingest_loop os_path_join write_raises PyPDFLoader_load
                  split_documents FAISS_from_documents files [] stores []) as Hloop.
    cbv zeta in Hloop.
    destruct (write_failure [] files); [now apply elem_of_nil in Hr|].
    destruct Hloop as [-> _].
    apply list_elem_of_fmap in Hr as (entry & -> & Hin). simpl.
    match goal with |- ?k ∈ dict_keys ?d =>
      destruct (decide (k ∈ dict_keys d)) as [?|Hn]; trivial;
      apply dict_get_None_keys in Hn end.
    rewrite update_loop_get in Hn.
    destruct (last _) as [e|] eqn:El; [discriminate|].
    apply last_None in El.
    assert (Hf : entry ∈ filter
                   (fun e : UploadFile.t * StoreEntry.t =>
                      UploadFile.filename e.1 = UploadFile.filename entry.1)
                   (succeeded files))
      by (apply list_elem_of_filter; split; trivial).
    rewrite El in Hf. now apply elem_of_nil in Hf.
Qed.

(** X14: after an ingestion that succeeded, a query whose retrievals return
    never fails for want of documents. *)
Theorem X14_query_after_ingestion_finds_documents
    float_of_str chain_ainvoke analysis_id stores files response request lists :
  (analyze_pdfs_endpoint analysis_id stores files).2 = Ok response ->
  gather (retrieval_tasks (analyze_pdfs_endpoint analysis_id stores files).1
            (ChatRequest.query request)) = Ok lists ->
  (analyze_pdfs_endpoint analysis_id stores files).1 <> []
  /\ chat_with_pdfs float_of_str chain_ainvoke
       (analyze_pdfs_endpoint analysis_id stores files).1 request
     <> Raise NO_PDFS.
Proof.
  intros Hok Hg.
  assert (Hne : (analyze_pdfs_endpoint analysis_id stores files).1 <> []).
  { assert (His : is_Ok (analyze_pdfs_endpoint analysis_id stores files).2 = true)
      by now rewrite Hok.
    apply analyze_is_Ok in His as [Hw His]. rewrite analyze_registry.
    pose proof (ingest_loop os_path_join write_raises PyPDFLoader_load
                  split_documents FAISS_from_documents files [] stores []) as Hloop.
    cbv zeta in Hloop. rewrite Hw in Hloop. destruct Hloop as [-> _].
    destruct (succeeded files) as [|entry entries]; [contradiction|].
    intros Hnil.
    assert (Hk : dict_keys
                   (foldl (fun st e => dict_set st (UploadFile.filename e.1) e.2)
                          stores (entry :: entries)) = []) by now rewrite Hnil.
    rewrite update_loop_keys in Hk. apply app_eq_nil in Hk as [Hs Hk].
    rewrite Hs in Hk. csimpl in Hk.
    rewrite filter_cons_True in Hk by apply not_elem_of_nil. discriminate. }
  split; trivial.
  rewrite chat_with_pdfs_cases, Hg.
  destruct (analyze_pdfs_endpoint analysis_id stores files).1; [contradiction|].
  destruct (concat lists); [discriminate|].
  destruct (sorted_results _); discriminate.
Qed.

End IngestionExtras.

(** ** Further properties of the headings *)

Lemma elem_of_extract_headings (full_text h : string) :
  h ∈ extract_headings full_text <->
  exists line, line ∈ PyStr.split PyStr.newline full_text
               /\ h = PyStr.strip line /\ is_heading h = true.
Proof.
  unfold extract_headings. rewrite elem_of_elements, headings_loop_elem_of.
  split; [|auto]. intros [[]%elem_of_empty|H]; exact H.
Qed.

(** No line of a split text holds the separator. *)
Lemma split_no_sep sep s line :
  line ∈ PyStr.split sep s -> sep ∉ list_ascii_of_string line.
Proof.
  revert line. induction s as [|c s IH]; simpl; intros line Hline.
  - apply list_elem_of_singleton in Hline as ->. apply not_elem_of_nil.
  - destruct (decide (c = sep)) as [->|Hc].
    + apply elem_of_cons in Hline as [->|Hline]; [apply not_elem_of_nil|auto].
    + destruct (PyStr.split sep s) as [|w ws] eqn:E.
      * apply list_elem_of_singleton in Hline as ->. simpl.
        apply not_elem_of_cons. split; [congruence|apply not_elem_of_nil].
      * apply elem_of_cons in Hline as [->|Hline].
        -- simpl. apply not_elem_of_cons. split; [congruence|].
           apply IH. now left.
        -- apply IH. now right.
Qed.

Lemma lstrip_chars s c :
  c ∈ list_ascii_of_string (PyStr.lstrip s) -> c ∈ list_ascii_of_string s.
Proof.
  induction s as [|a s IH]; simpl; trivial.
  destruct (PyStr.ch_isspace a); trivial. intros H. right. auto.
Qed.

Lemma rstrip_chars s c :
  c ∈ list_ascii_of_string (PyStr.rstrip s) -> c ∈ list_ascii_of_string s.
Proof.
  induction s as [|a s IH]; simpl; trivial.
  destruct (PyStr.rstrip s) as [|b r].
  - destruct (PyStr.ch_isspace a); simpl.
    + intros []%elem_of_nil.
    + intros ->%list_elem_of_singleton. now left.
  - simpl. intros [->|H]%elem_of_cons; [now left|]. right. apply IH. exact H.
Qed.

Lemma rstrip_idemp s : PyStr.rstrip (PyStr.rstrip s) = PyStr.rstrip s.
Proof.
  induction s as [|a s IH]; simpl; trivial.
  destruct (PyStr.rstrip s) as [|b r] eqn:E.
  - destruct (PyStr.ch_isspace a) eqn:Ea; simpl; trivial. now rewrite Ea.
  - simpl in IH |- *. now rewrite IH.
Qed.

(** Trimming on the right keeps a first character that is not a space. *)
Lemma rstrip_head a s :
  PyStr.ch_isspace a = false ->
  exists r, PyStr.rstrip (String a s) = String a r.
Proof.
  intros Ha. simpl. destruct (PyStr.rstrip s); rewrite ?Ha; eauto.
Qed.

Lemma lstrip_head s :
  PyStr.lstrip s = EmptyString
  \/ exists a r, PyStr.lstrip s = String a r /\ PyStr.ch_isspace a = false.
Proof.
  induction s as [|a s IH]; simpl; [now left|].
  destruct (PyStr.ch_isspace a) eqn:Ea; trivial. right. eauto.
Qed.

Lemma strip_idemp s : PyStr.strip (PyStr.strip s) = PyStr.strip s.
Proof.
  unfold PyStr.strip.
  destruct (lstrip_head s) as [->|(a & r & -> & Ha)]; trivial.
  destruct (rstrip_head a r Ha) as [r' Hr]. rewrite Hr.
  simpl PyStr.lstrip. rewrite Ha, <- Hr. apply rstrip_idemp.
Qed.

(** X12: every heading is a trimmed line: trimming it again changes
    nothing, it holds no line feed, and it has between 4 and 99
    characters. *)
Theorem X12_headings_are_trimmed_lines (full_text h : string) :
  h ∈ extract_headings full_text ->
  PyStr.strip h = h
  /\ (PyStr.newline ∉ list_ascii_of_string h)
  /\ 4 <= PyStr.len h <= 99.
Proof.
  intros (line & Hline & -> & Hh)%elem_of_extract_headings. split_and!.
  - apply strip_idemp.
  - intros Hin. apply (split_no_sep _ _ _ Hline).
    unfold PyStr.strip in Hin. now apply lstrip_chars, rstrip_chars.
  - unfold is_heading in Hh.
    apply andb_prop in Hh as [[H1 H2]%andb_prop _].
    apply Z.ltb_lt in H1, H2. lia.
  - unfold is_heading in Hh.
    apply andb_prop in Hh as [[H1 H2]%andb_prop _].
    apply Z.ltb_lt in H1, H2. lia.
Qed.

Lemma split_app_sep sep a b :
  PyStr.split sep (a +:+ String sep b) = PyStr.split sep a ++ PyStr.split sep b.
Proof.
  induction a as [|c a IH]; simpl.
  - now rewrite decide_True.
  - destruct (decide (c = sep)); [now rewrite IH|].
    rewrite IH. pose proof (split_nonempty sep a).
    destruct (PyStr.split sep a); [contradiction|reflexivity].
Qed.

(** The lines of pages joined by line feeds are the lines of the pages. *)
Lemma split_join_pages (pages : list string) :
  pages <> [] ->
  PyStr.split PyStr.newline (PyStr.join (String PyStr.newline EmptyString) pages)
  = pages ≫= PyStr.split PyStr.newline.
Proof.
  induction pages as [|p pages IH]; [contradiction|]. intros _.
  destruct pages as [|q pages].
  - simpl. now rewrite app_nil_r.
  - change (PyStr.join (String PyStr.newline EmptyString) (p :: q :: pages))
      with (p +:+ String PyStr.newline
              (PyStr.join (String PyStr.newline EmptyString) (q :: pages))).
    rewrite split_app_sep, IH by discriminate. reflexivity.
Qed.

Lemma extract_headings_pages (pages : list string) (h : string) :
  h ∈ extract_headings (PyStr.join (String PyStr.newline EmptyString) pages)
  <-> exists page, page ∈ pages /\ h ∈ extract_headings page.
Proof.
  destruct pages as [|p pages].
  - split.
    + intros (line & Hline & -> & Hh)%elem_of_extract_headings.
      simpl in Hline. apply list_elem_of_singleton in Hline as ->.
      vm_compute in Hh. discriminate.
    + intros (page & []%elem_of_nil & _).
  - rewrite elem_of_extract_headings, split_join_pages by discriminate.
    setoid_rewrite list_elem_of_bind. split.
    + intros (line & (page & Hline & Hpage) & -> & Hh).
      exists page. split; trivial. apply elem_of_extract_headings. eauto.
    + intros (page & Hpage & (line & Hline & -> & Hh)%elem_of_extract_headings).
      exists line. split_and!; eauto.
Qed.

Section HeadingsOfDocument.
Variable PyPDFLoader_load : list Byte.byte -> result (list Document.t).
Variable split_documents : list Document.t -> result (list Document.t).
Variable FAISS_from_documents : list Document.t -> result VectorStore.t.

(** X13: the headings stored for a document are exactly the headings of its
    pages: joining the pages by line feeds neither makes nor loses one. *)
Theorem X13_document_headings_are_page_headings
    (temp_dir : dict string (list Byte.byte)) (file_path filename : string)
    (data : StoreEntry.t) :
  process_pdf PyPDFLoader_load split_documents FAISS_from_documents
    temp_dir file_path filename = Some data ->
  exists bytes documents,
    dict_get temp_dir file_path = Some bytes
    /\ PyPDFLoader_load bytes = Ok documents
    /\ forall h,
         h ∈ StoreEntry.headings data <->
         exists doc, doc ∈ documents
                     /\ h ∈ extract_headings (Document.page_content doc).
Proof.
  intros (bytes & documents & chunks & vs & Hb & Hl & _ & _ & _ & ->)%process_pdf_Some.
  exists bytes, documents. split_and!; trivial.
  intros h. simpl. rewrite extract_headings_pages. split.
  - intros (page & (doc & -> & Hdoc)%list_elem_of_fmap & Hh). eauto.
  - intros (doc & Hdoc & Hh). exists (Document.page_content doc).
    split; trivial. apply list_elem_of_fmap. eauto.
Qed.

End HeadingsOfDocument.

(** * Properties of the summary service of [main.py] *)

Lemma find_app_first {A : Type} (p : A -> bool) (before after : list A) (x : A) :
  Forall (fun y => p y = false) before -> p x = true ->
  List.find p (before ++ x :: after) = Some x.
Proof.
  induction 1 as [|y before Hy _ IH]; intros Hx; simpl.
  - now rewrite Hx.
  - rewrite Hy. auto.
Qed.

Lemma find_none_Forall {A : Type} (p : A -> bool) (l : list A) :
  Forall (fun y => p y = false) l -> List.find p l = None.
Proof. induction 1 as [|y l Hy _ IH]; simpl; trivial. now rewrite Hy. Qed.

Lemma find_none_inv {A : Type} (p : A -> bool) (l : list A) :
  List.find p l = None -> Forall (fun y => p y = false) l.
Proof.
  induction l as [|y l IH]; simpl; [constructor|].
  destruct (p y) eqn:E; [discriminate|]. auto.
Qed.

Lemma find_some_holds {A : Type} (p : A -> bool) (l : list A) x :
  List.find p l = Some x -> p x = true.
Proof.
  induction l as [|y l IH]; simpl; [discriminate|].
  destruct (p y) eqn:E; [now intros [= <-]|auto].
Qed.

Section MainFacts.
Variable os_path_join : string -> string.
Variable write_raises :
  dict string (list Byte.byte) -> string -> list Byte.byte -> option string.
Variable PyPDFLoader_load : list Byte.byte -> result (list Document.t).
Variable split_documents : list Document.t -> result (list Document.t).
Variable llm_invoke : string -> result string.
Variable json_loads : string -> Main.JsonOutcome.
Variable str_of : exn -> string.

Abbreviation extract_pdf_content :=
  (Main.extract_pdf_content PyPDFLoader_load split_documents str_of).
Abbreviation analyze_pdf_content :=
  (Main.analyze_pdf_content llm_invoke json_loads str_of).
Abbreviation process_single_pdf :=
  (Main.process_single_pdf PyPDFLoader_load split_documents llm_invoke
     json_loads str_of).
Abbreviation analyze_pdfs :=
  (Main.analyze_pdfs os_path_join write_raises PyPDFLoader_load split_documents
     llm_invoke json_loads str_of).
Abbreviation written := (Main.written os_path_join).
Abbreviation write_failure := (write_failure os_path_join write_raises).

Lemma PDFSummary_validate_filename name summary titles r :
  Main.PDFSummary_validate name summary titles = Ok r -> PDFSummary.filename r = name.
Proof.
  unfold Main.PDFSummary_validate.
  destruct (coerce_str summary), (Main.coerce_titles titles); try discriminate.
  now intros [= <-].
Qed.

(** Every summary carries the name it was asked for. *)
Lemma analyze_pdf_content_filename documents name :
  PDFSummary.filename (analyze_pdf_content documents name) = name.
Proof.
  unfold analyze_pdf_content, Main.analyze_pdf_content.
  destruct (PyStr.strip _) as [|c stripped]; trivial.
  destruct (PyStr.len _ <? 50); trivial.
  destruct (llm_invoke _) as [content|e]; simpl; trivial.
  destruct (Main.parse_response json_loads content) as [[summary titles]|e];
    simpl; trivial.
  destruct (Main.PDFSummary_validate name summary titles) as [r|e] eqn:E; trivial.
  now apply PDFSummary_validate_filename in E.
Qed.

Lemma process_single_pdf_filename temp_dir path name :
  PDFSummary.filename (process_single_pdf temp_dir path name) = name.
Proof.
  unfold process_single_pdf, Main.process_single_pdf.
  destruct (extract_pdf_content temp_dir path); trivial.
  apply analyze_pdf_content_filename.
Qed.

(** A task reads the file at its path and nothing else. *)
Lemma process_single_pdf_reads_path (temp_dir1 temp_dir2 : dict string (list Byte.byte))
    path name :
  dict_get temp_dir1 path = dict_get temp_dir2 path ->
  process_single_pdf temp_dir1 path name = process_single_pdf temp_dir2 path name.
Proof.
  intros H. unfold process_single_pdf, Main.process_single_pdf,
    extract_pdf_content, Main.extract_pdf_content. now rewrite H.
Qed.

(** The loop that writes the uploads and creates the tasks: it raises with
    the first failure of a write, and otherwise every upload is written and
    has its task. *)
Lemma write_loop files (temp_dir : dict string (list Byte.byte))
    (tasks : list (string * string)) :
  Forall (fun file => is_pdf_name file = true) files ->
  Main.write_uploads os_path_join write_raises temp_dir tasks files
  = match write_failure temp_dir files with
    | Some what => Raise (ExternalError what)
    | None =>
        Ok (written temp_dir files,
            tasks ++ ((fun file =>
                         (os_path_join (UploadFile.filename file),
                          UploadFile.filename file)) <$> files))
    end.
Proof.
  intros Hpdf. revert temp_dir tasks.
  induction Hpdf as [|file files Hp _ IH]; intros temp_dir tasks.
  - simpl. now rewrite app_nil_r.
  - rewrite write_failure_cons, Hp. cbn [Main.write_uploads]. unfold write_file.
    destruct (write_raises temp_dir _ _) as [what|]; [reflexivity|].
    simpl. rewrite IH.
    destruct (write_failure _ files); [reflexivity|].
    csimpl. now rewrite <- app_assoc.
Qed.

(** The failure of a batch is the failure of the write of one upload, the
    uploads before it being written. *)
Lemma write_failure_Some files (temp_dir : dict string (list Byte.byte)) what :
  Forall (fun file => is_pdf_name file = true) files ->
  write_failure temp_dir files = Some what ->
  exists before file after,
    files = before ++ file :: after
    /\ write_raises (written temp_dir before)
         (os_path_join (UploadFile.filename file)) (UploadFile.content file)
       = Some what.
Proof.
  intros Hpdf. revert temp_dir.
  induction Hpdf as [|file files Hp _ IH]; intros temp_dir; [discriminate|].
  rewrite write_failure_cons, Hp.
  destruct (write_raises temp_dir _ _) as [what'|] eqn:Hw.
  - intros [= ->]. now exists [], file, files.
  - intros (before & file' & after & -> & Hw')%IH.
    now exists (file :: before), file', after.
Qed.

Lemma analyze_pdfs_valid analysis_id processing_time files :
  files <> [] ->
  Forall (fun file => is_pdf_name file = true) files ->
  analyze_pdfs analysis_id processing_time files
  = match write_failure [] files with
    | Some what => Raise (ExternalError what)
    | None =>
        Ok (SummaryResponse.mk analysis_id (Z.of_nat (length files))
              ((fun file =>
                  process_single_pdf (written [] files)
                    (os_path_join (UploadFile.filename file))
                    (UploadFile.filename file)) <$> files)
              processing_time)
    end.
Proof.
  intros Hne Hpdf. unfold analyze_pdfs, Main.analyze_pdfs.
  destruct files as [|file files]; [contradiction|].
  rewrite find_none_Forall, write_loop; trivial.
  - destruct (write_failure [] (file :: files)); [reflexivity|].
    simpl. rewrite <- list_fmap_compose, !length_fmap. reflexivity.
  - eapply Forall_impl; [exact Hpdf|]. intros f Hf. simpl. now rewrite Hf.
Qed.

(** A request that returns has checked the names and written every
    upload. *)
Lemma analyze_pdfs_Ok analysis_id processing_time files response :
  analyze_pdfs analysis_id processing_time files = Ok response ->
  files <> []
  /\ Forall (fun file => is_pdf_name file = true) files
  /\ write_failure [] files = None.
Proof.
  intros Hok.
  assert (Hne : files <> []) by (intros ->; discriminate).
  assert (Hpdf : Forall (fun f => is_pdf_name f = true) files).
  { unfold analyze_pdfs, Main.analyze_pdfs in Hok.
    destruct files as [|f0 files]; [contradiction|].
    destruct (List.find _ (f0 :: files)) eqn:Ef; [discriminate|].
    apply find_none_inv in Ef. eapply Forall_impl; [exact Ef|].
    intros f Hf. simpl in Hf. now destruct (is_pdf_name f). }
  split_and!; trivial.
  rewrite analyze_pdfs_valid in Hok by trivial.
  now destruct (write_failure [] files).
Qed.

End MainFacts.

Lemma string_length_app (a b : string) :
  String.length (a +:+ b) = (String.length a + String.length b)%nat.
Proof.
  induction a as [|c a IH]; [reflexivity|].
  change (S (String.length (a +:+ b)) = S (String.length a + String.length b)).
  now rewrite IH.
Qed.

Lemma length_take_str n s :
  String.length (PyText.take_str n s) = Nat.min n (String.length s).
Proof.
  revert s. induction n as [|n IH]; intros [|c s]; simpl; trivial. now rewrite IH.
Qed.

Lemma take_str_app n a b :
  (n <= String.length a)%nat -> PyText.take_str n (a +:+ b) = PyText.take_str n a.
Proof.
  revert a. induction n as [|n IH]; intros [|c a] Hn; simpl in *; try lia.
  - now destruct b.
  - reflexivity.
  - change (String c (PyText.take_str n (a +:+ b)) = String c (PyText.take_str n a)).
    rewrite IH; trivial. lia.
Qed.

Lemma take_str_idemp n s : PyText.take_str n (PyText.take_str n s) = PyText.take_str n s.
Proof.
  revert s. induction n as [|n IH]; intros [|c s]; simpl; trivial. now rewrite IH.
Qed.

Lemma length_lstrip s : (String.length (PyStr.lstrip s) <= String.length s)%nat.
Proof.
  induction s as [|c s IH]; simpl; trivial.
  destruct (PyStr.ch_isspace c); simpl; lia.
Qed.

Lemma length_rstrip s : (String.length (PyStr.rstrip s) <= String.length s)%nat.
Proof.
  induction s as [|c s IH]; simpl; trivial.
  destruct (PyStr.rstrip s); [destruct (PyStr.ch_isspace c)|]; simpl in *; lia.
Qed.

Lemma len_strip s : PyStr.len (PyStr.strip s) <= PyStr.len s.
Proof.
  unfold PyStr.len, PyStr.strip.
  pose proof (length_rstrip (PyStr.lstrip s)). pose proof (length_lstrip s). lia.
Qed.

(** The content given to the model is the text, cut after 8000 characters
    and marked when it was longer. *)
Lemma prepare_content_bounds s :
  PyStr.len (Main.prepare_content s) <= 8023
  /\ (PyStr.len s <= 8000 -> Main.prepare_content s = s)
  /\ (8000 < PyStr.len s -> PyStr.len (Main.prepare_content s) = 8023)
  /\ PyText.take_str (Z.to_nat 8000) (Main.prepare_content s)
     = PyText.take_str (Z.to_nat 8000) s.
Proof.
  unfold Main.prepare_content, PyStr.len.
  destruct (8000 <? Z.of_nat (String.length s)) eqn:E.
  - apply Z.ltb_lt in E.
    assert (Hlen : String.length (PyText.take_str (Z.to_nat 8000) s) = Z.to_nat 8000).
    { rewrite length_take_str. lia. }
    rewrite string_length_app, Hlen.
    change (String.length Main.TRUNCATED) with 23%nat.
    split_and!; try lia.
    rewrite take_str_app by lia. apply take_str_idemp.
  - apply Z.ltb_ge in E. split_and!; trivial; lia.
Qed.

Lemma contains_colon_after_first s :
  PyText.contains s ":" = true -> is_Some (PyText.after_first PyText.colon s).
Proof.
  induction s as [|c s IH]; simpl; [discriminate|].
  destruct (decide (PyText.colon = c)) as [<-|Hc].
  - intros _. rewrite decide_True by reflexivity. eauto.
  - change (":"%char) with PyText.colon. rewrite decide_False by trivial. simpl.
    intros H. destruct (decide (c = PyText.colon)); [congruence|]. auto.
Qed.

Section MainProperties.
Variable os_path_join : string -> string.
Variable write_raises :
  dict string (list Byte.byte) -> string -> list Byte.byte -> option string.
Variable PyPDFLoader_load : list Byte.byte -> result (list Document.t).
Variable split_documents : list Document.t -> result (list Document.t).
Variable llm_invoke : string -> result string.
Variable json_loads : string -> Main.JsonOutcome.
Variable str_of : exn -> string.

Abbreviation extract_pdf_content :=
  (Main.extract_pdf_content PyPDFLoader_load split_documents str_of).
Abbreviation analyze_pdf_content :=
  (Main.analyze_pdf_content llm_invoke json_loads str_of).
Abbreviation process_single_pdf :=
  (Main.process_single_pdf PyPDFLoader_load split_documents llm_invoke
     json_loads str_of).
Abbreviation analyze_pdfs :=
  (Main.analyze_pdfs os_path_join write_raises PyPDFLoader_load split_documents
     llm_invoke json_loads str_of).
Abbreviation written := (Main.written os_path_join).

(** X17: one file whose name does not end in [.pdf] rejects the whole
    batch, with the name of the first such file, whatever the files hold:
    nothing is written, loaded or summarised. *)
Theorem X17_non_pdf_rejects_batch analysis_id processing_time
    (before after : list UploadFile.t) (file : UploadFile.t) :
  Forall (fun f => is_pdf_name f = true) before ->
  is_pdf_name file = false ->
  analyze_pdfs analysis_id processing_time (before ++ file :: after)
  = Raise (Main.NOT_A_PDF (UploadFile.filename file)).
Proof.
  intros Hbefore Hfile. unfold analyze_pdfs, Main.analyze_pdfs.
  rewrite (find_app_first _ before after file).
  - destruct before; reflexivity.
  - eapply Forall_impl; [exact Hbefore|]. intros f Hf. simpl. now rewrite Hf.
  - now rewrite Hfile.
Qed.

(** X18: once the names are accepted, the one failure that is left is the
    write of an upload to the temporary directory, which no handler covers.
    Either the request is answered, and then every upload is: the response
    holds one summary per file, in the order of the files and under their
    names, whether or not the document could be loaded or summarised.  Or
    the write of one upload raises, the uploads before it being written,
    and the request fails with that error. *)
Theorem X18_one_summary_per_upload analysis_id processing_time
    (files : list UploadFile.t) :
  files <> [] ->
  Forall (fun f => is_pdf_name f = true) files ->
  (exists response,
     analyze_pdfs analysis_id processing_time files = Ok response
     /\ PDFSummary.filename <$> SummaryResponse.results response
        = UploadFile.filename <$> files
     /\ SummaryResponse.total_documents response = Z.of_nat (length files)
     /\ SummaryResponse.analysis_id response = analysis_id)
  \/ (exists before file after what,
        files = before ++ file :: after
        /\ write_raises (written [] before)
             (os_path_join (UploadFile.filename file)) (UploadFile.content file)
           = Some what
        /\ analyze_pdfs analysis_id processing_time files
           = Raise (ExternalError what)).
Proof.
  intros Hne Hpdf. rewrite analyze_pdfs_valid by trivial.
  destruct (write_failure os_path_join write_raises [] files) as [what|] eqn:Hw.
  - right. apply write_failure_Some in Hw as (before & file & after & -> & Hw);
      trivial.
    exists before, file, after, what. auto.
  - left. eexists. split; [reflexivity|].
    simpl. split_and!; trivial.
    rewrite <- list_fmap_compose. apply list_fmap_ext. intros i f _. simpl.
    apply process_single_pdf_filename.
Qed.

(** X19: the uploads are all written before any of them is read.  When the
    paths of several uploads name one file, as those of [a.pdf] and
    [./a.pdf] do, the summary of each of them is computed from the bytes of
    the last one. *)
Theorem X19_same_name_reads_last_upload analysis_id processing_time
    (files : list UploadFile.t) response i file :
  analyze_pdfs analysis_id processing_time files = Ok response ->
  files !! i = Some file ->
  exists latest,
    last (filter (fun f => os_path_join (UploadFile.filename f)
                           = os_path_join (UploadFile.filename file)) files)
      = Some latest
    /\ SummaryResponse.results response !! i
       = Some (process_single_pdf
                 [(os_path_join (UploadFile.filename file), UploadFile.content latest)]
                 (os_path_join (UploadFile.filename file))
                 (UploadFile.filename file)).
Proof.
  intros Hok Hi.
  destruct (analyze_pdfs_Ok _ _ _ _ _ _ _ _ _ _ _ Hok) as (Hne & Hpdf & Hw).
  rewrite analyze_pdfs_valid, Hw in Hok by trivial. injection Hok as <-. simpl.
  pose proof (update_loop_get
                (fun f => os_path_join (UploadFile.filename f)) UploadFile.content
                [] files (os_path_join (UploadFile.filename file))) as Hget.
  destruct (last _) as [latest|] eqn:El.
  - exists latest. split; trivial.
    rewrite list_lookup_fmap, Hi. simpl. f_equal.
    apply process_single_pdf_reads_path. unfold Main.written.
    rewrite Hget. simpl.
    now rewrite decide_True.
  - apply last_None in El.
    assert (Hf : file ∈ filter
                   (fun f => os_path_join (UploadFile.filename f)
                             = os_path_join (UploadFile.filename file)) files).
    { apply list_elem_of_filter. split; trivial.
      eapply list_elem_of_lookup_2, Hi. }
    rewrite El in Hf. now apply elem_of_nil in Hf.
Qed.

(** X21: titles come from a decoded reply only.  A summary with a title
    shows that the document was loaded and split, that the model replied to
    the prepared text, that the cleaned reply decoded to an object, and that
    its titles are a list of strings: those of the summary. *)
Theorem X21_titles_come_from_decoded_reply
    (temp_dir : dict string (list Byte.byte)) (path name : string) :
  PDFSummary.titles (process_single_pdf temp_dir path name) <> [] ->
  exists chunks content analysis_data values,
    extract_pdf_content temp_dir path = Ok chunks
    /\ llm_invoke
         (Main.prepare_content
            (PyStr.join (String PyStr.newline EmptyString)
               (Document.page_content <$> chunks))) = Ok content
    /\ json_loads (Main.clean_response content) = Main.Decoded (PDict analysis_data)
    /\ dict_get analysis_data "titles" = Some (PList values)
    /\ mapM coerce_str values
       = Some (PDFSummary.titles (process_single_pdf temp_dir path name)).
Proof.
  unfold process_single_pdf, Main.process_single_pdf.
  destruct (extract_pdf_content temp_dir path) as [chunks|e];
    [|intros H; now contradiction H].
  unfold Main.analyze_pdf_content.
  destruct (PyStr.strip _) as [|c stripped]; [intros H; now contradiction H|].
  destruct (PyStr.len _ <? 50); [intros H; now contradiction H|].
  destruct (llm_invoke _) as [content|e] eqn:El; simpl;
    [|intros H; now contradiction H].
  unfold Main.parse_response.
  destruct (json_loads (Main.clean_response content)) as [v| |e] eqn:Ej.
  - destruct v as [| | | | | |d]; simpl; try (intros H; now contradiction H).
    unfold Main.PDFSummary_validate.
    destruct (coerce_str _) as [summary|]; simpl;
      [|intros H; now contradiction H].
    destruct (dict_get d "titles") as [tv|] eqn:Et; simpl.
    + destruct tv as [| | | | |values|]; simpl; try (intros H; now contradiction H).
      destruct (mapM coerce_str values) as [titles|] eqn:Em; simpl;
        [|intros H; now contradiction H].
      intros _. exists chunks, content, d, values. split_and!; trivial.
    + intros H. now contradiction H.
  - destruct (Main.fallback_summary content) as [summary|e]; simpl;
      intros H; now contradiction H.
  - simpl. intros H. now contradiction H.
Qed.

(** X22: the handler of [json.JSONDecodeError] never raises: the subscript
    after the split is guarded by the test for a colon.  Hence parsing a
    reply raises in two cases only: the reply decodes to a value that is
    not an object, or [json.loads] raises an exception that is not a
    [json.JSONDecodeError], which the handler does not catch.  Either way
    the exception ends in the summary that reports it. *)
Theorem X22_fallback_never_raises (content : string) :
  is_Ok (Main.fallback_summary content) = true
  /\ (forall e,
        Main.parse_response json_loads content = Raise e <->
        (e = Main.ATTRIBUTE_ERROR
         /\ exists v, json_loads (Main.clean_response content) = Main.Decoded v
                      /\ forall d, v <> PDict d)
        \/ json_loads (Main.clean_response content) = Main.JsonRaised e)
  /\ (forall documents name e,
        llm_invoke
          (Main.prepare_content
             (PyStr.join (String PyStr.newline EmptyString)
                (Document.page_content <$> documents))) = Ok content ->
        50 <= PyStr.len
                (PyStr.strip
                   (PyStr.join (String PyStr.newline EmptyString)
                      (Document.page_content <$> documents))) ->
        Main.parse_response json_loads content = Raise e ->
        analyze_pdf_content documents name
        = PDFSummary.mk name ("Error during analysis: " +:+ str_of e) []).
Proof.
  assert (Hfb : is_Ok (Main.fallback_summary content) = true).
  { unfold Main.fallback_summary.
    destruct (PyText.contains (PyStr.lower content) "summary"); trivial.
    destruct (List.find _ _) as [line|] eqn:Ef; trivial.
    apply find_some_holds in Ef. apply andb_prop in Ef as [_ Hc].
    apply contains_colon_after_first in Hc as [rest ->]. reflexivity. }
  split_and!; trivial.
  - intros e. unfold Main.parse_response.
    destruct (json_loads (Main.clean_response content)) as [v| |e'].
    + destruct v; (split;
        [intros [= <-]; left; split; trivial; eexists; split;
           [reflexivity|discriminate]
        |intros [[-> _]|[=]]; reflexivity]) ||
        (split; [discriminate|]; intros [[_ (v & [= <-] & Hv)]|[=]];
           now contradiction (Hv d)).
    + destruct (Main.fallback_summary content); simpl in *; [|discriminate].
      split; [discriminate|]. intros [[_ (v & [=] & _)]|[=]].
    + split; [intros [= <-]; now right|].
      intros [[_ (v & [=] & _)]|[= <-]]; reflexivity.
  - intros documents name e Hl Hlen Hp.
    unfold analyze_pdf_content, Main.analyze_pdf_content.
    destruct (PyStr.strip _) as [|c stripped] eqn:Es.
    { unfold PyStr.len in Hlen. simpl in Hlen. lia. }
    apply Z.ltb_ge in Hlen. rewrite Hlen, Hl. simpl. now rewrite Hp.
Qed.

End MainProperties.

(** X20: the model is consulted with a content of 50 to 8023 characters
    only.  A document with less text is answered without it, and a longer
    text is cut: two models that agree on such contents give the same
    summary of every document. *)
Theorem X20_model_consulted_within_bounds
    (llm1 llm2 : string -> result string) (json_loads : string -> Main.JsonOutcome)
    (str_of : exn -> string) (documents : list Document.t) (name : string) :
  (forall content, 50 <= PyStr.len content <= 8023 -> llm1 content = llm2 content) ->
  Main.analyze_pdf_content llm1 json_loads str_of documents name
  = Main.analyze_pdf_content llm2 json_loads str_of documents name.
Proof.
  intros Hagree. unfold Main.analyze_pdf_content.
  set (full := PyStr.join _ _).
  destruct (PyStr.strip full) as [|c stripped] eqn:Es; trivial.
  destruct (PyStr.len (String c stripped) <? 50) eqn:El; trivial.
  apply Z.ltb_ge in El. rewrite <- Es in El.
  pose proof (len_strip full) as Hstrip.
  destruct (prepare_content_bounds full) as (Hmax & Hshort & Hlong & _).
  rewrite Hagree; trivial. split; trivial.
  destruct (Z.le_gt_cases (PyStr.len full) 8000) as [Hle|Hgt].
  - rewrite Hshort by trivial. lia.
  - rewrite Hlong by lia. lia.
Qed.

(** * Further properties of the headings and of the title test *)

Lemma headings_loop_size (lines : list string) (seen : gset string) :
  (size (foldl (fun (headings : gset string) line =>
                  let trimmed_line := PyStr.strip line in
                  if is_heading trimmed_line then headings ∪ {[ trimmed_line ]}
                  else headings) seen lines)
   <= size seen + length lines)%nat.
Proof.
  revert seen. induction lines as [|line lines IH]; intros seen; simpl; [lia|].
  etransitivity; [apply IH|].
  destruct (is_heading (PyStr.strip line)); [|lia].
  rewrite size_union_alt.
  assert (size (({[PyStr.strip line]} : gset string) ∖ seen) <= 1)%nat.
  { rewrite <- (size_singleton (C := gset string) (PyStr.strip line)).
    apply subseteq_size, subseteq_difference_l. reflexivity. }
  lia.
Qed.

(** X15: a text has at most as many headings as lines. *)
Theorem X15_headings_at_most_lines (full_text : string) :
  (length (extract_headings full_text)
   <= length (PyStr.split PyStr.newline full_text))%nat.
Proof.
  unfold extract_headings.
  etransitivity; [apply headings_loop_size|].
  rewrite size_empty. lia.
Qed.

Lemma ch_isspace_lower c : PyStr.ch_isspace (PyStr.ch_lower c) = PyStr.ch_isspace c.
Proof. destruct c as [[] [] [] [] [] [] [] []]; reflexivity. Qed.

Lemma ch_lower_idemp c : PyStr.ch_lower (PyStr.ch_lower c) = PyStr.ch_lower c.
Proof. destruct c as [[] [] [] [] [] [] [] []]; reflexivity. Qed.

Lemma lower_idemp s : PyStr.lower (PyStr.lower s) = PyStr.lower s.
Proof. induction s as [|c s IH]; simpl; [trivial|]. now rewrite ch_lower_idemp, IH. Qed.

Lemma lstrip_lower s : PyStr.lstrip (PyStr.lower s) = PyStr.lower (PyStr.lstrip s).
Proof.
  induction s as [|c s IH]; simpl; trivial.
  rewrite ch_isspace_lower. now destruct (PyStr.ch_isspace c).
Qed.

Lemma rstrip_lower s : PyStr.rstrip (PyStr.lower s) = PyStr.lower (PyStr.rstrip s).
Proof.
  induction s as [|c s IH]; simpl; trivial.
  rewrite IH, ch_isspace_lower.
  destruct (PyStr.rstrip s); simpl; trivial.
  now destruct (PyStr.ch_isspace c).
Qed.

(** X16: the form of a title that is looked up in the stoplist does not
    depend on whether the title is trimmed or lower-cased first, and taking
    the form of a form changes nothing. *)
Theorem X16_title_form_is_canonical (title : string) :
  PyStr.strip (PyStr.lower title) = PyStr.lower (PyStr.strip title)
  /\ PyStr.strip (PyStr.lower (PyStr.strip (PyStr.lower title)))
     = PyStr.strip (PyStr.lower title).
Proof.
  assert (H : forall s, PyStr.strip (PyStr.lower s) = PyStr.lower (PyStr.strip s)).
  { intros s. unfold PyStr.strip. now rewrite lstrip_lower, rstrip_lower. }
  split; [apply H|].
  now rewrite <- H, lower_idemp, strip_idemp.
Qed.

(** * The further properties at concrete inputs *)

Lemma X1_witness :
  example_chat = Ok example_response
  /\ length (StructuredChatResponse.extracted_sections example_response) = 3%nat.
Proof.
  split; [exact example_chat_succeeds|].
  rewrite (proj1 (X1_result_count no_float_of_str example_chain example_stores
                    example_request example_response example_chat_succeeds)).
  vm_compute. reflexivity.
Defined.

(** Of nine chunks that pass the filter the two with the least scores are
    left out. *)
Lemma X2_witness :
  ProcessedChunk.relevance_score
    <$> drop TOP_N
          (sorted_results
             (scored no_float_of_str example_chain_many example_stores_many
                example_request (retrieved example_stores_many "q")))
    = [0.53125%float; 0.5%float]
  /\ Forall (fun kept =>
               PyFloat.fle 0.53125%float (ProcessedChunk.relevance_score kept) = true)
            (take TOP_N
               (sorted_results
                  (scored no_float_of_str example_chain_many example_stores_many
                     example_request (retrieved example_stores_many "q")))).
Proof.
  split; [vm_compute; reflexivity|].
  pose proof (X2_left_out_never_better no_float_of_str example_chain_many
                example_stores_many example_request
                (retrieved example_stores_many "q")) as H.
  eapply Forall_impl; [exact H|]. intros kept Hkept. simpl in Hkept.
  rewrite Forall_forall in Hkept.
  apply (Hkept (ProcessedChunk.mk "Results" "c7" 0.53125%float "a.pdf" 7)).
  vm_compute. repeat constructor.
Defined.

Lemma X4_witness :
  example_chat = Ok example_response
  /\ dict_contains example_stores "a.pdf" = true.
Proof.
  split; [exact example_chat_succeeds|].
  apply (X4_results_name_registered_documents no_float_of_str example_chain
           example_stores example_request example_response example_chat_succeeds
           (ExtractedSection.mk "a.pdf" "Methods" 1 2)).
  vm_compute. repeat constructor.
Defined.

Lemma X6_witness :
  unique_docs [example_doc "alpha" (Some "a.pdf") 0; example_doc "beta" (Some "a.pdf") 1]
  = [example_doc "alpha" (Some "a.pdf") 0; example_doc "beta" (Some "a.pdf") 1].
Proof.
  apply (proj1 (X6_dedup_idempotent _)). vm_compute.
  repeat constructor; rewrite ?elem_of_cons, ?elem_of_nil; intuition discriminate.
Defined.

(** The reply of the capability claims a document of its own; the scored
    chunk still names the document of the chunk. *)
Lemma X8_witness :
  process_chunk no_float_of_str
    (fun _ => ChainReturned (PDict (dict_set example_reply "document" (PStr "forged.pdf"))))
    (example_doc "alpha" (Some "a.pdf") 0) "q" "p" ["Results"]
  = Some (ProcessedChunk.mk "Results" "Revenue grew." 0.5%float "a.pdf" 1).
Proof.
  rewrite <- (X8_other_reply_keys_ignored no_float_of_str
                (fun _ => ChainReturned (PDict example_reply))
                (fun _ => ChainReturned
                            (PDict (dict_set example_reply "document" (PStr "forged.pdf"))))
                (example_doc "alpha" (Some "a.pdf") 0) "q" "p" ["Results"]
                example_reply "document" (PStr "forged.pdf"));
    try discriminate; reflexivity.
Defined.

(** Two uploads named [report.pdf], the first of which is broken: the
    registry holds the second; [old.pdf] stays registered.  In the batch
    whose second write raises, the third document is not registered. *)
Lemma X9_witness :
  StoreEntry.headings
    <$> dict_get (analyze_pdfs_endpoint example_join example_write_raises
                    example_load example_split example_index
                    "id" example_registry example_files_renamed).1 "old.pdf"
  = Some ["Old Heading"]
  /\ StoreEntry.headings
       <$> dict_get (analyze_pdfs_endpoint example_join example_write_raises
                       example_load example_split example_index
                       "id" example_registry example_files_nested).1 "late.pdf"
     = None.
Proof.
  split.
  - rewrite (proj1 (X9_last_success_is_registered example_join example_write_raises
                      example_load example_split example_index
                      "id" example_registry example_files_renamed "old.pdf")).
    vm_compute. reflexivity.
  - rewrite (proj1 (X9_last_success_is_registered example_join example_write_raises
                      example_load example_split example_index
                      "id" example_registry example_files_nested "late.pdf")).
    vm_compute. reflexivity.
Defined.

Lemma X10_witness :
  (analyze_pdfs_endpoint example_join example_write_raises
     example_load example_split example_index
     "id" example_registry [UploadFile.mk "broken.pdf" []]).2
  = Raise NONE_PROCESSED
  /\ (analyze_pdfs_endpoint example_join example_write_raises
        example_load example_split example_index
        "id" example_registry [UploadFile.mk "broken.pdf" []]).1
     = example_registry.
Proof.
  split; [vm_compute; reflexivity|].
  apply X10_failed_ingestion_keeps_registry. right. vm_compute. reflexivity.
Defined.

Lemma X11_witness :
  dict_keys (analyze_pdfs_endpoint example_join example_write_raises
               example_load example_split example_index
               "id" example_registry example_files_renamed).1
  = ["old.pdf"; "report.pdf"; "other.pdf"]
  /\ ["old.pdf"] `prefix_of`
       dict_keys (analyze_pdfs_endpoint example_join example_write_raises
                    example_load example_split example_index
                    "id" example_registry example_files_renamed).1.
Proof.
  split; [vm_compute; reflexivity|].
  exact (proj1 (X11_registry_only_grows example_join example_write_raises
                  example_load example_split example_index
                  "id" example_registry example_files_renamed)).
Defined.

Lemma X12_witness :
  "Some Heading Words" ∈ extract_headings example_text
  /\ PyStr.strip "Some Heading Words" = "Some Heading Words".
Proof.
  assert (H : "Some Heading Words" ∈ extract_headings example_text).
  { apply elem_of_extract_headings. exists "  Some Heading Words  ".
    split_and!; [vm_compute; repeat constructor|reflexivity|reflexivity]. }
  split; [exact H|].
  exact (proj1 (X12_headings_are_trimmed_lines example_text _ H)).
Defined.

Lemma X13_witness :
  exists data,
    process_pdf example_load example_split example_index
      [("first.pdf", [Byte.x25])] "first.pdf" "first.pdf" = Some data
    /\ "RESULTS" ∈ StoreEntry.headings data.
Proof.
  eexists. split; [reflexivity|].
  destruct (X13_document_headings_are_page_headings example_load example_split
              example_index [("first.pdf", [Byte.x25])] "first.pdf" "first.pdf"
              _ eq_refl) as (bytes & documents & Hb & Hl & Hiff).
  apply Hiff. injection Hb as <-. injection Hl as <-.
  eexists. split; [now left|]. vm_compute. repeat constructor.
Defined.

Lemma X14_witness :
  chat_with_pdfs no_float_of_str example_chain
    (analyze_pdfs_endpoint example_join example_write_raises
       example_load example_split example_index
       "id" [] [UploadFile.mk "first.pdf" [Byte.x25]]).1 example_request
  <> Raise NO_PDFS.
Proof.
  eapply (X14_query_after_ingestion_finds_documents example_join example_write_raises
            example_load example_split example_index no_float_of_str example_chain
            "id" [] [UploadFile.mk "first.pdf" [Byte.x25]]); reflexivity.
Defined.

Lemma X17_witness :
  Main.analyze_pdfs example_join example_write_raises example_load_long
    example_split example_llm example_json_loads example_str_of "id" 0.5%float
    [UploadFile.mk "a.pdf" [Byte.x25]; UploadFile.mk "notes.txt" [Byte.x25];
     UploadFile.mk "b.pdf" [Byte.x25]]
  = Raise (HTTPException 400 "File notes.txt is not a PDF").
Proof.
  apply (X17_non_pdf_rejects_batch example_join example_write_raises
           example_load_long example_split example_llm
           example_json_loads example_str_of "id" 0.5%float
           [UploadFile.mk "a.pdf" [Byte.x25]] [UploadFile.mk "b.pdf" [Byte.x25]]
           (UploadFile.mk "notes.txt" [Byte.x25])).
  - repeat constructor.
  - reflexivity.
Defined.

Lemma X18_witness :
  exists response,
    example_summaries = Ok response
    /\ PDFSummary.filename <$> SummaryResponse.results response
       = ["a.pdf"; "b.pdf"; "./a.pdf"].
Proof.
  destruct (X18_one_summary_per_upload example_join example_write_raises
              example_load_long example_split example_llm
              example_json_loads example_str_of "id" 0.5%float example_uploads)
    as [(response & Hok & Hnames & _)|(before & file & after & what & _ & _ & Hraise)].
  - discriminate.
  - repeat constructor.
  - exists response. split; [exact Hok|exact Hnames].
  - vm_compute in Hraise. discriminate Hraise.
Defined.

(** The upload named [a.pdf] is empty, but its summary is that of the later
    upload named [./a.pdf], which is written to the same file. *)
Lemma X19_witness :
  exists response,
    example_summaries = Ok response
    /\ SummaryResponse.results response !! 0%nat = Some (example_summary "a.pdf").
Proof.
  eexists. split; [vm_compute; reflexivity|].
  destruct (X19_same_name_reads_last_upload example_join example_write_raises
              example_load_long example_split
              example_llm example_json_loads example_str_of "id" 0.5%float
              example_uploads _ 0%nat (UploadFile.mk "a.pdf" []) eq_refl eq_refl)
    as (latest & Hlast & Hres).
  vm_compute in Hlast. injection Hlast as <-.
  etransitivity; [exact Hres|]. vm_compute. reflexivity.
Defined.

Lemma X20_witness :
  Main.analyze_pdf_content example_llm example_json_loads example_str_of
    [Document.mk example_page (Document.mkMetadata None (Some 0))] "a.pdf"
  = Main.analyze_pdf_content example_llm_bounded example_json_loads example_str_of
      [Document.mk example_page (Document.mkMetadata None (Some 0))] "a.pdf".
Proof.
  apply X20_model_consulted_within_bounds. intros content [Hlo Hhi].
  unfold example_llm_bounded.
  rewrite (proj2 (Z.ltb_ge _ _)), (proj2 (Z.ltb_ge _ _)) by lia. reflexivity.
Defined.

Lemma X21_witness :
  exists chunks,
    Main.extract_pdf_content example_load_long example_split example_str_of
      [("a.pdf", [Byte.x25])] "a.pdf" = Ok chunks
    /\ length chunks = 1%nat.
Proof.
  destruct (X21_titles_come_from_decoded_reply example_load_long example_split
              example_llm example_json_loads example_str_of
              [("a.pdf", [Byte.x25])] "a.pdf" "a.pdf")
    as (chunks & content & d & values & Hx & _).
  - vm_compute. discriminate.
  - exists chunks. split; [exact Hx|].
    vm_compute in Hx. injection Hx as <-. reflexivity.
Defined.

(** A decoder that raises an exception that is not a [JSONDecodeError]: the
    summary reports it. *)
Lemma X22_witness :
  Main.analyze_pdf_content example_llm example_json_raising example_str_of
    [Document.mk example_page (Document.mkMetadata None (Some 0))] "a.pdf"
  = PDFSummary.mk "a.pdf" "Error during analysis: ValueError" [].
Proof.
  apply (proj2 (proj2 (X22_fallback_never_raises example_llm example_json_raising
                         example_str_of "  ```json REPLY ```  "))
           _ _ (ExternalError "ValueError")).
  - reflexivity.
  - vm_compute. discriminate.
  - reflexivity.
Defined.
